(** * KK & NIK data validation: a shallow embedding of [app.py]

    The development follows the parts of the program:
    the city reference list (lines 274-296), the validation pass
    [clean_data] (lines 25-101), the summary statistics of
    [generate_summary_excel] (lines 103-138), the figures of
    [create_executive_dashboard] (lines 141-244) and the pipeline that
    takes an uploaded table through them (lines 326-449).

    Conventions of the embedding.
    - A Python [str] is a Rocq string that holds its UTF-8 encoding.  The
      characters of the text are its code points, which [Unicode.chars]
      reads from the bytes.  A byte that belongs to no well-formed sequence
      stands for a character of its own, the code point [0xDC00 + byte]
      that [surrogateescape] gives it in CPython; it is neither a digit
      nor white space.
    - [len], slicing, [str.isdigit] and the class [\d] of regular
      expressions work on code points, with the tables of Unicode 14.0
      (CPython 3.11).  Searching for an ASCII text and replacing it work
      on bytes, which finds the same occurrences.
    - [str.upper] and [str.strip] are modelled on ASCII: ['a'..'z'] become
      ['A'..'Z'], the white space removed is the set of code points 9-13
      and 28-32, and every other byte is kept as it is.
    - Python integers are [Z]; lengths are [nat] and enter arithmetic
      through [Z.of_nat].
    - A raised exception is the [Raise] branch of [result].
    - [datetime.today()] is read once per run: the current date is a
      parameter [today] of the predicates. *)

From stdpp Require Import base option list gmap strings fin_maps sorting.
From Stdlib Require Import NArith ZArith QArith Ascii String.
From Stdlib Require Import DecimalString Lia.
From Stdlib Require DecimalFacts DecimalPos.

Local Open Scope string_scope.
Local Open Scope list_scope.
Local Open Scope Z_scope.
Local Open Scope nat_scope.
Local Open Scope stdpp_scope.

(** ** Exceptions *)

Inductive exn : Type :=
| TypeError
| KeyError
| IndexError
| ValueError
| ZeroDivisionError
| IllegalCharacterError.

Inductive result (A : Type) : Type :=
| Ok (a : A)
| Raise (e : exn).

Arguments Ok {A} a.
Arguments Raise {A} e.

Global Instance exn_eq_dec : EqDecision exn.
Proof. solve_decision. Defined.

Global Instance result_eq_dec {A : Type} `{EqDecision A} :
  EqDecision (result A).
Proof. solve_decision. Defined.

Global Instance result_ret : MRet result := fun A a => Ok a.

Global Instance result_bind : MBind result := fun A B f m =>
  match m with
  | Ok a => f a
  | Raise e => Raise e
  end.

Global Instance result_fmap : FMap result := fun A B f m =>
  match m with
  | Ok a => Ok (f a)
  | Raise e => Raise e
  end.

(** [apply] of a function that may raise: elements are visited in order and
    the first exception aborts the traversal. *)
Fixpoint apply_raising {A B : Type} (f : A -> result B) (l : list A)
  : result (list B) :=
  match l with
  | [] => Ok []
  | x :: l' =>
      y ← f x;
      ys ← apply_raising f l';
      Ok (y :: ys)
  end.

(** ** Unicode text

    The characters of a text, read from its UTF-8 encoding as CPython
    decodes it: the shortest encoding only, no surrogate, nothing above
    U+10FFFF.  A byte that starts no well-formed sequence is a character
    of its own, and decoding goes on at the next byte. *)

Module Unicode.

Local Open Scope N_scope.

Definition byte (c : ascii) : N := N_of_ascii c.

(** The code point of an ASCII character. *)
Definition cp (c : ascii) : N := N_of_ascii c.

(** A byte below 128, which encodes an ASCII character. *)
Definition is_ascii (c : ascii) : bool := byte c <? 128.

(** A continuation byte, [10xxxxxx], and the six bits it carries. *)
Definition is_cont (c : ascii) : bool := (128 <=? byte c) && (byte c <=? 191).

Definition low6 (c : ascii) : N := byte c - 128.

(** The second byte of a sequence of three that starts with [b]: [E0] is
    followed by [A0..BF] and [ED] by [80..9F]. *)
Definition second3 (b : N) (c : ascii) : bool :=
  (if b =? 224 then 160 <=? byte c else 128 <=? byte c) &&
  (if b =? 237 then byte c <=? 159 else byte c <=? 191).

(** The second byte of a sequence of four that starts with [b]: [F0] is
    followed by [90..BF] and [F4] by [80..8F]. *)
Definition second4 (b : N) (c : ascii) : bool :=
  (if b =? 240 then 144 <=? byte c else 128 <=? byte c) &&
  (if b =? 244 then byte c <=? 143 else byte c <=? 191).

(** The character at the start of a text whose first byte is [a] and
    whose other bytes are [s1]: its code point and the number of bytes
    that encode it. *)
Definition first (a : ascii) (s1 : string) : N * nat :=
  let b := byte a in
  let escape := (56320 + b, 1%nat) in
  if b <? 128 then (b, 1%nat)
  else
    match s1 with
    | String a1 s2 =>
        if (194 <=? b) && (b <=? 223) && is_cont a1
        then ((b - 192) * 64 + low6 a1, 2%nat)
        else
          match s2 with
          | String a2 s3 =>
              if (224 <=? b) && (b <=? 239) && second3 b a1 && is_cont a2
              then ((b - 224) * 4096 + low6 a1 * 64 + low6 a2, 3%nat)
              else
                match s3 with
                | String a3 _ =>
                    if (240 <=? b) && (b <=? 244) && second4 b a1 &&
                       is_cont a2 && is_cont a3
                    then ((b - 240) * 262144 + low6 a1 * 4096 +
                          low6 a2 * 64 + low6 a3, 4%nat)
                    else escape
                | EmptyString => escape
                end
          | EmptyString => escape
          end
    | EmptyString => escape
    end.

(** The characters from the left: [skip] counts the bytes of the current
    character still to be passed over. *)
Fixpoint chars_scan (skip : nat) (s : string) : list (N * nat) :=
  match s with
  | EmptyString => []
  | String a s' =>
      match skip with
      | S k => chars_scan k s'
      | O =>
          let '(c, w) := first a s' in
          (c, w) :: chars_scan (w - 1) s'
      end
  end.

(** The characters of [s] in order, each with the number of bytes that
    encode it. *)
Definition chars (s : string) : list (N * nat) := chars_scan 0 s.

(** The code points of [s]. *)
Definition decode (s : string) : list N := fst <$> chars s.

(** The decimal digits (general category [Nd]), as ranges of code
    points: each range holds the digits 0 to 9 of a script in order, once
    or several times. *)
Definition decimal_ranges : list (N * N) :=
  [(48, 57); (1632, 1641); (1776, 1785); (1984, 1993); (2406, 2415);
   (2534, 2543); (2662, 2671); (2790, 2799); (2918, 2927); (3046, 3055);
   (3174, 3183); (3302, 3311); (3430, 3439); (3558, 3567); (3664, 3673);
   (3792, 3801); (3872, 3881); (4160, 4169); (4240, 4249); (6112, 6121);
   (6160, 6169); (6470, 6479); (6608, 6617); (6784, 6793); (6800, 6809);
   (6992, 7001); (7088, 7097); (7232, 7241); (7248, 7257); (42528, 42537);
   (43216, 43225); (43264, 43273); (43472, 43481); (43504, 43513);
   (43600, 43609); (44016, 44025); (65296, 65305); (66720, 66729);
   (68912, 68921); (69734, 69743); (69872, 69881); (69942, 69951);
   (70096, 70105); (70384, 70393); (70736, 70745); (70864, 70873);
   (71248, 71257); (71360, 71369); (71472, 71481); (71904, 71913);
   (72016, 72025); (72784, 72793); (73040, 73049); (73120, 73129);
   (92768, 92777); (92864, 92873); (93008, 93017); (120782, 120831);
   (123200, 123209); (123632, 123641); (125264, 125273); (130032, 130041)].

(** The other characters with a digit value (numeric type [Digit]):
    superscripts, subscripts, circled digits and the like. *)
Definition other_digit_ranges : list (N * N) :=
  [(178, 179); (185, 185); (4969, 4977); (6618, 6618); (8304, 8304);
   (8308, 8313); (8320, 8329); (9312, 9320); (9332, 9340); (9352, 9360);
   (9450, 9450); (9461, 9469); (9471, 9471); (10102, 10110);
   (10112, 10120); (10122, 10130); (68160, 68163); (69216, 69224);
   (69714, 69722); (127232, 127242)].

Definition within (c : N) (r : N * N) : bool := (fst r <=? c) && (c <=? snd r).

(** The value of a decimal digit: what [int] reads, and what the class
    [\d] of a regular expression on [str] matches. *)
Definition decimal (c : N) : option N :=
  match List.find (within c) decimal_ranges with
  | Some (lo, _) => Some ((c - lo) mod 10)
  | None => None
  end.

(** [c.isdigit()] *)
Definition isdigit (c : N) : bool :=
  existsb (within c) decimal_ranges || existsb (within c) other_digit_ranges.

End Unicode.

(** ** Python strings *)

Module PyStr.

(** An ASCII digit, as a byte of the text. *)
Definition ascii_digit (c : ascii) : bool :=
  (48 <=? nat_of_ascii c) && (nat_of_ascii c <=? 57).

(** The number an ASCII digit writes. *)
Definition digit_value (c : ascii) : Z := (Z.of_nat (nat_of_ascii c) - 48)%Z.

Definition isspace_char (c : ascii) : bool :=
  let n := nat_of_ascii c in
  ((9 <=? n) && (n <=? 13)) || ((28 <=? n) && (n <=? 32)).

Definition upper_char (c : ascii) : ascii :=
  let n := nat_of_ascii c in
  if (97 <=? n) && (n <=? 122) then ascii_of_nat (n - 32) else c.

Fixpoint all_chars (p : ascii -> bool) (s : string) : bool :=
  match s with
  | EmptyString => true
  | String c s' => p c && all_chars p s'
  end.

Fixpoint any_chars (p : ascii -> bool) (s : string) : bool :=
  match s with
  | EmptyString => false
  | String c s' => p c || any_chars p s'
  end.

(** [s.isdigit()]: at least one character, and all of them digits. *)
Definition isdigit (s : string) : bool :=
  match Unicode.decode s with
  | [] => false
  | cs => forallb Unicode.isdigit cs
  end.

(** [any(c.isdigit() for c in s)] *)
Definition any_isdigit (s : string) : bool :=
  existsb Unicode.isdigit (Unicode.decode s).

(** [len(s)]: the number of characters. *)
Definition len (s : string) : nat := List.length (Unicode.chars s).

(** The text without its first [n] bytes. *)
Fixpoint drop (n : nat) (s : string) : string :=
  match n, s with
  | O, _ => s
  | S n', String _ s' => drop n' s'
  | S _, EmptyString => EmptyString
  end.

(** The number of bytes of the first [k] characters. *)
Definition offset (k : nat) (s : string) : nat :=
  sum_list (snd <$> take k (Unicode.chars s)).

(** [s[-4:]]: the last four characters, the whole string when it has
    fewer. *)
Definition last4 (s : string) : string := drop (offset (len s - 4) s) s.

(** [s.upper()] *)
Fixpoint upper (s : string) : string :=
  match s with
  | EmptyString => EmptyString
  | String c s' => String (upper_char c) (upper s')
  end.

Fixpoint lstrip (s : string) : string :=
  match s with
  | EmptyString => EmptyString
  | String c s' => if isspace_char c then lstrip s' else s
  end.

Fixpoint rstrip (s : string) : string :=
  match s with
  | EmptyString => EmptyString
  | String c s' =>
      match rstrip s' with
      | EmptyString => if isspace_char c then EmptyString
                       else String c EmptyString
      | r => String c r
      end
  end.

(** [s.strip()] *)
Definition strip (s : string) : string := rstrip (lstrip s).

(** [startswith]: is [p] a prefix of [s]? *)
Fixpoint startswith (p s : string) : bool :=
  match p, s with
  | EmptyString, _ => true
  | String a p', String b s' => Ascii.eqb a b && startswith p' s'
  | String _ _, EmptyString => false
  end.

(** [pat in s], which is also what [Series.str.contains(pat)] computes
    for a pattern without regular-expression metacharacters. *)
Fixpoint contains (pat s : string) : bool :=
  startswith pat s ||
  match s with
  | EmptyString => false
  | String _ s' => contains pat s'
  end.

(** Scan of [s.replace(old, new)] for a non-empty [old]: [skip] counts
    the bytes of the current match still to be passed over. *)
Fixpoint replace_scan (old new : string) (skip : nat) (s : string)
  : string :=
  match s with
  | EmptyString => EmptyString
  | String c s' =>
      match skip with
      | S k => replace_scan old new k s'
      | O =>
          if startswith old s
          then new +:+ replace_scan old new (String.length old - 1) s'
          else String c (replace_scan old new 0 s')
      end
  end.

Fixpoint intersperse (new s : string) : string :=
  match s with
  | EmptyString => EmptyString
  | String c s' => String c (new +:+ intersperse new s')
  end.

(** [s.replace(old, new)]: every non-overlapping occurrence, from the
    left.  An empty [old] matches before every character and at the
    end. *)
Definition replace (old new s : string) : string :=
  match old with
  | EmptyString => new +:+ intersperse new s
  | String _ _ => replace_scan old new 0 s
  end.

(** [str(n)] for a non-negative integer. *)
Definition of_nat (n : nat) : string :=
  NilZero.string_of_uint (Nat.to_uint n).

(** [str(z)] for an integer. *)
Definition of_Z (z : Z) : string :=
  NilZero.string_of_int (Z.to_int z).

(** [str(b)] for a [bool]. *)
Definition of_bool (b : bool) : string := if b then "True" else "False".

(** [d] does not occur in [m]. *)
Definition absent (d : ascii) (m : string) : bool :=
  negb (any_chars (Ascii.eqb d) m).

(** [c] is the first character of [m]. *)
Definition first_is (c : ascii) (m : string) : bool :=
  match m with
  | String x _ => Ascii.eqb x c
  | EmptyString => false
  end.

End PyStr.

(** ** Calendar dates *)

Record date : Type := mkDate { year : Z; month : Z; day : Z }.

Global Instance date_eq_dec : EqDecision date.
Proof. solve_decision. Defined.

Module Calendar.

Local Open Scope Z_scope.

Definition is_leap (y : Z) : bool :=
  (y mod 4 =? 0) && (negb (y mod 100 =? 0) || (y mod 400 =? 0)).

Definition days_in_month (y m : Z) : Z :=
  match m with
  | 2 => if is_leap y then 29 else 28
  | 4 | 6 | 9 | 11 => 30
  | _ => 31
  end.

(** The checks of the [datetime.date] constructor: [MINYEAR = 1],
    [MAXYEAR = 9999]. *)
Definition valid (d : date) : bool :=
  (1 <=? year d) && (year d <=? 9999) &&
  (1 <=? month d) && (month d <=? 12) &&
  (1 <=? day d) && (day d <=? days_in_month (year d) (month d)).

(** [d1 <= d2] on dates: lexicographic on year, month, day. *)
Definition leb (d1 d2 : date) : bool :=
  (year d1 <? year d2) ||
  ((year d1 =? year d2) &&
   ((month d1 <? month d2) ||
    ((month d1 =? month d2) && (day d1 <=? day d2)))).

(** The character of the last decimal digit of [n]. *)
Definition digit_char (n : Z) : ascii :=
  ascii_of_nat (Z.to_nat (48 + n mod 10)).

(** [n] on two and on four decimal digits, padded with zeros. *)
Definition two_digits (n : Z) : string :=
  String (digit_char (n / 10)) (String (digit_char n) "").

Definition four_digits (n : Z) : string :=
  String (digit_char (n / 1000)) (String (digit_char (n / 100))
    (String (digit_char (n / 10)) (String (digit_char n) ""))).

(** The text [DD/MM/YYYY] of a date. *)
Definition format_dmY (d : date) : string :=
  two_digits (day d) +:+ "/" +:+ two_digits (month d) +:+ "/" +:+
  four_digits (year d).

(** The text [YYYY-MM-DD] of a date. *)
Definition isoformat (d : date) : string :=
  four_digits (year d) +:+ "-" +:+ two_digits (month d) +:+ "-" +:+
  two_digits (day d).

End Calendar.

(** ** [datetime.strptime(s, '%d/%m/%Y')]

    CPython compiles the format to the regular expression
    [(?P<d>3[0-1]|[1-2]\d|0[1-9]|[1-9]| [1-9])/(?P<m>1[0-2]|0[1-9]|[1-9])/(?P<Y>\d\d\d\d)],
    matches it at the start of the text, raises [ValueError] when there is
    no match or when text remains after the match, converts the three
    groups with [int] and builds the date, which raises [ValueError] for a
    day, month or year out of range.  A class such as [[1-9]] holds ASCII
    digits; [\d] matches the decimal digits of every script, and [int]
    reads them.  [None] stands for [ValueError], the only exception the
    caller catches. *)

Module Strptime.

Import Unicode.
Local Open Scope Z_scope.

(** The number the ASCII digit [c] writes. *)
Definition digit (c : N) : Z := Z.of_N c - 48.

(** The class [[lo-hi]] of ASCII digits. *)
Definition in_range (lo hi : Z) (c : N) : bool :=
  (48 + lo <=? Z.of_N c) && (Z.of_N c <=? 48 + hi).

(** The class [\d], with the number the digit writes. *)
Definition any_digit (c : N) : option Z := Z.of_N <$> decimal c.

(** The alternatives of the [%d] group that match at the start of [s],
    in the order the regular expression tries them, each with the text
    that follows. *)
Definition directive_d (s : list N) : list (Z * list N) :=
  match s with
  | a :: b :: r =>
      (if (a =? cp "3")%N && in_range 0 1 b
       then [(30 + digit b, r)] else []) ++
      (if in_range 1 2 a
       then match any_digit b with
            | Some v => [(10 * digit a + v, r)]
            | None => []
            end
       else []) ++
      (if (a =? cp "0")%N && in_range 1 9 b
       then [(digit b, r)] else []) ++
      (if in_range 1 9 a then [(digit a, b :: r)] else []) ++
      (if (a =? cp " ")%N && in_range 1 9 b
       then [(digit b, r)] else [])
  | [a] => if in_range 1 9 a then [(digit a, [])] else []
  | [] => []
  end.

(** The same for the [%m] group. *)
Definition directive_m (s : list N) : list (Z * list N) :=
  match s with
  | a :: b :: r =>
      (if (a =? cp "1")%N && in_range 0 2 b
       then [(10 + digit b, r)] else []) ++
      (if (a =? cp "0")%N && in_range 1 9 b
       then [(digit b, r)] else []) ++
      (if in_range 1 9 a then [(digit a, b :: r)] else [])
  | [a] => if in_range 1 9 a then [(digit a, [])] else []
  | [] => []
  end.

(** The [%Y] group: exactly four digits. *)
Definition directive_Y (s : list N) : option (Z * list N) :=
  match s with
  | a :: b :: c :: d :: r =>
      va ← any_digit a;
      vb ← any_digit b;
      vc ← any_digit c;
      vd ← any_digit d;
      Some (1000 * va + 100 * vb + 10 * vc + vd, r)
  | _ => None
  end.

(** A literal character of the format. *)
Definition literal (c : ascii) (s : list N) : option (list N) :=
  match s with
  | a :: r => if (a =? cp c)%N then Some r else None
  | [] => None
  end.

(** The first alternative, in order, on which the continuation
    succeeds: the backtracking of the matcher. *)
Fixpoint first_match {A B : Type} (k : A -> option B) (alts : list A)
  : option B :=
  match alts with
  | [] => None
  | a :: alts' =>
      match k a with
      | Some b => Some b
      | None => first_match k alts'
      end
  end.

(** The regular-expression match: the three numbers and the text left
    after the match. *)
Definition regex_match (s : list N) : option (Z * Z * Z * list N) :=
  first_match (fun '(d, r1) =>
    r2 ← literal "/" r1;
    first_match (fun '(m, r3) =>
      r4 ← literal "/" r3;
      '(y, r5) ← directive_Y r4;
      Some (d, m, y, r5)) (directive_m r2)) (directive_d s).

Definition strptime_dmY (s : string) : option date :=
  '(d, m, y, rest) ← regex_match (decode s);
  match rest with
  | [] =>
      let dt := mkDate y m d in
      if Calendar.valid dt then Some dt else None
  | _ :: _ => None
  end.

End Strptime.

(** ** Cell values

    The Python objects a cell of the table can hold.  Only [str] supports
    slicing; [pd.NaT], a [datetime.datetime] and a [datetime.date] are
    not instances of [pd.Timestamp]. *)

Record timestamp : Type :=
  mkTimestamp { ts_date : date; ts_hour : Z; ts_minute : Z; ts_second : Z }.

Inductive value : Type :=
| VStr (s : string)
| VTimestamp (t : timestamp)
| VInt (n : Z)
| VNaN
| VNaT
| VNone
| VDatetime (t : timestamp)
| VDate (d : date).

Global Instance value_eq_dec : EqDecision value.
Proof. unfold EqDecision, Decision. repeat decide equality. Defined.

(** [str(x)] and the default [format(x)] of an f-string field. *)
Definition py_str (x : value) : string :=
  match x with
  | VStr s => s
  | VTimestamp t | VDatetime t =>
      Calendar.isoformat (ts_date t) +:+ " " +:+
      Calendar.two_digits (ts_hour t) +:+ ":" +:+
      Calendar.two_digits (ts_minute t) +:+ ":" +:+
      Calendar.two_digits (ts_second t)
  | VInt n => PyStr.of_Z n
  | VNaN => "nan"
  | VNaT => "NaT"
  | VNone => "None"
  | VDate d => Calendar.isoformat d
  end.

(** [isinstance(x, str)] *)
Definition isinstance_str (x : value) : bool :=
  match x with
  | VStr _ => true
  | _ => false
  end.

(** [x[-4:]]: [TypeError] on an object that is not subscriptable. *)
Definition py_last4 (x : value) : result string :=
  match x with
  | VStr s => Ok (PyStr.last4 s)
  | _ => Raise TypeError
  end.

(** [x in l] for a list of strings: equality with one of its elements. *)
Definition py_in (x : value) (l : list string) : bool :=
  match x with
  | VStr s => bool_decide (s ∈ l)
  | _ => false
  end.

(** ** The six field predicates ([clean_data], lines 27-60) *)

Section Predicates.

(** The city reference list and the current date. *)
Variable kota_indonesia : list string.
Variable today : date.

Definition is_valid_kk_no (kk_no : value) : bool :=
  match kk_no with
  | VStr s =>
      PyStr.isdigit s && (PyStr.len s =? 16)%nat &&
      negb (String.eqb (PyStr.last4 s) "0000")
  | _ => false
  end.

Definition is_valid_nik (nik : value) : bool :=
  match nik with
  | VStr s =>
      PyStr.isdigit s && (PyStr.len s =? 16)%nat &&
      negb (String.eqb (PyStr.last4 s) "0000")
  | _ => false
  end.

Definition is_valid_custname (custname : value) : bool :=
  match custname with
  | VStr s => negb (PyStr.any_isdigit s)
  | _ => false
  end.

Definition is_valid_jenis_kelamin (jenis_kelamin : value) : bool :=
  py_in jenis_kelamin ["LAKI-LAKI"; "LAKI - LAKI"; "LAKI LAKI"; "PEREMPUAN"].

Definition is_valid_tempat_lahir (tempat_lahir : value) : bool :=
  match tempat_lahir with
  | VStr s => bool_decide (PyStr.upper s ∈ kota_indonesia)
  | _ => false
  end.

Definition is_valid_date (date_str : value) : bool :=
  match date_str with
  | VStr s =>
      match Strptime.strptime_dmY s with
      | Some date_obj => Calendar.leb date_obj today
      | None => false
      end
  | VTimestamp t => Calendar.leb (ts_date t) today
  | _ => false
  end.

End Predicates.

(** ** Tables

    A [DataFrame] with a positional row index: the column labels in order,
    and one finite map from column label to cell per row. *)

Record DataFrame : Type :=
  mkFrame { columns : list string; rows : list (gmap string value) }.

Global Instance DataFrame_eq_dec : EqDecision DataFrame.
Proof. solve_decision. Defined.

Module Frame.

(** The cell of row [r] in column [c]; a hole reads as NaN. *)
Definition cell (r : gmap string value) (c : string) : value :=
  default VNaN (r !! c).

(** [len(df)] *)
Definition len (df : DataFrame) : Z := Z.of_nat (List.length (rows df)).

(** [df.shape] *)
Definition shape (df : DataFrame) : Z * Z :=
  (Z.of_nat (List.length (rows df)), Z.of_nat (List.length (columns df))).

(** [df[c]]: the cells of a column, [KeyError] when it is absent. *)
Definition getitem (df : DataFrame) (c : string) : result (list value) :=
  if bool_decide (c ∈ columns df)
  then Ok ((fun r => cell r c) <$> rows df)
  else Raise KeyError.

(** [df[c] = v] with a scalar [v]: the column is overwritten, or added
    as the last one. *)
Definition setitem (df : DataFrame) (c : string) (v : value) : DataFrame :=
  {| columns := if bool_decide (c ∈ columns df) then columns df
                else columns df ++ [c];
     rows := (fun r => <[c := v]> r) <$> rows df |}.

(** The elements of [l] at the positions where [mask] holds. *)
Fixpoint select {A : Type} (mask : list bool) (l : list A) : list A :=
  match mask, l with
  | b :: mask', x :: l' =>
      if b then x :: select mask' l' else select mask' l'
  | _, _ => []
  end.

(** [df[mask]]: a new table with the selected rows; a mask of the wrong
    length is an [IndexError]. *)
Definition getitem_mask (df : DataFrame) (mask : list bool)
  : result DataFrame :=
  if bool_decide (List.length mask = List.length (rows df))
  then Ok {| columns := columns df; rows := select mask (rows df) |}
  else Raise IndexError.

(** [df.drop(columns=[c])] *)
Definition drop (df : DataFrame) (c : string) : result DataFrame :=
  if bool_decide (c ∈ columns df)
  then Ok {| columns := filter (fun x => x ≠ c) (columns df);
             rows := (fun r => delete c r) <$> rows df |}
  else Raise KeyError.

(** [old + text] on a cell: string concatenation, [TypeError] when the
    cell is not a string. *)
Definition add_str (old : value) (text : string) : result value :=
  match old with
  | VStr d => Ok (VStr (d +:+ text))
  | _ => Raise TypeError
  end.

(** One row of [df.loc[mask, c] += df.loc[mask, src].apply(f)]. *)
Definition iadd_row (c src : string) (f : value -> result string)
    (br : bool * gmap string value) : result (gmap string value) :=
  let '(b, r) := br in
  if b then
    text ← f (cell r src);
    v ← add_str (cell r c) text;
    Ok (<[c := v]> r)
  else Ok r.

(** [df.loc[mask, c] += df.loc[mask, src].apply(f)]: on the rows where
    [mask] holds, the text [f] makes of the [src] cell is appended to the
    [c] cell.  The table is updated in place; the updated table is
    returned. *)
Definition loc_iadd_apply (df : DataFrame) (mask : list bool)
    (c src : string) (f : value -> result string) : result DataFrame :=
  if bool_decide (c ∈ columns df) && bool_decide (src ∈ columns df) then
    if bool_decide (List.length mask = List.length (rows df)) then
      rows' ← apply_raising (iadd_row c src f) (zip mask (rows df));
      Ok {| columns := columns df; rows := rows' |}
    else Raise IndexError
  else Raise KeyError.

(** [series.str.contains(pat)] for a pattern without metacharacters.
    A cell that is not a string gives a missing value, with which the
    result cannot be used as a mask: [ValueError]. *)
Definition str_contains (series : list value) (pat : string)
  : result (list bool) :=
  apply_raising (fun v =>
    match v with
    | VStr s => Ok (PyStr.contains pat s)
    | _ => Raise ValueError
    end) series.

End Frame.

(** [a & b] and [~a] on boolean series. *)
Definition mask_and (a b : list bool) : list bool := zip_with andb a b.
Definition mask_not (a : list bool) : list bool := negb <$> a.

(** ** The validation pass ([clean_data], lines 25-101) *)

(** The lambdas of lines 76-93, one per field. *)
Module Clause.

Definition kk_no (x : value) : result string :=
  last ← py_last4 x;
  Ok ("Invalid KK_NO (length: " +:+ PyStr.of_nat (PyStr.len (py_str x)) +:+
      ", digits only: " +:+ PyStr.of_bool (PyStr.isdigit (py_str x)) +:+
      ", last_digits: " +:+ last +:+ "); ").

Definition nik (x : value) : result string :=
  last ← py_last4 x;
  Ok ("Invalid NIK (length: " +:+ PyStr.of_nat (PyStr.len (py_str x)) +:+
      ", digits only: " +:+ PyStr.of_bool (PyStr.isdigit (py_str x)) +:+
      ", last_digits: " +:+ last +:+ "); ").

Definition custname (x : value) : result string :=
  Ok ("Invalid CUSTNAME (contains special characters or digits: " +:+
      py_str x +:+ "); ").

Definition jenis_kelamin (x : value) : result string :=
  Ok ("Invalid JENIS_KELAMIN (value: " +:+ py_str x +:+ "); ").

Definition tempat_lahir (x : value) : result string :=
  Ok ("Invalid TEMPAT_LAHIR (value: " +:+ py_str x +:+ "); ").

Definition tanggal_lahir (x : value) : result string :=
  Ok ("Invalid TANGGAL_LAHIR (value: " +:+ py_str x +:+
      ", expected format DD/MM/YYYY); ").

End Clause.

Section CleanData.

Variable kota_indonesia : list string.
Variable today : date.

(** [clean_data(raw_df, kota_indonesia)].  The function adds the column
    [Check_Desc] to the table it is given; the result carries that
    table as it is left, then [messy_df] and [clean_df]. *)
Definition clean_data (raw_df : DataFrame)
  : result (DataFrame * DataFrame * DataFrame) :=
  let raw_df := Frame.setitem raw_df "Check_Desc" (VStr "") in
  kk ← Frame.getitem raw_df "KK_NO";
  let valid_kk_no := is_valid_kk_no <$> kk in
  nk ← Frame.getitem raw_df "NIK";
  let valid_nik := is_valid_nik <$> nk in
  cn ← Frame.getitem raw_df "CUSTNAME";
  let valid_custname := is_valid_custname <$> cn in
  jk ← Frame.getitem raw_df "JENIS_KELAMIN";
  let valid_jenis_kelamin := is_valid_jenis_kelamin <$> jk in
  tl ← Frame.getitem raw_df "TEMPAT_LAHIR";
  let valid_tempat_lahir := is_valid_tempat_lahir kota_indonesia <$> tl in
  dl ← Frame.getitem raw_df "TANGGAL_LAHIR";
  let valid_tanggal_lahir := is_valid_date today <$> dl in
  clean_df ← Frame.getitem_mask raw_df
    (mask_and (mask_and (mask_and (mask_and (mask_and
       valid_kk_no valid_nik) valid_custname) valid_jenis_kelamin)
       valid_tempat_lahir) valid_tanggal_lahir);
  raw_df ← Frame.loc_iadd_apply raw_df (mask_not valid_kk_no)
    "Check_Desc" "KK_NO" Clause.kk_no;
  raw_df ← Frame.loc_iadd_apply raw_df (mask_not valid_nik)
    "Check_Desc" "NIK" Clause.nik;
  raw_df ← Frame.loc_iadd_apply raw_df (mask_not valid_custname)
    "Check_Desc" "CUSTNAME" Clause.custname;
  raw_df ← Frame.loc_iadd_apply raw_df (mask_not valid_jenis_kelamin)
    "Check_Desc" "JENIS_KELAMIN" Clause.jenis_kelamin;
  raw_df ← Frame.loc_iadd_apply raw_df (mask_not valid_tempat_lahir)
    "Check_Desc" "TEMPAT_LAHIR" Clause.tempat_lahir;
  raw_df ← Frame.loc_iadd_apply raw_df (mask_not valid_tanggal_lahir)
    "Check_Desc" "TANGGAL_LAHIR" Clause.tanggal_lahir;
  desc ← Frame.getitem raw_df "Check_Desc";
  messy_df ← Frame.getitem_mask raw_df
    ((fun v => negb (bool_decide (v = VStr ""))) <$> desc);
  clean_df ← Frame.drop clean_df "Check_Desc";
  Ok (raw_df, messy_df, clean_df).

End CleanData.

(** ** The summary statistics ([generate_summary_excel], lines 103-138) *)

Record Stats : Type := mkStats {
  messy_data : Z;
  clean_data_len : Z;
  len_param : Z;
  invalid_kk : Z;
  invalid_nik : Z;
  invalid_name : Z;
  invalid_gender : Z;
  invalid_places : Z;
  invalid_date : Z;
  total_invalid : Z;
  messy_invalid : Z;
  clean_invalid : Z
}.

(** [len(messy_df[messy_df['Check_Desc'].str.contains(marker)])] *)
Definition count_marker (messy_df : DataFrame) (marker : string) : result Z :=
  desc ← Frame.getitem messy_df "Check_Desc";
  mask ← Frame.str_contains desc marker;
  sub ← Frame.getitem_mask messy_df mask;
  Ok (Frame.len sub).

(** Lines 108-123. *)
Definition summary_statistics (messy_df clean_df : DataFrame) : result Stats :=
  let messy_data := Frame.len messy_df in
  let clean_data := Frame.len clean_df in
  let '(num_rows, num_cols) := Frame.shape messy_df in
  let len_param := (num_cols - 1)%Z in
  invalid_kk ← count_marker messy_df "Invalid KK_NO";
  invalid_nik ← count_marker messy_df "Invalid NIK";
  invalid_name ← count_marker messy_df "Invalid CUSTNAME";
  invalid_gender ← count_marker messy_df "Invalid JENIS_KELAMIN";
  invalid_places ← count_marker messy_df "Invalid TEMPAT_LAHIR";
  invalid_date ← count_marker messy_df "Invalid TANGGAL_LAHIR";
  let total_invalid := (Frame.len messy_df * len_param)%Z in
  let messy_invalid :=
    (invalid_kk + invalid_nik + invalid_name + invalid_gender +
     invalid_places + invalid_date)%Z in
  let clean_invalid := (total_invalid - messy_invalid)%Z in
  Ok (mkStats messy_data clean_data len_param invalid_kk invalid_nik
        invalid_name invalid_gender invalid_places invalid_date
        total_invalid messy_invalid clean_invalid).

(** [a / b * 100] on integers: true division raises [ZeroDivisionError]
    for a zero divisor.  The figure is kept as the exact quotient; the
    binary floating point value and its rounding to two decimals by
    [round(_, 2)] are not modelled. *)
Definition percent (a b : Z) : result Q :=
  if (b =? 0)%Z then Raise ZeroDivisionError
  else Ok (inject_Z a / inject_Z b * inject_Z 100)%Q.

(** Line 128, the numeric entries of [summary_percentages], evaluated from
    left to right. *)
Definition summary_percentages (total_data : Z) (st : Stats)
  : result (list Q) :=
  p_messy ← percent (messy_data st) total_data;
  p_clean ← percent (clean_data_len st) total_data;
  p_clean_invalid ← percent (clean_invalid st) (total_invalid st);
  p_messy_invalid ← percent (messy_invalid st) (total_invalid st);
  p_kk ← percent (invalid_kk st) (total_invalid st);
  p_nik ← percent (invalid_nik st) (total_invalid st);
  p_name ← percent (invalid_name st) (total_invalid st);
  p_gender ← percent (invalid_gender st) (total_invalid st);
  p_places ← percent (invalid_places st) (total_invalid st);
  p_date ← percent (invalid_date st) (total_invalid st);
  Ok [inject_Z 100; p_messy; p_clean; inject_Z 100; p_clean_invalid;
      p_messy_invalid; p_kk; p_nik; p_name; p_gender; p_places; p_date].

(** The bytes of a workbook. *)
Definition bytes : Type := list Byte.byte.

Section Workbook.

(** Lines 133-138: the three sheets written with [to_excel] into a
    workbook in memory, whose bytes are returned.  The writer is a
    parameter: from the two rows of the Summary sheet and the two tables
    to the bytes, or to the exception it raises ([ValueError] for a table
    of more rows than a sheet holds, [IllegalCharacterError] for a cell
    with a control character). *)
Variable to_excel : Stats * list Q -> DataFrame -> DataFrame -> result bytes.

(** [generate_summary_excel(messy_df, clean_df, total_data)] *)
Definition generate_summary_excel (messy_df clean_df : DataFrame)
    (total_data : Z) : result bytes :=
  st ← summary_statistics messy_df clean_df;
  pc ← summary_percentages total_data st;
  to_excel (st, pc) messy_df clean_df.

End Workbook.

(** ** The city reference list (lines 274-296)

    [city_df] is the parsed upload: its columns in order, each with its
    label and its cells, which are text. *)

Definition new_kota : list string :=
  ["ACEH BARAT"; "ACEH BESAR"; "ACEH TAMIANG"; "ACEH TIMUR"; "ACEH";
   "JAKARTA"; "BANDUNG"; "SURABAYA"; "MEDAN"; "MAKASSAR"].

Definition load_kota_indonesia (city_df : list (string * list string))
    (new_kota_option : bool) : result (list string) :=
  kota_indonesia ←
    match list_find (fun col => fst col = "CITY_DESC") city_df with
    | Some (_, (_, city_desc)) =>
        let city_desc :=
          (fun s => PyStr.replace "Kab " ""
                      (PyStr.replace "Kabupaten " ""
                         (PyStr.replace "Kota " "" s))) <$> city_desc in
        let city_desc := PyStr.upper <$> city_desc in
        Ok city_desc
    | None =>
        match city_df with
        | (_, first) :: _ =>
            Ok ((fun city => PyStr.upper (PyStr.strip city)) <$> first)
        | [] => Raise IndexError
        end
    end;
  Ok (if new_kota_option then kota_indonesia ++ new_kota
      else kota_indonesia).



(** The normalization as the specification words it: the first
    occurrence of each prefix is removed, the entry is trimmed and
    upper-cased.  It is compared below with what the program does. *)
Module Claimed.



End Claimed.

(** ** Sample data *)

(** Line 331. *)
Definition required_columns : list string :=
  ["KK_NO"; "NIK"; "CUSTNAME"; "JENIS_KELAMIN"; "TANGGAL_LAHIR";
   "TEMPAT_LAHIR"].

Module Sample.

Definition record (kk nik name gender birth_date birth_place : value)
  : gmap string value :=
  <["KK_NO" := kk]> (<["NIK" := nik]> (<["CUSTNAME" := name]>
    (<["JENIS_KELAMIN" := gender]> (<["TANGGAL_LAHIR" := birth_date]>
      (<["TEMPAT_LAHIR" := birth_place]> ∅))))).

Definition cities : list string := ["JAKARTA"; "BANDUNG"].

Definition today : date := mkDate 2024 6 15.

Definition good : gmap string value :=
  record (VStr "1234567890123456") (VStr "3201234567890001")
    (VStr "Budi Santoso") (VStr "LAKI-LAKI") (VStr "01/01/2000")
    (VStr "Jakarta").

Definition frame (rs : list (gmap string value)) : DataFrame :=
  mkFrame required_columns rs.

End Sample.

Module Witness.

Definition kk_short : gmap string value :=
  <["KK_NO" := VStr "12"]> Sample.good.

Definition kk_int : gmap string value :=
  <["KK_NO" := VInt 1234567890123456]> Sample.good.

Definition checked_columns : list string :=
  required_columns ++ ["Check_Desc"].

Definition checked (r : gmap string value) (desc : string)
  : gmap string value :=
  <["Check_Desc" := VStr desc]> r.

Definition kk_short_desc : string :=
  "Invalid KK_NO (length: 2, digits only: True, last_digits: 12); ".

(** A table with one clean and one messy row, and what [clean_data]
    makes of it. *)
Definition batch : DataFrame := Sample.frame [Sample.good; kk_short].
Definition batch_raw : DataFrame :=
  mkFrame checked_columns
    [checked Sample.good ""; checked kk_short kk_short_desc].
Definition batch_messy : DataFrame :=
  mkFrame checked_columns [checked kk_short kk_short_desc].
Definition batch_clean : DataFrame := Sample.frame [Sample.good].

(** A table with clean rows only. *)
Definition all_clean : DataFrame := Sample.frame [Sample.good].
Definition all_clean_raw : DataFrame :=
  mkFrame checked_columns [checked Sample.good ""].
Definition all_clean_messy : DataFrame := mkFrame checked_columns [].

(** A row whose gender cell repeats the text of another field's
    marker. *)
Definition injected : gmap string value :=
  <["JENIS_KELAMIN" := VStr "Invalid NIK"]> Sample.good.
Definition injected_desc : string :=
  "Invalid JENIS_KELAMIN (value: Invalid NIK); ".
Definition injected_batch : DataFrame := Sample.frame [injected].
Definition injected_raw : DataFrame :=
  mkFrame checked_columns [checked injected injected_desc].
Definition injected_clean : DataFrame := Sample.frame [].

(** A hundred rows: ninety clean, five with one invalid field, five with
    two. *)
Definition two_bad : gmap string value :=
  <["NIK" := VStr "12"]> (<["JENIS_KELAMIN" := VStr "MALE"]> Sample.good).
Definition two_bad_desc : string :=
  "Invalid NIK (length: 2, digits only: True, last_digits: 12); " +:+
  "Invalid JENIS_KELAMIN (value: MALE); ".
Definition hundred : DataFrame :=
  Sample.frame
    (replicate 90 Sample.good ++ replicate 5 kk_short ++ replicate 5 two_bad).
Definition hundred_raw : DataFrame :=
  mkFrame checked_columns
    (replicate 90 (checked Sample.good "") ++
     replicate 5 (checked kk_short kk_short_desc) ++
     replicate 5 (checked two_bad two_bad_desc)).
Definition hundred_messy : DataFrame :=
  mkFrame checked_columns
    (replicate 5 (checked kk_short kk_short_desc) ++
     replicate 5 (checked two_bad two_bad_desc)).
Definition hundred_clean : DataFrame :=
  Sample.frame (replicate 90 Sample.good).

End Witness.

(** ** Row-wise reading of the validation pass

    [clean_data] works column by column.  The definitions below read the
    same pass one row at a time; [clean_data_rowwise] proves that the two
    agree. *)

Inductive field : Type :=
| KK_NO | NIK | CUSTNAME | JENIS_KELAMIN | TEMPAT_LAHIR | TANGGAL_LAHIR.

(** The fields in the order of lines 76-93. *)
Definition fields : list field :=
  [KK_NO; NIK; CUSTNAME; JENIS_KELAMIN; TEMPAT_LAHIR; TANGGAL_LAHIR].

Definition label (f : field) : string :=
  match f with
  | KK_NO => "KK_NO"
  | NIK => "NIK"
  | CUSTNAME => "CUSTNAME"
  | JENIS_KELAMIN => "JENIS_KELAMIN"
  | TEMPAT_LAHIR => "TEMPAT_LAHIR"
  | TANGGAL_LAHIR => "TANGGAL_LAHIR"
  end.

(** The texts searched for in lines 114-119. *)
Definition marker (f : field) : string :=
  match f with
  | KK_NO => "Invalid KK_NO"
  | NIK => "Invalid NIK"
  | CUSTNAME => "Invalid CUSTNAME"
  | JENIS_KELAMIN => "Invalid JENIS_KELAMIN"
  | TEMPAT_LAHIR => "Invalid TEMPAT_LAHIR"
  | TANGGAL_LAHIR => "Invalid TANGGAL_LAHIR"
  end.

(** The count the summary keeps for a field. *)
Definition counted (f : field) (st : Stats) : Z :=
  match f with
  | KK_NO => invalid_kk st
  | NIK => invalid_nik st
  | CUSTNAME => invalid_name st
  | JENIS_KELAMIN => invalid_gender st
  | TEMPAT_LAHIR => invalid_places st
  | TANGGAL_LAHIR => invalid_date st
  end.

Definition clause_of (f : field) : value -> result string :=
  match f with
  | KK_NO => Clause.kk_no
  | NIK => Clause.nik
  | CUSTNAME => Clause.custname
  | JENIS_KELAMIN => Clause.jenis_kelamin
  | TEMPAT_LAHIR => Clause.tempat_lahir
  | TANGGAL_LAHIR => Clause.tanggal_lahir
  end.

(** What the clause of field [g] repeats of the cell [x]. *)
Definition echoed (g : field) (x : value) : string :=
  match g with
  | KK_NO | NIK =>
      match x with
      | VStr s => PyStr.last4 s
      | _ => ""
      end
  | _ => py_str x
  end.

Definition field_eqb (g f : field) : bool :=
  match g, f with
  | KK_NO, KK_NO | NIK, NIK | CUSTNAME, CUSTNAME
  | JENIS_KELAMIN, JENIS_KELAMIN | TEMPAT_LAHIR, TEMPAT_LAHIR
  | TANGGAL_LAHIR, TANGGAL_LAHIR => true
  | _, _ => false
  end.

Section RowView.

Variable kota_indonesia : list string.
Variable today : date.

Definition predicate (f : field) : value -> bool :=
  match f with
  | KK_NO => is_valid_kk_no
  | NIK => is_valid_nik
  | CUSTNAME => is_valid_custname
  | JENIS_KELAMIN => is_valid_jenis_kelamin
  | TEMPAT_LAHIR => is_valid_tempat_lahir kota_indonesia
  | TANGGAL_LAHIR => is_valid_date today
  end.

(** Does the predicate of field [f] pass on row [r]? *)
Definition passes (f : field) (r : gmap string value) : bool :=
  predicate f (Frame.cell r (label f)).

(** Do all six predicates pass on row [r]? *)
Definition all_pass (r : gmap string value) : bool :=
  passes KK_NO r && passes NIK r && passes CUSTNAME r &&
  passes JENIS_KELAMIN r && passes TEMPAT_LAHIR r && passes TANGGAL_LAHIR r.

(** What field [f] contributes to the diagnostic of row [r]. *)
Definition piece (f : field) (r : gmap string value) : string :=
  if passes f r then ""
  else match clause_of f (Frame.cell r (label f)) with
       | Ok text => text
       | Raise _ => ""
       end.

(** The diagnostic of row [r]: the pieces appended in field order. *)
Definition check_desc (r : gmap string value) : string :=
  foldl (fun acc f => acc +:+ piece f r) "" fields.

(** The row as [clean_data] leaves it in the table it was given. *)
Definition annotate (r : gmap string value) : gmap string value :=
  <["Check_Desc" := VStr (check_desc r)]> r.

(** The number of rows on which the predicate of field [f] fails. *)
Definition failing (f : field) (rs : list (gmap string value)) : Z :=
  Z.of_nat (List.length (List.filter (fun r => negb (passes f r)) rs)).

(** The number of rows of [L] whose diagnostic contains [m]. *)
Definition flagged (m : string) (L : list (gmap string value)) : Z :=
  Z.of_nat (List.length
    (List.filter (fun r => PyStr.contains m (check_desc r)) L)).

(** Where a marker can come from: the clause of its own field, or a
    cell repeated by the clause of a failing field. *)
Definition raised (f g : field) (r : gmap string value) : bool :=
  negb (passes g r) &&
  (field_eqb g f ||
   PyStr.contains (marker f) (echoed g (Frame.cell r (label g)))).

End RowView.

(** The rows of the table while [clean_data] runs: the rows it was given,
    each with the text accumulated so far in [Check_Desc]. *)
Definition with_desc (acc : gmap string value -> string)
    (r : gmap string value) : gmap string value :=
  <["Check_Desc" := VStr (acc r)]> r.

(** The columns of the table once line 63 has run. *)
Definition columns_after (df : DataFrame) : list string :=
  columns (Frame.setitem df "Check_Desc" (VStr "")).

(** Both identity cells of row [r] are strings. *)
Definition ids_are_str (r : gmap string value) : bool :=
  isinstance_str (Frame.cell r "KK_NO") && isinstance_str (Frame.cell r "NIK").

(** ** The executive dashboard ([create_executive_dashboard], lines 141-244) *)

(** A row of the table [invalid_data] of lines 188-199. *)
Record Breakdown : Type :=
  mkBreakdown { Category : string; Count : Z; Percentage : Q }.

(** What the dashboard shows: the two rates of lines 151 and 154, the
    table of line 202, and the figures of the two summary cards.  As in
    [percent], a percentage is kept as the exact quotient. *)
Record Dashboard : Type := mkDashboard {
  clean_rate : Q;
  messy_rate : Q;
  invalid_data : list Breakdown;
  quality_rate : Q;
  most_problematic : string;
  most_problematic_count : Z;
  most_problematic_percentage : Q
}.

(** [l.iloc[i]] *)
Definition iloc {A : Type} (l : list A) (i : nat) : result A :=
  match l !! i with
  | Some x => Ok x
  | None => Raise IndexError
  end.

Section Dashboard.

(** [invalid_data.sort_values('Count', ascending=False)].  The order
    pandas gives to rows with equal counts depends on the sorting routine
    at hand, so the sort is a parameter. *)
Variable sort_values : list Breakdown -> list Breakdown.

Definition create_executive_dashboard
    (total_data clean_data messy_data invalid_kk invalid_nik invalid_name
     invalid_gender invalid_places invalid_date total_invalid : Z)
  : result Dashboard :=
  clean_rate ← percent clean_data total_data;
  messy_rate ← percent messy_data total_data;
  p_kk ← percent invalid_kk total_invalid;
  p_nik ← percent invalid_nik total_invalid;
  p_name ← percent invalid_name total_invalid;
  p_gender ← percent invalid_gender total_invalid;
  p_places ← percent invalid_places total_invalid;
  p_date ← percent invalid_date total_invalid;
  let invalid_data :=
    [mkBreakdown "KK Number" invalid_kk p_kk;
     mkBreakdown "NIK" invalid_nik p_nik;
     mkBreakdown "Name" invalid_name p_name;
     mkBreakdown "Gender" invalid_gender p_gender;
     mkBreakdown "Birth Place" invalid_places p_places;
     mkBreakdown "Birth Date" invalid_date p_date] in
  let invalid_data := sort_values invalid_data in
  top ← iloc invalid_data 0;
  let most_problematic := Category top in
  quality_rate ← percent clean_data total_data;
  top_count ← iloc invalid_data 0;
  top_percentage ← iloc invalid_data 0;
  Ok (mkDashboard clean_rate messy_rate invalid_data quality_rate
        most_problematic (Count top_count) (Percentage top_percentage)).

End Dashboard.

(** The order of line 202: counts from the largest to the smallest. *)
Definition by_count_desc (a b : Breakdown) : Prop := (Count b <= Count a)%Z.

Global Instance by_count_desc_dec (a b : Breakdown) :
  Decision (by_count_desc a b).
Proof. unfold by_count_desc. apply _. Defined.

(** ** The upload pipeline (lines 326-438) *)

Module Upload.

(** [df.empty]: no row, or no column. *)
Definition empty (df : DataFrame) : bool :=
  bool_decide (rows df = []) || bool_decide (columns df = []).

(** [df.loc[:, cols].copy()]: a new table with the columns [cols], in
    that order; [KeyError] when one of them is absent. *)
Definition loc_columns (df : DataFrame) (cols : list string)
  : result DataFrame :=
  if bool_decide (cols ⊆ columns df)
  then Ok {| columns := cols;
             rows := (fun r => filter (fun kv => kv.1 ∈ cols) r) <$> rows df |}
  else Raise KeyError.

(** [series.map(str)] *)
Definition map_str (series : list value) : list value :=
  (fun x => VStr (py_str x)) <$> series.

(** [df[c] = series] for a series indexed by position, as the series
    made from a column of [df] are: row [i] gets the element [i], and
    NaN when the series has none. *)
Definition setitem_series (df : DataFrame) (c : string) (series : list value)
  : DataFrame :=
  {| columns := if bool_decide (c ∈ columns df) then columns df
                else columns df ++ [c];
     rows := imap (fun i r => <[c := default VNaN (series !! i)]> r)
               (rows df) |}.

End Upload.

(** Why a run is stopped: nothing was read (lines 326-328), or required
    columns are absent (lines 332-336). *)
Inductive stop : Type :=
| NoData
| MissingColumns (missing_columns : list string).

(** How a run ends: stopped by [st.stop()] after a message, failed with an
    exception caught at line 447, or done with its results on the page. *)
Inductive outcome (A : Type) : Type :=
| Stopped (s : stop)
| Failed (e : exn)
| Done (a : A).

Arguments Stopped {A} s.
Arguments Failed {A} e.
Arguments Done {A} a.

(** The results of a run: the total of line 359, the two tables, the
    statistics of lines 360-375, the dashboard, the percentages of the
    text of lines 394-425 and the workbook offered for download. *)
Record Report : Type := mkReport {
  report_total_data : Z;
  report_messy_df : DataFrame;
  report_clean_df : DataFrame;
  report_stats : Stats;
  report_dashboard : Dashboard;
  report_text : list Q;
  report_excel : bytes
}.

Section Pipeline.

Variable kota_indonesia : list string.
Variable today : date.

(** [pd.to_datetime(series, format="%d/%m/%Y", errors='coerce')] and
    [pd.to_datetime(series, errors='coerce')]: the two conversions are
    parameters, each from a column to a column or an exception. *)
Variable to_datetime_dmY : list value -> result (list value).
Variable to_datetime : list value -> result (list value).
Variable sort_values : list Breakdown -> list Breakdown.
Variable to_excel : Stats * list Q -> DataFrame -> DataFrame -> result bytes.

(** One of the two attempts of lines 344-350. *)
Definition try_to_datetime (convert : list value -> result (list value))
    (df_req : DataFrame) : result DataFrame :=
  series ← Frame.getitem df_req "TANGGAL_LAHIR";
  series ← convert series;
  Ok (Upload.setitem_series df_req "TANGGAL_LAHIR" series).

(** Lines 344-350: the first attempt that raises nothing; the column is
    left as it is when both raise. *)
Definition convert_dates (df_req : DataFrame) : DataFrame :=
  match try_to_datetime to_datetime_dmY df_req with
  | Ok df => df
  | Raise _ =>
      match try_to_datetime to_datetime df_req with
      | Ok df => df
      | Raise _ => df_req
      end
  end.

(** Lines 339-350. *)
Definition prepare (df_full : DataFrame) : result DataFrame :=
  df_req ← Upload.loc_columns df_full required_columns;
  kk_no ← Frame.getitem df_req "KK_NO";
  let df_req := Upload.setitem_series df_req "KK_NO" (Upload.map_str kk_no) in
  nik ← Frame.getitem df_req "NIK";
  let df_req := Upload.setitem_series df_req "NIK" (Upload.map_str nik) in
  Ok (convert_dates df_req).

(** Lines 339-438, the statements under the [try] of line 304 once the
    columns have been checked.  Lines 359-375 repeat lines 108-123, and
    the text of lines 394-425 holds the figures of line 128. *)
Definition analyse (df_full : DataFrame) : result Report :=
  df_req ← prepare df_full;
  '(df_req, messy_df, clean_df) ← clean_data kota_indonesia today df_req;
  let total_data := Frame.len df_req in
  st ← summary_statistics messy_df clean_df;
  dashboard ← create_executive_dashboard sort_values
    total_data (clean_data_len st) (messy_data st)
    (invalid_kk st) (invalid_nik st) (invalid_name st)
    (invalid_gender st) (invalid_places st) (invalid_date st)
    (total_invalid st);
  output_text ← summary_percentages total_data st;
  excel_data ← generate_summary_excel to_excel messy_df clean_df total_data;
  Ok (mkReport total_data messy_df clean_df st dashboard output_text
        excel_data).

(** Lines 326-449, from the table read from the workbook. *)
Definition process (df_full : DataFrame) : outcome Report :=
  if Upload.empty df_full then Stopped NoData
  else
    let missing_columns :=
      List.filter (fun col => negb (bool_decide (col ∈ columns df_full)))
        required_columns in
    match missing_columns with
    | _ :: _ => Stopped (MissingColumns missing_columns)
    | [] =>
        match analyse df_full with
        | Ok report => Done report
        | Raise e => Failed e
        end
    end.

End Pipeline.

(** The rows of two tables agree outside column [c]. *)
Definition same_but (c : string) (R R' : list (gmap string value)) : Prop :=
  Forall2 (fun r r' => forall c', c' <> c -> Frame.cell r' c' = Frame.cell r c')
    R R'.


(** What lines 339-341 make of a row. *)
Definition as_text (r : gmap string value) : gmap string value :=
  <["NIK" := VStr (py_str (Frame.cell r "NIK"))]>
    (<["KK_NO" := VStr (py_str (Frame.cell r "KK_NO"))]>
       (filter (fun kv => kv.1 ∈ required_columns) r)).

(** ** The texts [strptime] reads with ['%d/%m/%Y']

    The three parts of a text [D/M/Y], each with the number it writes. *)

(** The day: one ASCII digit from 1 to 9, alone, after a space or after
    a 0; or 1 or 2 followed by a decimal digit of any script; or 3
    followed by 0 or 1. *)
Definition day_text (D : list N) : option Z :=
  match D with
  | [a] => if Strptime.in_range 1 9 a then Some (Strptime.digit a) else None
  | [a; b] =>
      if (a =? Unicode.cp " ")%N || (a =? Unicode.cp "0")%N
      then if Strptime.in_range 1 9 b then Some (Strptime.digit b) else None
      else if Strptime.in_range 1 2 a
      then v ← Strptime.any_digit b; Some (10 * Strptime.digit a + v)%Z
      else if (a =? Unicode.cp "3")%N && Strptime.in_range 0 1 b
      then Some (30 + Strptime.digit b)%Z
      else None
  | _ => None
  end.

(** The month: one ASCII digit from 1 to 9, alone or after a 0; or 1
    followed by 0, 1 or 2. *)
Definition month_text (M : list N) : option Z :=
  match M with
  | [a] => if Strptime.in_range 1 9 a then Some (Strptime.digit a) else None
  | [a; b] =>
      if (a =? Unicode.cp "0")%N
      then if Strptime.in_range 1 9 b then Some (Strptime.digit b) else None
      else if (a =? Unicode.cp "1")%N && Strptime.in_range 0 2 b
      then Some (10 + Strptime.digit b)%Z
      else None
  | _ => None
  end.

(** The year: four decimal digits, each of any script. *)
Definition year_text (Y : list N) : option Z :=
  match Y with
  | [a; b; c; d] =>
      va ← Strptime.any_digit a;
      vb ← Strptime.any_digit b;
      vc ← Strptime.any_digit c;
      vd ← Strptime.any_digit d;
      Some (1000 * va + 100 * vb + 10 * vc + vd)%Z
  | _ => None
  end.

(** A date of the calendar: a year from 1 to 9999, a month, and a day
    the month has in that year. *)
Definition gregorian (d : date) : Prop :=
  (1 <= year d <= 9999)%Z /\ (1 <= month d <= 12)%Z /\
  (1 <= day d <= 31)%Z /\
  (month d = 4 \/ month d = 6 \/ month d = 9 \/ month d = 11 ->
   day d <= 30)%Z /\
  (month d = 2 -> day d <= 29)%Z /\
  (month d = 2 -> day d = 29 ->
   (year d mod 4 = 0 /\ (year d mod 100 <> 0 \/ year d mod 400 = 0)))%Z.

(** The text [s] has the form [D/M/Y] and writes the date [d]. *)
Definition writes (s : string) (d : date) : Prop :=
  exists D M Y,
    Unicode.decode s = D ++ [Unicode.cp "/"] ++ M ++ [Unicode.cp "/"] ++ Y /\
    day_text D = Some (day d) /\
    month_text M = Some (month d) /\
    year_text Y = Some (year d).

(** The number a string of ASCII digits writes. *)
Fixpoint decimal_value (s : string) : Z :=
  match s with
  | EmptyString => 0
  | String c s' =>
      (PyStr.digit_value c * 10 ^ Z.of_nat (String.length s') +
       decimal_value s')%Z
  end.

(** ** Sample uploads *)

Module Trial.

(** A conversion of a column to dates that reads the texts [strptime]
    reads, keeps the timestamps and turns every other cell into NaT. *)
Definition to_datetime (series : list value) : result (list value) :=
  Ok ((fun x =>
         match x with
         | VStr s =>
             match Strptime.strptime_dmY s with
             | Some d => VTimestamp (mkTimestamp d 0 0 0)
             | None => VNaT
             end
         | VTimestamp t | VDatetime t => VTimestamp t
         | _ => VNaT
         end) <$> series).

(** A sort by decreasing count. *)
Definition sort_values (l : list Breakdown) : list Breakdown :=
  merge_sort by_count_desc l.

(** A writer that refuses a table of more rows than a sheet holds, as
    [to_excel] does, and otherwise returns a workbook, here without
    content. *)
Definition to_excel (summary : Stats * list Q) (messy_df clean_df : DataFrame)
  : result bytes :=
  if (1048576 <? Frame.len messy_df)%Z || (1048576 <? Frame.len clean_df)%Z
  then Raise ValueError
  else Ok [].

(** A writer that fails. *)
Definition to_excel_fails (summary : Stats * list Q)
    (messy_df clean_df : DataFrame) : result bytes :=
  Raise IllegalCharacterError.

(** A row as read from a workbook: a sheet column more than the six, and
    the KK_NO kept as a number. *)
Definition read : gmap string value :=
  <["NO" := VInt 1]> (<["KK_NO" := VInt 1234567890123456]> Sample.good).

(** The same row once prepared. *)
Definition prepared : gmap string value :=
  <["TANGGAL_LAHIR" := VTimestamp (mkTimestamp (mkDate 2000 1 1) 0 0 0)]>
    Sample.good.

(** An upload with clean rows only. *)
Definition upload_clean : DataFrame :=
  mkFrame ("NO" :: required_columns) [read; read].
Definition prepared_clean : DataFrame :=
  Sample.frame [prepared; prepared].

(** An upload with a row that has no NIK. *)
Definition upload_mixed : DataFrame :=
  mkFrame ("NO" :: required_columns) [read; <["NIK" := VNaN]> read].
Definition prepared_mixed : DataFrame :=
  Sample.frame [prepared; <["NIK" := VStr "nan"]> prepared].


(** An upload without the two identity columns. *)
Definition upload_short : DataFrame :=
  mkFrame ["CUSTNAME"; "JENIS_KELAMIN"; "TANGGAL_LAHIR"; "TEMPAT_LAHIR"]
    [delete "NIK" (delete "KK_NO" Sample.good)].

End Trial.

(** * Properties *)

(** Decides a closed statement by evaluation. *)
Ltac by_computation := apply (bool_decide_unpack _); vm_compute; exact I.

(** ** Strings *)

Lemma append_cons (c : ascii) (s t : string) :
  String c s +:+ t = String c (s +:+ t).
Proof. reflexivity. Qed.

Lemma append_empty_l (s : string) : "" +:+ s = s.
Proof. reflexivity. Qed.

Lemma append_eq_empty (s t : string) : s +:+ t = "" <-> s = "" /\ t = "".
Proof.
  split.
  - destruct s as [|c s]; [intros H; split; [reflexivity | exact H]|].
    rewrite append_cons. discriminate.
  - by intros [-> ->].
Qed.

Lemma append_empty_r (s : string) : s +:+ "" = s.
Proof. induction s as [|c s IH]; [reflexivity|]. by rewrite <- IH at 2. Qed.

Section Contains.

Import PyStr.

Lemma append_assoc (a b c : string) : (a +:+ b) +:+ c = a +:+ (b +:+ c).
Proof. induction a as [|x a IH]; [reflexivity|]. by rewrite !append_cons, IH. Qed.

Lemma contains_cons m c s :
  contains m (String c s) = startswith m (String c s) || contains m s.
Proof. reflexivity. Qed.

Lemma contains_empty m : m <> "" -> contains m "" = false.
Proof. by destruct m. Qed.

Lemma startswith_app_sep m a d b :
  absent d m = true ->
  startswith m (a +:+ String d b) = startswith m a.
Proof.
  unfold absent. revert a. induction m as [|x m IH]; intros a Hd;
    [by destruct a|].
  cbn [any_chars] in Hd. apply negb_true_iff, orb_false_iff in Hd as [Hx Hm].
  destruct a as [|y a].
  - rewrite append_empty_l. cbn [startswith].
    by rewrite Ascii.eqb_sym, Hx.
  - rewrite append_cons. cbn [startswith]. rewrite IH; [done|].
    by rewrite Hm.
Qed.

Lemma contains_app_sep m a d b :
  absent d m = true -> m <> "" ->
  contains m (a +:+ String d b) = contains m a || contains m b.
Proof.
  intros Hd Hm. induction a as [|y a IH].
  - rewrite append_empty_l, contains_cons, contains_empty by done.
    pose proof (startswith_app_sep m "" d b Hd) as H.
    rewrite append_empty_l in H. rewrite H. by destruct m.
  - rewrite append_cons, !contains_cons, IH.
    rewrite <- append_cons, startswith_app_sep by done.
    by rewrite orb_assoc.
Qed.

Lemma contains_cons_ne m c s :
  first_is c m = false -> m <> "" ->
  contains m (String c s) = contains m s.
Proof.
  intros Hc Hm. rewrite contains_cons.
  destruct m as [|x m]; [done|]. cbn [startswith first_is] in *.
  by rewrite Hc.
Qed.

Lemma contains_first_absent m c s :
  first_is c m = true -> absent c s = true -> contains m s = false.
Proof.
  unfold absent. intros Hc Hs. destruct m as [|x m]; [discriminate Hc|].
  cbn [first_is] in Hc. apply Ascii.eqb_eq in Hc as ->.
  induction s as [|y s IH]; [reflexivity|].
  cbn [any_chars] in Hs. apply negb_true_iff, orb_false_iff in Hs as [Hy Hs].
  rewrite contains_cons. cbn [startswith]. rewrite Hy. cbn.
  apply IH. by rewrite Hs.
Qed.

Lemma startswith_app m a b :
  startswith m a = true -> startswith m (a +:+ b) = true.
Proof.
  revert a. induction m as [|x m IH]; intros a; [done|].
  destruct a as [|y a]; [discriminate|]. rewrite append_cons.
  cbn [startswith]. intros H. apply andb_true_iff in H as [-> H].
  by apply IH.
Qed.

Lemma contains_app_l m a b :
  contains m a = true -> contains m (a +:+ b) = true.
Proof.
  induction a as [|y a IH].
  - destruct m; [by destruct b|discriminate].
  - rewrite append_cons, !contains_cons. intros H.
    apply orb_true_iff in H as [H | H].
    + by rewrite <- append_cons, startswith_app.
    + rewrite IH by done. apply orb_true_r.
Qed.

Lemma contains_app_r m a b :
  contains m b = true -> contains m (a +:+ b) = true.
Proof.
  intros H. induction a as [|y a IH]; [done|].
  rewrite append_cons, contains_cons, IH. apply orb_true_r.
Qed.

Lemma contains_startswith m s : startswith m s = true -> contains m s = true.
Proof. intros H. destruct s; cbn [contains]; by rewrite H. Qed.

Lemma contains_drop m n s :
  contains m (drop n s) = true -> contains m s = true.
Proof.
  revert s. induction n as [|n IH]; intros s; [done|].
  destruct s as [|c s]; [done|]. cbn [drop]. intros H.
  rewrite contains_cons, IH by done. apply orb_true_r.
Qed.

Lemma string_of_uint_digits d :
  all_chars ascii_digit (NilEmpty.string_of_uint d) = true.
Proof. induction d; cbn; done. Qed.

Lemma of_nat_digits n : all_chars ascii_digit (of_nat n) = true.
Proof.
  unfold of_nat, NilZero.string_of_uint.
  destruct (Nat.to_uint n); try apply (string_of_uint_digits (_ _)); done.
Qed.

Lemma digits_absent c s :
  ascii_digit c = false -> all_chars ascii_digit s = true ->
  absent c s = true.
Proof.
  unfold absent. intros Hc. induction s as [|y s IH]; [done|].
  cbn [all_chars any_chars]. intros H. apply andb_true_iff in H as [Hy Hs].
  destruct (Ascii.eqb c y) eqn:E.
  - apply Ascii.eqb_eq in E as ->. congruence.
  - by apply IH.
Qed.

End Contains.

(** ** The exception monad and traversals *)

Lemma bind_Ok {A B : Type} (a : A) (f : A -> result B) : (Ok a ≫= f) = f a.
Proof. reflexivity. Qed.

Lemma bind_Raise {A B : Type} (e : exn) (f : A -> result B) :
  (Raise e ≫= f) = Raise e.
Proof. reflexivity. Qed.

Lemma apply_raising_total {A B : Type} (f : A -> result B) (g : A -> B) l :
  (forall x, x ∈ l -> f x = Ok (g x)) ->
  apply_raising f l = Ok (g <$> l).
Proof.
  induction l as [|x l IH]; intros Hf; [reflexivity|].
  simpl. rewrite (Hf x) by set_solver. rewrite bind_Ok.
  rewrite IH by (intros y Hy; apply Hf; set_solver). reflexivity.
Qed.

Lemma apply_raising_raises {A B : Type} (f : A -> result B) (e : exn) l :
  (forall x, x ∈ l -> f x = Raise e \/ exists y, f x = Ok y) ->
  (exists x, x ∈ l /\ f x = Raise e) ->
  apply_raising f l = Raise e.
Proof.
  induction l as [|x l IH]; intros Hall [z [Hz Hfz]].
  { by apply elem_of_nil in Hz. }
  simpl. destruct (f x) as [y|e'] eqn:Hfx.
  - rewrite bind_Ok.
    apply elem_of_cons in Hz as [Hz | Hz]; [congruence|].
    rewrite IH; [reflexivity | | eauto].
    intros w Hw. apply Hall. by apply elem_of_cons; right.
  - rewrite bind_Raise.
    destruct (Hall x) as [Hx | [y Hx]]; [by apply elem_of_cons; left | |];
      congruence.
Qed.

Lemma select_fmap {A B : Type} (m : A -> bool) (g : A -> B) (l : list A) :
  Frame.select (m <$> l) (g <$> l) = g <$> List.filter m l.
Proof.
  induction l as [|x l IH]; [reflexivity|].
  rewrite !fmap_cons. simpl. destruct (m x); rewrite ?fmap_cons, IH; done.
Qed.

Lemma zip_fmap_same {A B C : Type} (m : A -> B) (g : A -> C) (l : list A) :
  zip (m <$> l) (g <$> l) = (fun x => (m x, g x)) <$> l.
Proof. induction l as [|x l IH]; [reflexivity|]. rewrite !fmap_cons. simpl. by rewrite IH. Qed.

Lemma mask_and_fmap {A : Type} (p q : A -> bool) (l : list A) :
  mask_and (p <$> l) (q <$> l) = (fun x => p x && q x) <$> l.
Proof.
  unfold mask_and. induction l as [|x l IH]; [reflexivity|].
  rewrite !fmap_cons. simpl. by rewrite IH.
Qed.

Lemma mask_not_fmap {A : Type} (p : A -> bool) (l : list A) :
  mask_not (p <$> l) = (fun x => negb (p x)) <$> l.
Proof. unfold mask_not. by rewrite <- list_fmap_compose. Qed.

Lemma filter_length_split {A : Type} (p : A -> bool) (l : list A) :
  (List.length (List.filter p l) +
   List.length (List.filter (fun x => negb (p x)) l) = List.length l)%nat.
Proof.
  induction l as [|x l IH]; [reflexivity|].
  simpl. destruct (p x); simpl; lia.
Qed.
(** ** Tables *)

Lemma apply_raising_fmap {A B C : Type} (f : B -> result C) (h : A -> B)
    (g : A -> C) (l : list A) :
  (forall x, x ∈ l -> f (h x) = Ok (g x)) ->
  apply_raising f (h <$> l) = Ok (g <$> l).
Proof.
  induction l as [|x l IH]; intros Hf; [reflexivity|].
  rewrite !fmap_cons. cbn [apply_raising].
  rewrite (Hf x) by (by apply elem_of_cons; left). cbn.
  rewrite IH; [reflexivity|].
  intros y Hy. apply Hf. by apply elem_of_cons; right.
Qed.

Lemma cell_insert_eq (r : gmap string value) c v :
  Frame.cell (<[c := v]> r) c = v.
Proof. unfold Frame.cell. by rewrite lookup_insert_eq. Qed.

Lemma cell_insert_ne (r : gmap string value) c c' v :
  c <> c' -> Frame.cell (<[c := v]> r) c' = Frame.cell r c'.
Proof. intros Hne. unfold Frame.cell. by rewrite lookup_insert_ne. Qed.

Lemma getitem_with_desc cols acc (R : list (gmap string value)) c :
  c ∈ cols -> c <> "Check_Desc" ->
  Frame.getitem (mkFrame cols (with_desc acc <$> R)) c
  = Ok ((fun r => Frame.cell r c) <$> R).
Proof.
  intros Hc Hne. unfold Frame.getitem. simpl.
  rewrite bool_decide_eq_true_2 by done.
  f_equal. rewrite <- list_fmap_compose. apply list_fmap_ext.
  intros i r _. simpl. unfold with_desc. by rewrite cell_insert_ne.
Qed.

Lemma getitem_desc cols acc (R : list (gmap string value)) :
  "Check_Desc" ∈ cols ->
  Frame.getitem (mkFrame cols (with_desc acc <$> R)) "Check_Desc"
  = Ok ((fun r => VStr (acc r)) <$> R).
Proof.
  intros Hc. unfold Frame.getitem. simpl.
  rewrite bool_decide_eq_true_2 by done.
  f_equal. rewrite <- list_fmap_compose. apply list_fmap_ext.
  intros i r _. simpl. unfold with_desc. by rewrite cell_insert_eq.
Qed.

Lemma getitem_mask_fmap cols (m : gmap string value -> bool)
    (g : gmap string value -> gmap string value) R :
  Frame.getitem_mask (mkFrame cols (g <$> R)) (m <$> R)
  = Ok (mkFrame cols (g <$> List.filter m R)).
Proof.
  unfold Frame.getitem_mask. simpl.
  rewrite bool_decide_eq_true_2 by (by rewrite !length_fmap).
  by rewrite select_fmap.
Qed.

Lemma iadd_row_with_desc acc src f (valid : gmap string value -> bool) r :
  src <> "Check_Desc" ->
  Frame.iadd_row "Check_Desc" src f (negb (valid r), with_desc acc r)
  = if valid r then Ok (with_desc acc r)
    else text ← f (Frame.cell r src);
         Ok (with_desc (fun _ => acc r +:+ text) r).
Proof.
  intros Hne. unfold Frame.iadd_row, with_desc.
  destruct (valid r); simpl; [reflexivity|].
  rewrite (cell_insert_ne _ _ src) by congruence.
  destruct (f (Frame.cell r src)) as [text|e]; [|reflexivity].
  cbn. rewrite cell_insert_eq. cbn. by rewrite insert_insert_eq.
Qed.

Lemma loc_iadd_apply_rows cols (R : list (gmap string value)) acc
    (valid : gmap string value -> bool) src f
    (txt : gmap string value -> string) :
  "Check_Desc" ∈ cols -> src ∈ cols -> src <> "Check_Desc" ->
  (forall r, r ∈ R -> valid r = false -> f (Frame.cell r src) = Ok (txt r)) ->
  Frame.loc_iadd_apply (mkFrame cols (with_desc acc <$> R))
    (mask_not (valid <$> R)) "Check_Desc" src f
  = Ok (mkFrame cols
          (with_desc (fun r => acc r +:+ (if valid r then "" else txt r))
             <$> R)).
Proof.
  intros Hcd Hsrc Hne Hf. unfold Frame.loc_iadd_apply. cbn [columns rows].
  rewrite !bool_decide_eq_true_2 by done. cbn [andb].
  rewrite mask_not_fmap.
  rewrite bool_decide_eq_true_2 by (by rewrite !length_fmap).
  rewrite zip_fmap_same.
  rewrite (apply_raising_fmap _ _
    (with_desc (fun r => acc r +:+ (if valid r then "" else txt r)))).
  - reflexivity.
  - intros r Hr. rewrite iadd_row_with_desc by done.
    destruct (valid r) eqn:Hv.
    + unfold with_desc. by rewrite Hv, append_empty_r.
    + rewrite (Hf r Hr Hv). unfold with_desc. cbn. by rewrite Hv.
Qed.

Lemma loc_iadd_apply_raises cols (R : list (gmap string value)) acc
    (valid : gmap string value -> bool) src f e :
  "Check_Desc" ∈ cols -> src ∈ cols -> src <> "Check_Desc" ->
  (forall r, r ∈ R -> f (Frame.cell r src) = Raise e \/
                     exists t, f (Frame.cell r src) = Ok t) ->
  (exists r, r ∈ R /\ valid r = false /\ f (Frame.cell r src) = Raise e) ->
  Frame.loc_iadd_apply (mkFrame cols (with_desc acc <$> R))
    (mask_not (valid <$> R)) "Check_Desc" src f
  = Raise e.
Proof.
  intros Hcd Hsrc Hne Hf [r0 (Hr0 & Hv0 & Hf0)].
  unfold Frame.loc_iadd_apply. cbn [columns rows].
  rewrite !bool_decide_eq_true_2 by done. cbn [andb].
  rewrite mask_not_fmap.
  rewrite bool_decide_eq_true_2 by (by rewrite !length_fmap).
  rewrite zip_fmap_same.
  rewrite (apply_raising_raises _ e); [reflexivity | |].
  - intros x Hx. apply list_elem_of_fmap in Hx as [r [-> Hr]].
    rewrite iadd_row_with_desc by done.
    destruct (valid r); [right; eauto|].
    destruct (Hf r Hr) as [-> | [t ->]]; [by left | right; eauto].
  - exists (negb (valid r0), with_desc acc r0). split.
    + apply list_elem_of_fmap. eauto.
    + rewrite iadd_row_with_desc by done. by rewrite Hv0, Hf0.
Qed.


(** ** The validation pass, row by row *)

Lemma check_desc_in_columns_after df : "Check_Desc" ∈ columns_after df.
Proof.
  unfold columns_after, Frame.setitem. cbn [columns].
  case_bool_decide; [done|]. apply elem_of_app. right. by apply list_elem_of_singleton.
Qed.

Lemma label_in_columns_after df f :
  required_columns ⊆ columns df -> label f ∈ columns_after df.
Proof.
  intros Hreq. unfold columns_after, Frame.setitem. cbn [columns].
  assert (label f ∈ columns df).
  { apply Hreq. destruct f; unfold required_columns; set_solver. }
  case_bool_decide; [done|]. apply elem_of_app. by left.
Qed.

Lemma label_ne_check_desc f : label f <> "Check_Desc".
Proof. by destruct f. Qed.

Lemma clause_of_total f x :
  (f = KK_NO \/ f = NIK -> isinstance_str x = true) ->
  exists text, clause_of f x = Ok text.
Proof.
  intros Hstr. destruct f; simpl; try (eexists; reflexivity).
  - destruct x; try (discriminate Hstr; auto). eexists. reflexivity.
  - destruct x; try (discriminate Hstr; auto). eexists. reflexivity.
Qed.

Lemma clause_of_raises f x :
  clause_of f x = Raise TypeError \/ exists text, clause_of f x = Ok text.
Proof.
  destruct f; simpl; try (right; eexists; reflexivity);
    destruct x; simpl; try (by left); right; eexists; reflexivity.
Qed.

Section FlagSteps.

Variable kota : list string.
Variable today : date.


(** One of the six statements of lines 76-93, on the table as the
    previous ones left it. *)
Lemma flag_step df acc f :
  required_columns ⊆ columns df ->
  (forall r, r ∈ rows df -> passes kota today f r = false ->
             exists text, clause_of f (Frame.cell r (label f)) = Ok text) ->
  Frame.loc_iadd_apply
    (mkFrame (columns_after df) (with_desc acc <$> rows df))
    (mask_not (predicate kota today f <$> ((fun r => Frame.cell r (label f)) <$> rows df)))
    "Check_Desc" (label f) (clause_of f)
  = Ok (mkFrame (columns_after df)
          (with_desc (fun r => acc r +:+ piece kota today f r) <$> rows df)).
Proof.
  intros Hreq Hok. rewrite <- list_fmap_compose.
  rewrite (loc_iadd_apply_rows _ _ _ (passes kota today f) _ _
    (fun r => match clause_of f (Frame.cell r (label f)) with
              | Ok text => text
              | Raise _ => ""
              end)).
  - reflexivity.
  - apply check_desc_in_columns_after.
  - by apply label_in_columns_after.
  - apply label_ne_check_desc.
  - intros r Hr Hp. destruct (Hok r Hr Hp) as [text ->]. reflexivity.
Qed.

Lemma flag_step_raises df acc f :
  required_columns ⊆ columns df ->
  (exists r, r ∈ rows df /\ passes kota today f r = false /\
             clause_of f (Frame.cell r (label f)) = Raise TypeError) ->
  Frame.loc_iadd_apply
    (mkFrame (columns_after df) (with_desc acc <$> rows df))
    (mask_not (predicate kota today f <$> ((fun r => Frame.cell r (label f)) <$> rows df)))
    "Check_Desc" (label f) (clause_of f)
  = Raise TypeError.
Proof.
  intros Hreq Hex. rewrite <- list_fmap_compose.
  apply (loc_iadd_apply_raises _ _ _ (passes kota today f)).
  - apply check_desc_in_columns_after.
  - by apply label_in_columns_after.
  - apply label_ne_check_desc.
  - intros r _. apply clause_of_raises.
  - exact Hex.
Qed.

End FlagSteps.

Lemma clause_of_nonempty f x text : clause_of f x = Ok text -> text <> "".
Proof.
  destruct f; cbn [clause_of]; unfold Clause.kk_no, Clause.nik,
    Clause.custname, Clause.jenis_kelamin, Clause.tempat_lahir,
    Clause.tanggal_lahir; try destruct (py_last4 x); cbn [mbind result_bind];
    intros [= <-] H; apply append_eq_empty in H as [H _]; discriminate H.
Qed.

(** Rewrites the next of the six statements with [Hs], a fact about
    [Frame.loc_iadd_apply] for field [f] on any accumulated text. *)
Ltac flag Hs f :=
  match goal with
  | |- context [Frame.loc_iadd_apply
                  (mkFrame _ (with_desc ?a <$> _)) _ _ _ _] =>
      let H := fresh in
      pose proof (Hs a f) as H;
      cbn [predicate label clause_of] in H; rewrite H; clear H;
      cbn [mbind result_bind]
  end.

(** Runs [clean_data] up to line 73: the six column reads and the
    selection of the clean rows, those on which [p] holds. *)
Ltac clean_data_prefix Hreq p :=
  unfold clean_data;
  match goal with
  | |- context [Frame.setitem ?df "Check_Desc" (VStr "")] =>
      change (Frame.setitem df "Check_Desc" (VStr ""))
        with (mkFrame (columns_after df)
                (with_desc (fun _ => "") <$> rows df));
      rewrite (getitem_with_desc _ _ _ "KK_NO")
        by (first [apply (label_in_columns_after df KK_NO Hreq) | done]);
      rewrite (getitem_with_desc _ _ _ "NIK")
        by (first [apply (label_in_columns_after df NIK Hreq) | done]);
      rewrite (getitem_with_desc _ _ _ "CUSTNAME")
        by (first [apply (label_in_columns_after df CUSTNAME Hreq) | done]);
      rewrite (getitem_with_desc _ _ _ "JENIS_KELAMIN")
        by (first [apply (label_in_columns_after df JENIS_KELAMIN Hreq)
                  | done]);
      rewrite (getitem_with_desc _ _ _ "TEMPAT_LAHIR")
        by (first [apply (label_in_columns_after df TEMPAT_LAHIR Hreq)
                  | done]);
      rewrite (getitem_with_desc _ _ _ "TANGGAL_LAHIR")
        by (first [apply (label_in_columns_after df TANGGAL_LAHIR Hreq)
                  | done]);
      cbn [mbind result_bind];
      match goal with
      | |- context [Frame.getitem_mask _ ?m] =>
          assert (m = p <$> rows df) as ->
            by (rewrite <- !list_fmap_compose, !mask_and_fmap; reflexivity)
      end;
      rewrite getitem_mask_fmap; cbn [mbind result_bind]
  end.

Lemma forallb_false_elem {A : Type} (p : A -> bool) (l : list A) :
  forallb p l = false -> exists x, x ∈ l /\ p x = false.
Proof.
  induction l as [|x l IH]; [discriminate|]. cbn [forallb].
  destruct (p x) eqn:Hx.
  - intros H. destruct (IH H) as [y [Hy Hpy]]. exists y. split; [|done].
    by apply elem_of_cons; right.
  - intros _. exists x. split; [by apply elem_of_cons; left | done].
Qed.

Lemma clause_of_raises_on_non_str f x :
  f = KK_NO \/ f = NIK -> isinstance_str x = false ->
  clause_of f x = Raise TypeError.
Proof. intros [-> | ->]; by destruct x. Qed.

Section CleanDataRows.

Variable kota : list string.
Variable today : date.

Lemma piece_empty f r :
  (f = KK_NO \/ f = NIK -> isinstance_str (Frame.cell r (label f)) = true) ->
  piece kota today f r = "" <-> passes kota today f r = true.
Proof.
  intros Hstr. unfold piece.
  destruct (passes kota today f r) eqn:Hp; [done|].
  destruct (clause_of_total f (Frame.cell r (label f)) Hstr) as [text Ht].
  rewrite Ht. split; [|done]. intros ->.
  by apply clause_of_nonempty in Ht.
Qed.

Lemma check_desc_empty r :
  ids_are_str r = true ->
  check_desc kota today r = "" <-> all_pass kota today r = true.
Proof.
  intros Hids. apply andb_true_iff in Hids as [Hkk Hnik].
  unfold check_desc, all_pass. cbn [foldl fields].
  rewrite !append_eq_empty, !andb_true_iff.
  rewrite !piece_empty; [tauto | intros [|]; try discriminate; done ..].
Qed.

Lemma clean_data_rowwise_ok df :
  required_columns ⊆ columns df ->
  forallb ids_are_str (rows df) = true ->
  clean_data kota today df =
    Ok (mkFrame (columns_after df) (annotate kota today <$> rows df),
        mkFrame (columns_after df)
          (annotate kota today <$>
             List.filter (fun r => negb (all_pass kota today r)) (rows df)),
        mkFrame (filter (fun x => x <> "Check_Desc") (columns_after df))
          ((fun r => delete "Check_Desc" r) <$>
             List.filter (all_pass kota today) (rows df))).
Proof.
  intros Hreq Hstr. clean_data_prefix Hreq (all_pass kota today).
  assert (Hids : forall r, r ∈ rows df -> ids_are_str r = true).
  { intros r Hr. rewrite forallb_forall in Hstr. apply Hstr.
    by apply list_elem_of_In. }
  assert (Hok : forall f r, r ∈ rows df -> passes kota today f r = false ->
            exists text, clause_of f (Frame.cell r (label f)) = Ok text).
  { intros f r Hr _. apply clause_of_total. specialize (Hids r Hr).
    apply andb_true_iff in Hids as [Hkk Hnik].
    intros [-> | ->]; done. }
  pose proof (fun acc f => flag_step kota today df acc f Hreq (Hok f)) as Hs.
  flag Hs KK_NO. flag Hs NIK. flag Hs CUSTNAME. flag Hs JENIS_KELAMIN.
  flag Hs TEMPAT_LAHIR. flag Hs TANGGAL_LAHIR.
  rewrite getitem_desc by apply check_desc_in_columns_after.
  cbn [mbind result_bind].
  rewrite <- list_fmap_compose, getitem_mask_fmap.
  cbn [mbind result_bind].
  unfold Frame.drop. cbn [columns rows].
  rewrite bool_decide_eq_true_2 by apply check_desc_in_columns_after.
  cbn [mbind result_bind].
  change (with_desc _) with (annotate kota today) at 1 2.
  f_equal. f_equal; [f_equal|]; f_equal.
  - f_equal. apply List.filter_ext_in. intros r Hr.
    apply list_elem_of_In, Hids, check_desc_empty in Hr.
    cbn [compose].
    change (VStr _ = VStr "") with (VStr (check_desc kota today r) = VStr "").
    f_equal. destruct (all_pass kota today r).
    + apply bool_decide_eq_true_2. f_equal. by apply Hr.
    + apply bool_decide_eq_false_2. intros [= Hd]. apply Hr in Hd.
      discriminate Hd.
  - rewrite <- list_fmap_compose. apply list_fmap_ext. intros i r _.
    cbn. unfold with_desc. apply delete_insert_eq.
Qed.

Lemma clean_data_rowwise_raises df :
  required_columns ⊆ columns df ->
  forallb ids_are_str (rows df) = false ->
  clean_data kota today df = Raise TypeError.
Proof.
  intros Hreq Hstr. clean_data_prefix Hreq (all_pass kota today).
  destruct (forallb (fun r => isinstance_str (Frame.cell r "KK_NO"))
              (rows df)) eqn:Hkk.
  - assert (Hok : forall r, r ∈ rows df ->
              passes kota today KK_NO r = false ->
              exists text, clause_of KK_NO (Frame.cell r "KK_NO") = Ok text).
    { intros r Hr _. apply clause_of_total. intros _.
      rewrite forallb_forall in Hkk. by apply Hkk, list_elem_of_In. }
    pose proof (flag_step kota today df (fun _ => "") KK_NO Hreq Hok) as H1.
    cbn [predicate label clause_of] in H1. rewrite H1. clear H1.
    cbn [mbind result_bind].
    assert (Hex : exists r, r ∈ rows df /\ passes kota today NIK r = false /\
              clause_of NIK (Frame.cell r (label NIK)) = Raise TypeError).
    { apply forallb_false_elem in Hstr as [r [Hr Hids]].
      exists r. split; [done|].
      assert (isinstance_str (Frame.cell r "NIK") = false) as Hnik.
      { rewrite forallb_forall in Hkk.
        apply list_elem_of_In, Hkk in Hr. unfold ids_are_str in Hids.
        by rewrite Hr in Hids. }
      split; [|by apply clause_of_raises_on_non_str; auto].
      unfold passes. cbn [label predicate].
      by destruct (Frame.cell r "NIK"). }
    match goal with
    | |- context [Frame.loc_iadd_apply
                    (mkFrame _ (with_desc ?a <$> _)) _ _ _ _] =>
        pose proof (flag_step_raises kota today df a NIK Hreq Hex) as H1
    end.
    cbn [predicate label clause_of] in H1. rewrite H1. reflexivity.
  - assert (Hex : exists r, r ∈ rows df /\
              passes kota today KK_NO r = false /\
              clause_of KK_NO (Frame.cell r (label KK_NO)) = Raise TypeError).
    { apply forallb_false_elem in Hkk as [r [Hr Hkk]].
      exists r. split; [done|].
      split; [|by apply clause_of_raises_on_non_str; auto].
      unfold passes. cbn [label predicate].
      by destruct (Frame.cell r "KK_NO"). }
    pose proof (flag_step_raises kota today df (fun _ => "") KK_NO Hreq Hex)
      as H1.
    cbn [predicate label clause_of] in H1. rewrite H1. reflexivity.
Qed.

(** The column-wise pass and its row-wise reading agree. *)
Lemma clean_data_rowwise df :
  required_columns ⊆ columns df ->
  clean_data kota today df =
    if forallb ids_are_str (rows df)
    then Ok (mkFrame (columns_after df) (annotate kota today <$> rows df),
             mkFrame (columns_after df)
               (annotate kota today <$>
                  List.filter (fun r => negb (all_pass kota today r))
                    (rows df)),
             mkFrame (filter (fun x => x <> "Check_Desc") (columns_after df))
               ((fun r => delete "Check_Desc" r) <$>
                  List.filter (all_pass kota today) (rows df)))
    else Raise TypeError.
Proof.
  intros Hreq. destruct (forallb ids_are_str (rows df)) eqn:Hids.
  - by apply clean_data_rowwise_ok.
  - by apply clean_data_rowwise_raises.
Qed.

End CleanDataRows.

Lemma getitem_Ok_elem df c col : Frame.getitem df c = Ok col -> c ∈ columns df.
Proof. unfold Frame.getitem. by case_bool_decide. Qed.

Section Validation.

Variable kota : list string.
Variable today : date.

(** A result of [clean_data] comes from a table with the six columns. *)
Lemma clean_data_Ok_columns df out :
  clean_data kota today df = Ok out -> required_columns ⊆ columns df.
Proof.
  unfold clean_data.
  set (raw := Frame.setitem df "Check_Desc" (VStr "")).
  assert (Hcol : forall c, c <> "Check_Desc" ->
            c ∈ columns raw -> c ∈ columns df).
  { intros c Hc. unfold raw, Frame.setitem. cbn [columns].
    case_bool_decide; [done|]. rewrite elem_of_app, list_elem_of_singleton.
    intros [|]; done. }
  repeat match goal with
         | |- context [Frame.getitem raw ?c] =>
             let E := fresh "E" in
             destruct (Frame.getitem raw c) eqn:E;
             [apply getitem_Ok_elem in E; cbn [mbind result_bind]
             | let H := fresh in intros H; cbn in H; discriminate H]
         end.
  intros _ c Hc. unfold required_columns in Hc.
  repeat (apply elem_of_cons in Hc as [-> | Hc]; [by apply Hcol|]).
  by apply elem_of_nil in Hc.
Qed.

(** A result of [clean_data] comes from a table whose identity cells
    are strings. *)
Lemma clean_data_Ok_ids df out :
  clean_data kota today df = Ok out -> forallb ids_are_str (rows df) = true.
Proof.
  intros Hok. pose proof (clean_data_Ok_columns _ _ Hok) as Hreq.
  destruct (forallb ids_are_str (rows df)) eqn:Hids; [reflexivity|].
  rewrite (clean_data_rowwise_raises kota today df Hreq Hids) in Hok.
  discriminate Hok.
Qed.

(** [clean_data] on the tables on which it returns. *)
Lemma clean_data_Ok_inv df raw_df messy_df clean_df :
  clean_data kota today df = Ok (raw_df, messy_df, clean_df) ->
  raw_df = mkFrame (columns_after df) (annotate kota today <$> rows df) /\
  messy_df = mkFrame (columns_after df)
    (annotate kota today <$>
       List.filter (fun r => negb (all_pass kota today r)) (rows df)) /\
  clean_df = mkFrame
    (filter (fun x => x <> "Check_Desc") (columns_after df))
    ((fun r => delete "Check_Desc" r) <$>
       List.filter (all_pass kota today) (rows df)).
Proof.
  intros Hok.
  pose proof (clean_data_Ok_columns _ _ Hok) as Hreq.
  pose proof (clean_data_Ok_ids _ _ Hok) as Hids.
  rewrite (clean_data_rowwise_ok kota today df Hreq Hids) in Hok.
  by injection Hok as <- <- <-.
Qed.

End Validation.

(** ** The summary on a validated table *)

Section Summary.

Variable kota : list string.
Variable today : date.

Lemma count_marker_annotated cols L m :
  "Check_Desc" ∈ cols ->
  count_marker (mkFrame cols (annotate kota today <$> L)) m
  = Ok (flagged kota today m L).
Proof.
  intros Hcd. unfold count_marker.
  change (annotate kota today) with (with_desc (check_desc kota today)).
  rewrite getitem_desc by done. cbn [mbind result_bind].
  unfold Frame.str_contains.
  rewrite (apply_raising_fmap _ _
    (fun r => PyStr.contains m (check_desc kota today r)))
    by reflexivity.
  cbn [mbind result_bind].
  rewrite getitem_mask_fmap. cbn [mbind result_bind].
  unfold Frame.len, flagged. cbn [rows]. by rewrite length_fmap.
Qed.

Lemma summary_statistics_annotated cols L clean_df :
  "Check_Desc" ∈ cols ->
  exists st,
    summary_statistics (mkFrame cols (annotate kota today <$> L)) clean_df
    = Ok st /\
    messy_data st = Z.of_nat (List.length L) /\
    clean_data_len st = Frame.len clean_df /\
    len_param st = (Z.of_nat (List.length cols) - 1)%Z /\
    (forall f, counted f st = flagged kota today (marker f) L) /\
    total_invalid st = (Z.of_nat (List.length L) * len_param st)%Z /\
    messy_invalid st =
      (invalid_kk st + invalid_nik st + invalid_name st +
       invalid_gender st + invalid_places st + invalid_date st)%Z /\
    clean_invalid st = (total_invalid st - messy_invalid st)%Z.
Proof.
  intros Hcd. unfold summary_statistics.
  rewrite !count_marker_annotated by done.
  unfold Frame.shape, Frame.len. cbn [rows columns mbind result_bind].
  rewrite length_fmap.
  eexists. split; [reflexivity|]. cbn.
  repeat split; try reflexivity. by intros [].
Qed.

End Summary.

(** ** Classification of the rows *)

Lemma filter_not_elem (c : string) (l : list string) :
  c ∉ l -> filter (fun x => x <> c) l = l.
Proof.
  induction l as [|x l IH]; [reflexivity|].
  intros Hc. apply not_elem_of_cons in Hc as [Hx Hl].
  rewrite filter_cons_True by congruence. by rewrite IH.
Qed.

(** C1. On a table with the six columns whose KK_NO and NIK cells are
    strings, [clean_data] returns; the clean output holds exactly the rows
    on which all six predicates pass (without the diagnostic column), the
    messy output exactly the other rows, each with its diagnostic; the
    diagnostic of a row is empty iff all six predicates pass on it; and
    the two outputs together have as many rows as the input. *)
Theorem clean_data_partition (kota : list string) (today : date)
    (df : DataFrame) :
  required_columns ⊆ columns df ->
  forallb ids_are_str (rows df) = true ->
  exists raw_df messy_df clean_df,
    clean_data kota today df = Ok (raw_df, messy_df, clean_df) /\
    rows raw_df = annotate kota today <$> rows df /\
    rows clean_df =
      (fun r => delete "Check_Desc" r) <$>
        List.filter (all_pass kota today) (rows df) /\
    rows messy_df =
      annotate kota today <$>
        List.filter (fun r => negb (all_pass kota today r)) (rows df) /\
    (forall r, r ∈ rows df ->
       (Frame.cell (annotate kota today r) "Check_Desc" = VStr "" <->
        all_pass kota today r = true)) /\
    (forall r, r ∈ rows messy_df ->
       exists d, Frame.cell r "Check_Desc" = VStr d /\ d <> "") /\
    (forall r, r ∈ rows clean_df -> r !! "Check_Desc" = None) /\
    (Frame.len clean_df + Frame.len messy_df = Frame.len df)%Z.
Proof.
  intros Hreq Hids.
  assert (Hstr : forall r, r ∈ rows df -> ids_are_str r = true).
  { intros r Hr. rewrite forallb_forall in Hids.
    by apply Hids, list_elem_of_In. }
  eexists _, _, _. split; [by apply clean_data_rowwise_ok|].
  cbn [rows]. repeat split.
  - unfold annotate. rewrite cell_insert_eq. intros [= Hd].
    by apply (check_desc_empty kota today r (Hstr r H)).
  - intros Hp. unfold annotate. rewrite cell_insert_eq. f_equal.
    by apply (check_desc_empty kota today r (Hstr r H)).
  - intros r Hr. apply list_elem_of_fmap in Hr as [r0 [-> Hr0]].
    apply list_elem_of_In, filter_In in Hr0 as [Hr0 Hp].
    apply list_elem_of_In in Hr0.
    exists (check_desc kota today r0). split.
    + unfold annotate. by rewrite cell_insert_eq.
    + intros Hd.
      apply (check_desc_empty kota today r0 (Hstr r0 Hr0)) in Hd.
      rewrite Hd in Hp. discriminate Hp.
  - intros r Hr. apply list_elem_of_fmap in Hr as [r0 [-> _]].
    apply lookup_delete_eq.
  - unfold Frame.len. cbn [rows]. rewrite !length_fmap.
    pose proof (filter_length_split (all_pass kota today) (rows df)). lia.
Qed.

(** Called on a table that did not go through lines 340-341, with a
    KK_NO or NIK cell that is not a string, [clean_data] raises
    [TypeError]: the clause of lines 76-81 slices the cell itself,
    [x[-4:]], where its two other fields go through [str(x)]. *)
Lemma clean_data_raises_on_non_string_id (kota : list string)
    (today : date) (df : DataFrame) :
  required_columns ⊆ columns df ->
  (exists r, r ∈ rows df /\
     (isinstance_str (Frame.cell r "KK_NO") = false \/
      isinstance_str (Frame.cell r "NIK") = false)) ->
  clean_data kota today df = Raise TypeError.
Proof.
  intros Hreq [r [Hr Hbad]]. apply clean_data_rowwise_raises; [done|].
  destruct (forallb ids_are_str (rows df)) eqn:Hids; [|reflexivity].
  rewrite forallb_forall in Hids. apply list_elem_of_In, Hids in Hr.
  apply andb_true_iff in Hr as [Hkk Hnik]. destruct Hbad; congruence.
Qed.

(** On a string, however short, the KK_NO and NIK clauses do not raise
    and report the length, the digit test and the last characters. *)
Lemma clause_on_str (s : string) :
  Clause.kk_no (VStr s) =
    Ok ("Invalid KK_NO (length: " +:+ PyStr.of_nat (PyStr.len s) +:+
        ", digits only: " +:+ PyStr.of_bool (PyStr.isdigit s) +:+
        ", last_digits: " +:+ PyStr.last4 s +:+ "); ") /\
  Clause.nik (VStr s) =
    Ok ("Invalid NIK (length: " +:+ PyStr.of_nat (PyStr.len s) +:+
        ", digits only: " +:+ PyStr.of_bool (PyStr.isdigit s) +:+
        ", last_digits: " +:+ PyStr.last4 s +:+ "); ").
Proof. split; reflexivity. Qed.

(** C10. [clean_data] leaves the cells of the six fields as they are: a
    messy output row is its input row with the [Check_Desc] cell added, a
    clean output row is its input row, and the clean output has the
    columns of the input, without [Check_Desc]. *)
Theorem clean_data_frame (kota : list string) (today : date)
    (df raw_df messy_df clean_df : DataFrame) :
  "Check_Desc" ∉ columns df ->
  (forall r, r ∈ rows df -> r !! "Check_Desc" = None) ->
  clean_data kota today df = Ok (raw_df, messy_df, clean_df) ->
  columns clean_df = columns df /\
  ("Check_Desc" ∉ columns clean_df) /\
  rows clean_df = List.filter (all_pass kota today) (rows df) /\
  columns messy_df = columns df ++ ["Check_Desc"] /\
  Forall2 (fun out inp =>
             (exists d, out !! "Check_Desc" = Some (VStr d)) /\
             forall c, c <> "Check_Desc" -> out !! c = inp !! c)
    (rows messy_df)
    (List.filter (fun r => negb (all_pass kota today r)) (rows df)) /\
  columns raw_df = columns df ++ ["Check_Desc"] /\
  Forall2 (fun out inp => forall c, c <> "Check_Desc" -> out !! c = inp !! c)
    (rows raw_df) (rows df).
Proof.
  intros Hcd Hrows Hok.
  apply clean_data_Ok_inv in Hok as (-> & -> & ->). cbn [columns rows].
  assert (Hcols : columns_after df = columns df ++ ["Check_Desc"]).
  { unfold columns_after, Frame.setitem. cbn [columns].
    by rewrite bool_decide_eq_false_2. }
  assert (Hfil : filter (fun x => x <> "Check_Desc") (columns_after df)
                 = columns df).
  { rewrite Hcols, filter_app, filter_not_elem by done.
    rewrite filter_cons_False by (intros H; by apply H). apply app_nil_r. }
  assert (Hdel : (fun r : gmap string value => delete "Check_Desc" r) <$>
                   List.filter (all_pass kota today) (rows df)
                 = List.filter (all_pass kota today) (rows df)).
  { rewrite <- (list_fmap_id (List.filter _ _)) at 2.
    apply list_fmap_ext. intros i r Hi. cbn.
    apply delete_id, Hrows.
    apply list_elem_of_lookup_2, list_elem_of_In, filter_In in Hi as [Hi _].
    by apply list_elem_of_In. }
  rewrite Hfil, Hdel, Hcols. repeat split; try done.
  - apply Forall2_fmap_l, Forall_Forall2_diag, Forall_forall.
    intros r _. unfold annotate. split.
    + eexists. apply lookup_insert_eq.
    + intros c Hc. by apply lookup_insert_ne.
  - apply Forall2_fmap_l, Forall_Forall2_diag, Forall_forall.
    intros r _ c Hc. unfold annotate. by apply lookup_insert_ne.
Qed.

(** ** The summary statistics *)

Lemma percent_nonzero (a b : Z) :
  b <> 0%Z -> percent a b = Ok (inject_Z a / inject_Z b * inject_Z 100)%Q.
Proof. intros Hb. unfold percent. by rewrite (proj2 (Z.eqb_neq b 0) Hb). Qed.

(** C7. For a table with exactly the six columns, the summary of the
    validated table has [total_invalid = len(messy_df) * 6],
    [messy_invalid] the sum of the six counts and
    [clean_invalid = total_invalid - messy_invalid]; with 10 messy rows
    [total_invalid] is 60 and, when the counts add up to 15,
    [clean_invalid] is 45. *)
Theorem summary_totals (kota : list string) (today : date)
    (df raw_df messy_df clean_df : DataFrame) :
  columns df = required_columns ->
  clean_data kota today df = Ok (raw_df, messy_df, clean_df) ->
  exists st,
    summary_statistics messy_df clean_df = Ok st /\
    total_invalid st = (Frame.len messy_df * 6)%Z /\
    messy_invalid st =
      (invalid_kk st + invalid_nik st + invalid_name st +
       invalid_gender st + invalid_places st + invalid_date st)%Z /\
    clean_invalid st = (total_invalid st - messy_invalid st)%Z /\
    (Frame.len messy_df = 10%Z -> total_invalid st = 60%Z) /\
    (Frame.len messy_df = 10%Z -> messy_invalid st = 15%Z ->
     clean_invalid st = 45%Z).
Proof.
  intros Hcols Hok.
  apply clean_data_Ok_inv in Hok as (-> & -> & ->).
  destruct (summary_statistics_annotated kota today (columns_after df)
    (List.filter (fun r => negb (all_pass kota today r)) (rows df))
    (mkFrame (filter (fun x => x <> "Check_Desc") (columns_after df))
       ((fun r => delete "Check_Desc" r) <$>
          List.filter (all_pass kota today) (rows df)))
    (check_desc_in_columns_after df))
    as (st & Hst & Hm & Hc & Hlen & Hcnt & Htot & Hmi & Hci).
  exists st. split; [exact Hst|].
  assert (Hsix : len_param st = 6%Z).
  { rewrite Hlen. unfold columns_after, Frame.setitem. cbn [columns].
    rewrite Hcols. reflexivity. }
  assert (Hlenm : Frame.len (mkFrame (columns_after df)
            (annotate kota today <$>
               List.filter (fun r => negb (all_pass kota today r)) (rows df)))
          = Z.of_nat (List.length
              (List.filter (fun r => negb (all_pass kota today r)) (rows df)))).
  { unfold Frame.len. cbn [rows]. by rewrite length_fmap. }
  rewrite Hlenm, Htot, Hsix. repeat split; try done; lia.
Qed.

(** C3. Whenever the validated table has no messy row, or the total
    passed to the summary is 0, [generate_summary_excel] raises
    [ZeroDivisionError]: line 128 divides by [total_data] and by
    [total_invalid] without a test, before anything is written. *)
Theorem generate_summary_excel_zero_division (kota : list string)
    (today : date)
    (to_excel : Stats * list Q -> DataFrame -> DataFrame -> result bytes)
    (df raw_df messy_df clean_df : DataFrame) (total_data : Z) :
  clean_data kota today df = Ok (raw_df, messy_df, clean_df) ->
  rows messy_df = [] \/ total_data = 0%Z ->
  generate_summary_excel to_excel messy_df clean_df total_data
  = Raise ZeroDivisionError.
Proof.
  intros Hok Hzero.
  apply clean_data_Ok_inv in Hok as (-> & -> & ->).
  destruct (summary_statistics_annotated kota today (columns_after df)
    (List.filter (fun r => negb (all_pass kota today r)) (rows df))
    (mkFrame (filter (fun x => x <> "Check_Desc") (columns_after df))
       ((fun r => delete "Check_Desc" r) <$>
          List.filter (all_pass kota today) (rows df)))
    (check_desc_in_columns_after df))
    as (st & Hst & Hm & Hc & Hlen & Hcnt & Htot & Hmi & Hci).
  unfold generate_summary_excel. rewrite Hst. cbn [mbind result_bind].
  unfold summary_percentages.
  destruct (Z.eq_dec total_data 0) as [-> | Hne].
  { reflexivity. }
  destruct Hzero as [Hnil | ->]; [|done].
  cbn [rows] in Hnil. apply fmap_nil_inv in Hnil.
  rewrite Hnil in Htot. cbn in Htot.
  rewrite !(percent_nonzero _ total_data) by done.
  cbn [mbind result_bind]. rewrite Htot. reflexivity.
Qed.

(** ** Searching a diagnostic for a marker *)

Lemma marker_nonempty f : marker f <> "".
Proof. by destruct f. Qed.

Lemma contains_marker_of_nat f n :
  PyStr.contains (marker f) (PyStr.of_nat n) = false.
Proof.
  apply (contains_first_absent _ "I"); [by destruct f|].
  apply digits_absent; [reflexivity | apply of_nat_digits].
Qed.

(** Splits the text searched for [marker f] at a separator [d]. *)
Ltac sep f a d b :=
  match goal with
  | |- context [PyStr.contains (marker f) ?t] =>
      change t with (a +:+ String d b);
      rewrite (contains_app_sep (marker f) a d b)
        by (first [by destruct f | apply marker_nonempty])
  end.

(** Passes over a first character that no marker starts with. *)
Ltac skip f c s :=
  match goal with
  | |- context [PyStr.contains (marker f) ?t] =>
      change t with (String c s);
      rewrite (contains_cons_ne (marker f) c s)
        by (first [by destruct f | apply marker_nonempty])
  end.

Lemma clause_contains f g x text :
  clause_of g x = Ok text ->
  PyStr.contains (marker f) text
  = field_eqb g f || PyStr.contains (marker f) (echoed g x).
Proof.
  destruct g; cbn [clause_of echoed].
  - unfold Clause.kk_no. destruct x as [s| | | | | | |]; try discriminate.
    cbn [py_last4 mbind result_bind py_str]. intros [= <-].
    sep f "Invalid KK_NO " "("%char
      ("length: " +:+ PyStr.of_nat (PyStr.len s) +:+ ", digits only: " +:+
       PyStr.of_bool (PyStr.isdigit s) +:+ ", last_digits: " +:+
       PyStr.last4 s +:+ "); ").
    sep f "length" ":"%char
      (" " +:+ PyStr.of_nat (PyStr.len s) +:+ ", digits only: " +:+
       PyStr.of_bool (PyStr.isdigit s) +:+ ", last_digits: " +:+
       PyStr.last4 s +:+ "); ").
    sep f (" " +:+ PyStr.of_nat (PyStr.len s)) ","%char
      (" digits only: " +:+ PyStr.of_bool (PyStr.isdigit s) +:+
       ", last_digits: " +:+ PyStr.last4 s +:+ "); ").
    skip f " "%char (PyStr.of_nat (PyStr.len s)).
    rewrite contains_marker_of_nat.
    sep f " digits only" ":"%char
      (" " +:+ PyStr.of_bool (PyStr.isdigit s) +:+ ", last_digits: " +:+
       PyStr.last4 s +:+ "); ").
    sep f (" " +:+ PyStr.of_bool (PyStr.isdigit s)) ","%char
      (" last_digits: " +:+ PyStr.last4 s +:+ "); ").
    sep f " last_digits" ":"%char (" " +:+ PyStr.last4 s +:+ "); ").
    sep f (" " +:+ PyStr.last4 s) ")"%char "; ".
    skip f " "%char (PyStr.last4 s).
    destruct (PyStr.isdigit s); destruct f; cbn [marker field_eqb];
      destruct (PyStr.contains _ (PyStr.last4 s)); reflexivity.
  - unfold Clause.nik. destruct x as [s| | | | | | |]; try discriminate.
    cbn [py_last4 mbind result_bind py_str]. intros [= <-].
    sep f "Invalid NIK " "("%char
      ("length: " +:+ PyStr.of_nat (PyStr.len s) +:+ ", digits only: " +:+
       PyStr.of_bool (PyStr.isdigit s) +:+ ", last_digits: " +:+
       PyStr.last4 s +:+ "); ").
    sep f "length" ":"%char
      (" " +:+ PyStr.of_nat (PyStr.len s) +:+ ", digits only: " +:+
       PyStr.of_bool (PyStr.isdigit s) +:+ ", last_digits: " +:+
       PyStr.last4 s +:+ "); ").
    sep f (" " +:+ PyStr.of_nat (PyStr.len s)) ","%char
      (" digits only: " +:+ PyStr.of_bool (PyStr.isdigit s) +:+
       ", last_digits: " +:+ PyStr.last4 s +:+ "); ").
    skip f " "%char (PyStr.of_nat (PyStr.len s)).
    rewrite contains_marker_of_nat.
    sep f " digits only" ":"%char
      (" " +:+ PyStr.of_bool (PyStr.isdigit s) +:+ ", last_digits: " +:+
       PyStr.last4 s +:+ "); ").
    sep f (" " +:+ PyStr.of_bool (PyStr.isdigit s)) ","%char
      (" last_digits: " +:+ PyStr.last4 s +:+ "); ").
    sep f " last_digits" ":"%char (" " +:+ PyStr.last4 s +:+ "); ").
    sep f (" " +:+ PyStr.last4 s) ")"%char "; ".
    skip f " "%char (PyStr.last4 s).
    destruct (PyStr.isdigit s); destruct f; cbn [marker field_eqb];
      destruct (PyStr.contains _ (PyStr.last4 s)); reflexivity.
  - unfold Clause.custname. intros [= <-].
    sep f "Invalid CUSTNAME " "("%char ("contains special characters or digits: " +:+ py_str x +:+ "); ").
    sep f "contains special characters or digits" ":"%char (" " +:+ py_str x +:+ "); ").
    sep f (" " +:+ py_str x) ")"%char "; ".
    skip f " "%char (py_str x).
    destruct f; cbn [marker field_eqb];
      destruct (PyStr.contains _ (py_str x)); reflexivity.
  - unfold Clause.jenis_kelamin. intros [= <-].
    sep f "Invalid JENIS_KELAMIN " "("%char ("value: " +:+ py_str x +:+ "); ").
    sep f "value" ":"%char (" " +:+ py_str x +:+ "); ").
    sep f (" " +:+ py_str x) ")"%char "; ".
    skip f " "%char (py_str x).
    destruct f; cbn [marker field_eqb];
      destruct (PyStr.contains _ (py_str x)); reflexivity.
  - unfold Clause.tempat_lahir. intros [= <-].
    sep f "Invalid TEMPAT_LAHIR " "("%char ("value: " +:+ py_str x +:+ "); ").
    sep f "value" ":"%char (" " +:+ py_str x +:+ "); ").
    sep f (" " +:+ py_str x) ")"%char "; ".
    skip f " "%char (py_str x).
    destruct f; cbn [marker field_eqb];
      destruct (PyStr.contains _ (py_str x)); reflexivity.
  - unfold Clause.tanggal_lahir. intros [= <-].
    sep f "Invalid TANGGAL_LAHIR " "("%char ("value: " +:+ py_str x +:+ ", expected format DD/MM/YYYY); ").
    sep f "value" ":"%char (" " +:+ py_str x +:+ ", expected format DD/MM/YYYY); ").
    sep f (" " +:+ py_str x) ","%char " expected format DD/MM/YYYY); ".
    skip f " "%char (py_str x).
    destruct f; cbn [marker field_eqb];
      destruct (PyStr.contains _ (py_str x)); reflexivity.
Qed.

Lemma clause_of_tail g x text :
  clause_of g x = Ok text -> exists body, text = body +:+ String ")" "; ".
Proof.
  destruct g; cbn [clause_of].
  - unfold Clause.kk_no. destruct x as [s| | | | | | |]; try discriminate.
    cbn [py_last4 mbind result_bind py_str]. intros [= <-].
    exists ("Invalid KK_NO (length: " +:+ PyStr.of_nat (PyStr.len s) +:+
            ", digits only: " +:+ PyStr.of_bool (PyStr.isdigit s) +:+
            ", last_digits: " +:+ PyStr.last4 s).
    by rewrite 5 append_assoc.
  - unfold Clause.nik. destruct x as [s| | | | | | |]; try discriminate.
    cbn [py_last4 mbind result_bind py_str]. intros [= <-].
    exists ("Invalid NIK (length: " +:+ PyStr.of_nat (PyStr.len s) +:+
            ", digits only: " +:+ PyStr.of_bool (PyStr.isdigit s) +:+
            ", last_digits: " +:+ PyStr.last4 s).
    by rewrite 5 append_assoc.
  - intros [= <-].
    exists ("Invalid CUSTNAME (contains special characters or digits: " +:+
            py_str x).
    by rewrite append_assoc.
  - intros [= <-]. exists ("Invalid JENIS_KELAMIN (value: " +:+ py_str x).
    by rewrite append_assoc.
  - intros [= <-]. exists ("Invalid TEMPAT_LAHIR (value: " +:+ py_str x).
    by rewrite append_assoc.
  - intros [= <-].
    exists ("Invalid TANGGAL_LAHIR (value: " +:+ py_str x +:+
            ", expected format DD/MM/YYYY").
    by rewrite 2 append_assoc.
Qed.

Section Markers.

Variable kota : list string.
Variable today : date.

Lemma piece_cases g r :
  piece kota today g r = "" \/
  passes kota today g r = false /\
  clause_of g (Frame.cell r (label g)) = Ok (piece kota today g r).
Proof.
  unfold piece. destruct (passes kota today g r); [by left|].
  destruct (clause_of g (Frame.cell r (label g))); [right|left]; done.
Qed.

Lemma contains_piece_app f g r rest :
  PyStr.contains (marker f) (piece kota today g r +:+ rest)
  = PyStr.contains (marker f) (piece kota today g r) ||
    PyStr.contains (marker f) rest.
Proof.
  destruct (piece_cases g r) as [-> | [_ Hc]].
  - rewrite append_empty_l, contains_empty by apply marker_nonempty. done.
  - apply clause_of_tail in Hc as [body ->].
    rewrite append_assoc.
    sep f body ")"%char ("; " +:+ rest).
    sep f body ")"%char "; ".
    skip f ";"%char (" " +:+ rest). skip f " "%char rest.
    destruct f; cbn [marker]; by rewrite orb_false_r.
Qed.

Lemma contains_piece f g r :
  (g = KK_NO \/ g = NIK -> isinstance_str (Frame.cell r (label g)) = true) ->
  PyStr.contains (marker f) (piece kota today g r) = raised kota today f g r.
Proof.
  intros Hstr. unfold raised, piece.
  destruct (passes kota today g r).
  - by rewrite contains_empty by apply marker_nonempty.
  - destruct (clause_of_total g (Frame.cell r (label g)) Hstr) as [t Ht].
    rewrite Ht. by apply clause_contains.
Qed.

Lemma contains_check_desc f r :
  ids_are_str r = true ->
  PyStr.contains (marker f) (check_desc kota today r)
  = existsb (fun g => raised kota today f g r) fields.
Proof.
  intros Hids. apply andb_true_iff in Hids as [Hkk Hnik].
  unfold check_desc. cbn [foldl fields existsb].
  rewrite append_empty_l, !append_assoc, 5 contains_piece_app.
  rewrite !contains_piece; [by rewrite orb_false_r | intros [|]; try discriminate; done ..].
Qed.

End Markers.

Lemma filter_length_le {A : Type} (p q : A -> bool) (l : list A) :
  (forall x, x ∈ l -> p x = true -> q x = true) ->
  (List.length (List.filter p l) <= List.length (List.filter q l))%nat.
Proof.
  induction l as [|x l IH]; intros H; [done|]. cbn [List.filter].
  assert (IH' : (List.length (List.filter p l)
                 <= List.length (List.filter q l))%nat).
  { apply IH. intros y Hy. apply H. by apply elem_of_cons; right. }
  destruct (p x) eqn:Hp.
  - rewrite (H x) by (done || by apply elem_of_cons; left).
    cbn [List.length]. lia.
  - destruct (q x); cbn [List.length]; lia.
Qed.

Lemma filter_fmap {A B : Type} (p : B -> bool) (g : A -> B) (l : list A) :
  List.filter p (g <$> l) = g <$> List.filter (fun x => p (g x)) l.
Proof.
  induction l as [|x l IH]; [done|]. rewrite fmap_cons. cbn [List.filter].
  destruct (p (g x)); by rewrite ?fmap_cons, IH.
Qed.

Lemma contains_echoed f g x :
  PyStr.contains (marker f) (echoed g x) = true ->
  PyStr.contains (marker f) (py_str x) = true.
Proof.
  destruct g; cbn [echoed]; try done;
    (destruct x as [s| | | | | | |];
     [apply contains_drop
     | rewrite contains_empty by apply marker_nonempty; discriminate ..]).
Qed.

Section MarkerCounts.

Variable kota : list string.
Variable today : date.

Lemma passes_annotate f r :
  passes kota today f (annotate kota today r) = passes kota today f r.
Proof.
  unfold passes, annotate.
  by rewrite cell_insert_ne by (symmetry; apply label_ne_check_desc).
Qed.

Lemma cell_annotate f r :
  Frame.cell (annotate kota today r) (label f) = Frame.cell r (label f).
Proof.
  unfold annotate.
  by rewrite cell_insert_ne by (symmetry; apply label_ne_check_desc).
Qed.

Lemma check_desc_flags_failure f r :
  ids_are_str r = true -> passes kota today f r = false ->
  PyStr.contains (marker f) (check_desc kota today r) = true.
Proof.
  intros Hids Hp. rewrite contains_check_desc by done.
  apply existsb_exists. exists f. split; [destruct f; cbn; tauto|].
  unfold raised. rewrite Hp. by destruct f.
Qed.

Lemma check_desc_flags_exactly f r :
  ids_are_str r = true ->
  (forall g, PyStr.contains (marker f) (py_str (Frame.cell r (label g)))
             = false) ->
  PyStr.contains (marker f) (check_desc kota today r)
  = negb (passes kota today f r).
Proof.
  intros Hids Hno. rewrite contains_check_desc by done.
  assert (He : forall g, raised kota today f g r
               = negb (passes kota today g r) && field_eqb g f).
  { intros g. unfold raised. f_equal.
    destruct (PyStr.contains (marker f)
                (echoed g (Frame.cell r (label g)))) eqn:E;
      [|apply orb_false_r].
    apply contains_echoed in E. by rewrite Hno in E. }
  cbn [existsb fields]. rewrite !He.
  destruct f; cbn [field_eqb];
    rewrite ?andb_false_r, ?andb_true_r, ?orb_false_r; reflexivity.
Qed.

End MarkerCounts.

(** C8, as amended.  On the output of [clean_data], each count of the
    summary is the number of messy rows whose diagnostic contains the
    marker of the field; it is at least the number of messy rows on which
    the predicate of the field fails, and equal to it when no cell of the
    six fields of a messy row, read as text, contains the marker. *)
Theorem marker_counts (kota : list string) (today : date)
    (df raw_df messy_df clean_df : DataFrame) :
  clean_data kota today df = Ok (raw_df, messy_df, clean_df) ->
  exists st,
    summary_statistics messy_df clean_df = Ok st /\
    forall f,
      counted f st =
        Z.of_nat (List.length (List.filter
          (fun r => PyStr.contains (marker f)
                      (py_str (Frame.cell r "Check_Desc")))
          (rows messy_df))) /\
      (failing kota today f (rows messy_df) <= counted f st)%Z /\
      ((forall r g, r ∈ rows messy_df ->
          PyStr.contains (marker f) (py_str (Frame.cell r (label g)))
          = false) ->
       counted f st = failing kota today f (rows messy_df)).
Proof.
  intros Hok.
  pose proof (clean_data_Ok_ids _ _ _ _ Hok) as Hids.
  apply clean_data_Ok_inv in Hok as (-> & -> & ->).
  set (L := List.filter (fun r => negb (all_pass kota today r)) (rows df)).
  assert (HL : forall r, r ∈ L -> ids_are_str r = true).
  { intros r Hr. apply list_elem_of_In, filter_In in Hr as [Hr _].
    rewrite forallb_forall in Hids. by apply Hids. }
  destruct (summary_statistics_annotated kota today (columns_after df) L
    (mkFrame (filter (fun x => x <> "Check_Desc") (columns_after df))
       ((fun r => delete "Check_Desc" r) <$>
          List.filter (all_pass kota today) (rows df)))
    (check_desc_in_columns_after df))
    as (st & Hst & _ & _ & _ & Hcnt & _).
  exists st. split; [exact Hst|]. intros f. cbn [rows].
  rewrite Hcnt. unfold flagged, failing. rewrite !filter_fmap, !length_fmap.
  repeat split.
  - do 2 f_equal. apply List.filter_ext. intros r. unfold annotate.
    by rewrite cell_insert_eq.
  - apply inj_le, filter_length_le. intros r Hr Hp.
    rewrite passes_annotate in Hp. apply negb_true_iff in Hp.
    by apply check_desc_flags_failure; [apply HL|].
  - intros Hno. do 2 f_equal. apply List.filter_ext_in. intros r Hr.
    apply list_elem_of_In in Hr. rewrite passes_annotate.
    apply check_desc_flags_exactly; [by apply HL|].
    intros g. rewrite <- (cell_annotate kota today g r).
    apply Hno. apply list_elem_of_fmap. eauto.
Qed.

(** ** Characters and bytes *)

Section UnicodeFacts.

Import Unicode.

Lemma first_ascii a s : (byte a < 128)%N -> first a s = (byte a, 1).
Proof. intros H. unfold first. by rewrite (proj2 (N.ltb_lt _ _) H). Qed.

(** The first character of a text takes at least one byte and no more
    than there are; a byte below 128 is a character, and no other
    character is below 128. *)
Lemma first_spec a s :
  exists c k,
    first a s = (c, S k) /\ (k <= String.length s)%nat /\
    ((byte a < 128)%N -> c = byte a /\ k = 0) /\
    ((128 <= byte a)%N -> (128 <= c)%N).
Proof.
  unfold first. destruct (N.ltb_spec (byte a) 128) as [Hlt | Hge].
  { exists (byte a), 0. repeat split; (done || lia). }
  assert (Hesc : exists c k, ((56320 + byte a)%N, 1) = (c, S k) /\
            (k <= String.length s)%nat /\
            ((byte a < 128)%N -> c = byte a /\ k = 0) /\
            ((128 <= byte a)%N -> (128 <= c)%N)).
  { exists (56320 + byte a)%N, 0. repeat split; lia. }
  destruct s as [|a1 [|a2 [|a3 s4]]]; try exact Hesc;
    repeat match goal with
    | |- context [if ?b then _ else _] =>
        let E := fresh "E" in destruct b eqn:E
    end; try exact Hesc;
    repeat match goal with
    | H : _ && _ = true |- _ => apply andb_true_iff in H as [? ?]
    end;
    unfold second3, second4, is_cont, low6 in *;
    repeat match goal with
    | H : _ && _ = true |- _ => apply andb_true_iff in H as [? ?]
    | H : (_ <=? _)%N = true |- _ => apply N.leb_le in H
    | H : (if ?b then _ else _) = true |- _ => destruct b eqn:?
    | H : (_ =? _)%N = true |- _ => apply N.eqb_eq in H
    | H : (_ =? _)%N = false |- _ => apply N.eqb_neq in H
    end;
    eexists _, _; (split; [reflexivity|]); cbn [String.length];
    repeat split; lia.
Qed.

Lemma chars_scan_drop k s : chars_scan k s = chars (PyStr.drop k s).
Proof.
  revert s. induction k as [|k IH]; intros s; [done|].
  destruct s as [|a s]; [done|]. cbn [chars_scan PyStr.drop]. apply IH.
Qed.

Lemma chars_cons a s :
  chars (String a s)
  = first a s :: chars (PyStr.drop (snd (first a s) - 1) s).
Proof.
  unfold chars at 1. cbn [chars_scan].
  destruct (first a s) as [c w]. cbn [snd]. by rewrite chars_scan_drop.
Qed.

Lemma chars_ascii a s :
  Unicode.is_ascii a = true -> chars (String a s) = (byte a, 1) :: chars s.
Proof.
  intros H. apply N.ltb_lt in H. rewrite chars_cons, first_ascii by done.
  reflexivity.
Qed.

Lemma decode_ascii a s :
  Unicode.is_ascii a = true -> decode (String a s) = byte a :: decode s.
Proof. intros H. unfold decode. by rewrite chars_ascii. Qed.

Lemma chars_all_ascii s :
  PyStr.all_chars Unicode.is_ascii s = true ->
  chars s = (fun a => (byte a, 1)) <$> list_ascii_of_string s.
Proof.
  induction s as [|a s IH]; [done|]. cbn [PyStr.all_chars].
  intros H. apply andb_true_iff in H as [Ha Hs].
  rewrite chars_ascii by done. cbn [list_ascii_of_string fmap list_fmap].
  by rewrite IH.
Qed.

Lemma decode_app_ascii a b :
  PyStr.all_chars Unicode.is_ascii a = true ->
  decode (a +:+ b) = (byte <$> list_ascii_of_string a) ++ decode b.
Proof.
  induction a as [|x a IH]; [done|]. cbn [PyStr.all_chars].
  intros H. apply andb_true_iff in H as [Hx Ha].
  rewrite append_cons, decode_ascii by done.
  cbn [list_ascii_of_string fmap list_fmap app]. by rewrite IH.
Qed.

Lemma drop_drop n m s : PyStr.drop n (PyStr.drop m s) = PyStr.drop (m + n) s.
Proof.
  revert s. induction m as [|m IH]; intros s; [done|].
  destruct s as [|a s]; [by destruct n|]. cbn [PyStr.drop Nat.add]. apply IH.
Qed.

(** The text from its [k]-th character on holds the characters from the
    [k]-th on. *)
Lemma chars_drop_offset k s :
  chars (PyStr.drop (PyStr.offset k s) s) = drop k (chars s).
Proof.
  unfold PyStr.offset. revert s. induction k as [|k IH]; intros s; [done|].
  destruct s as [|a s]; [done|].
  rewrite chars_cons. destruct (first_spec a s) as (c & w & -> & _).
  cbn [snd take fmap list_fmap sum_list Nat.add PyStr.drop drop].
  replace (S w - 1) with w by lia.
  rewrite <- (IH (PyStr.drop w s)). by rewrite drop_drop.
Qed.

Lemma decode_last4 s :
  decode (PyStr.last4 s) = drop (PyStr.len s - 4) (decode s).
Proof.
  unfold PyStr.last4, decode. rewrite chars_drop_offset.
  by rewrite fmap_drop.
Qed.

Lemma decode_nil s : decode s = [] -> s = "".
Proof.
  destruct s as [|a s]; [done|]. unfold decode. rewrite chars_cons. done.
Qed.

(** A character below 128 is read from the byte that holds it. *)
Lemma decode_cons_ascii a s c l :
  decode (String a s) = c :: l -> (c < 128)%N ->
  a = ascii_of_N c /\ decode s = l.
Proof.
  unfold decode. rewrite chars_cons.
  destruct (first_spec a s) as (c' & k & -> & _ & Hlt & Hge).
  cbn [fmap list_fmap fst snd]. intros [= -> <-] Hc.
  destruct (N.lt_ge_cases (byte a) 128) as [H | H].
  - destruct (Hlt H) as [-> ->]. split; [|done].
    unfold byte. by rewrite ascii_N_embedding.
  - apply Hge in H. lia.
Qed.

Lemma decode_ascii_inj s t :
  PyStr.all_chars Unicode.is_ascii t = true -> decode s = decode t -> s = t.
Proof.
  revert s. induction t as [|b t IH]; intros s.
  - intros _. apply decode_nil.
  - cbn [PyStr.all_chars]. intros H E. apply andb_true_iff in H as [Hb Ht].
    rewrite (decode_ascii b) in E by done.
    destruct s as [|a s]; [done|].
    apply decode_cons_ascii in E as [-> E]; [|by apply N.ltb_lt].
    unfold byte. rewrite ascii_N_embedding. f_equal. by apply IH.
Qed.

Lemma len_decode s : PyStr.len s = List.length (decode s).
Proof. unfold PyStr.len, decode. by rewrite length_fmap. Qed.

(** The last four characters are "0000" iff the last four code points
    are four times that of "0". *)
Lemma last4_zeros_decode s :
  PyStr.last4 s = "0000" <->
  drop (PyStr.len s - 4) (decode s) = [cp "0"; cp "0"; cp "0"; cp "0"].
Proof.
  rewrite <- decode_last4. split; [by intros ->|].
  intros H. by apply decode_ascii_inj.
Qed.

End UnicodeFacts.

(** ** The field predicates *)

Section AsciiText.

Import Unicode.

(** Among the characters below 128, the digits are the ten ASCII
    digits. *)
Lemma isdigit_byte a :
  Unicode.is_ascii a = true -> isdigit (byte a) = PyStr.ascii_digit a.
Proof.
  destruct a as [[] [] [] [] [] [] [] []]; try discriminate; intros _;
    vm_compute; reflexivity.
Qed.

Lemma ascii_digit_spec (c : ascii) :
  PyStr.ascii_digit c = true <->
  c ∈ ["0"; "1"; "2"; "3"; "4"; "5"; "6"; "7"; "8"; "9"]%char.
Proof.
  split.
  - destruct c as [[] [] [] [] [] [] [] []]; try discriminate; intros _;
      apply (bool_decide_unpack _); vm_compute; exact I.
  - intros H.
    repeat (apply elem_of_cons in H as [-> | H]; [reflexivity|]).
    by apply elem_of_nil in H.
Qed.

Lemma ascii_digit_below_128 c :
  PyStr.ascii_digit c = true -> Unicode.is_ascii c = true.
Proof.
  intros H. apply ascii_digit_spec in H.
  repeat (apply elem_of_cons in H as [-> | H]; [reflexivity|]).
  by apply elem_of_nil in H.
Qed.

Lemma all_chars_impl (p q : ascii -> bool) s :
  (forall c, p c = true -> q c = true) ->
  PyStr.all_chars p s = true -> PyStr.all_chars q s = true.
Proof.
  intros Hpq. induction s as [|c s IH]; [done|]. cbn [PyStr.all_chars].
  intros H. apply andb_true_iff in H as [Hc Hs].
  by rewrite (Hpq c Hc), IH.
Qed.

Lemma len_ascii s :
  PyStr.all_chars Unicode.is_ascii s = true -> PyStr.len s = String.length s.
Proof.
  intros H. unfold PyStr.len. rewrite chars_all_ascii by done.
  rewrite length_fmap. induction s as [|c s IH]; [done|].
  cbn [PyStr.all_chars] in H. apply andb_true_iff in H as [_ H].
  cbn [list_ascii_of_string List.length String.length]. by rewrite IH.
Qed.

Lemma offset_ascii k s :
  PyStr.all_chars Unicode.is_ascii s = true ->
  PyStr.offset k s = Nat.min k (String.length s).
Proof.
  intros H. unfold PyStr.offset. rewrite chars_all_ascii by done. clear H.
  revert k. induction s as [|c s IH]; intros k; [by destruct k|].
  destruct k as [|k]; [done|].
  cbn [list_ascii_of_string fmap list_fmap take sum_list String.length
       Nat.min snd Nat.add].
  f_equal. apply IH.
Qed.

Lemma last4_ascii s :
  PyStr.all_chars Unicode.is_ascii s = true ->
  PyStr.last4 s = PyStr.drop (String.length s - 4) s.
Proof.
  intros H. unfold PyStr.last4. rewrite offset_ascii, len_ascii by done.
  f_equal. lia.
Qed.

Lemma forallb_isdigit_ascii s :
  PyStr.all_chars Unicode.is_ascii s = true ->
  forallb isdigit (decode s) = PyStr.all_chars PyStr.ascii_digit s.
Proof.
  induction s as [|c s IH]; [done|]. cbn [PyStr.all_chars].
  intros H. apply andb_true_iff in H as [Hc Hs].
  rewrite decode_ascii by done. cbn [forallb].
  by rewrite isdigit_byte, IH.
Qed.

Lemma isdigit_ascii s :
  PyStr.all_chars Unicode.is_ascii s = true ->
  PyStr.isdigit s
  = match s with
    | EmptyString => false
    | String _ _ => PyStr.all_chars PyStr.ascii_digit s
    end.
Proof.
  intros H. unfold PyStr.isdigit. rewrite <- forallb_isdigit_ascii by done.
  destruct s as [|c s]; [done|].
  cbn [PyStr.all_chars] in H. apply andb_true_iff in H as [Hc Hs].
  by rewrite decode_ascii.
Qed.

(** A text with an ASCII character that is not a digit does not hold
    digits only. *)
Lemma isdigit_app_ascii a c b :
  PyStr.all_chars Unicode.is_ascii a = true ->
  Unicode.is_ascii c = true -> PyStr.ascii_digit c = false ->
  PyStr.isdigit (a +:+ String c b) = false.
Proof.
  intros Ha Hc Hd. unfold PyStr.isdigit.
  rewrite decode_app_ascii, decode_ascii by done.
  destruct (_ ++ _ :: _) as [|x l] eqn:E; [done|]. rewrite <- E.
  rewrite forallb_app. cbn [forallb].
  by rewrite isdigit_byte, Hd, andb_false_r.
Qed.

(** A text of ASCII digits: its length, its digits and its last four
    characters are those of its bytes. *)
Lemma digits_text s :
  PyStr.all_chars PyStr.ascii_digit s = true ->
  PyStr.len s = String.length s /\
  PyStr.isdigit s = negb (String.eqb s "") /\
  PyStr.last4 s = PyStr.drop (String.length s - 4) s.
Proof.
  intros H.
  assert (Ha : PyStr.all_chars Unicode.is_ascii s = true)
    by (eapply all_chars_impl; [apply ascii_digit_below_128 | done]).
  split; [by apply len_ascii|]. split; [|by apply last4_ascii].
  rewrite isdigit_ascii by done. by destruct s.
Qed.

End AsciiText.

Lemma elem_of_decode_forallb (p : N -> bool) s :
  forallb p (Unicode.decode s) = true <->
  forall c, c ∈ Unicode.decode s -> p c = true.
Proof.
  rewrite forallb_forall. split; intros H c Hc; apply H;
    by apply list_elem_of_In.
Qed.

(** C2, as amended.  The KK number and NIK predicates are the same
    function; a value passes iff it is a string of exactly 16 characters,
    each of them a digit for [str.isdigit], whose last four characters
    are not four times the ASCII zero.  Below 128 the digits are the ten
    ASCII digits.  The 16-digit example passes; 15 digits, a trailing
    "0000" and any text with a character that is not a digit fail.
    Superscript two is a digit without being a decimal digit, and a text
    of fifteen ASCII digits and a superscript two passes; so do sixteen
    fullwidth digits, and a text that ends with four fullwidth zeros. *)
Theorem kk_no_nik_predicate :
  (forall v, is_valid_kk_no v = is_valid_nik v) /\
  (forall v,
     is_valid_kk_no v = true <->
     exists s, v = VStr s /\
       (forall c, c ∈ Unicode.decode s -> Unicode.isdigit c = true) /\
       List.length (Unicode.decode s) = 16%nat /\
       drop 12 (Unicode.decode s)
       <> [Unicode.cp "0"; Unicode.cp "0"; Unicode.cp "0"; Unicode.cp "0"]) /\
  (forall a : ascii,
     (Unicode.cp a < 128)%N ->
     Unicode.isdigit (Unicode.cp a) = true <->
     a ∈ ["0"; "1"; "2"; "3"; "4"; "5"; "6"; "7"; "8"; "9"]%char) /\
  is_valid_kk_no (VStr "1234567890123456") = true /\
  is_valid_kk_no (VStr "123456789012345") = false /\
  is_valid_kk_no (VStr "1234567890120000") = false /\
  (forall s c, c ∈ Unicode.decode s -> Unicode.isdigit c = false ->
     is_valid_kk_no (VStr s) = false) /\
  (forall v, isinstance_str v = false -> is_valid_kk_no v = false) /\
  Unicode.decode "²" = [178%N] /\
  Unicode.isdigit 178 = true /\ Unicode.decimal 178 = None /\
  is_valid_kk_no (VStr "123456789012345²") = true /\
  List.length (Unicode.decode "１２３４５６７８９０１２３４５６") = 16%nat /\
  is_valid_kk_no (VStr "１２３４５６７８９０１２３４５６") = true /\
  is_valid_kk_no (VStr "123456789012００００") = true.
Proof.
  split; [by intros []|].
  split.
  { intros v. split.
    - destruct v as [s| | | | | | |]; cbn [is_valid_kk_no]; try discriminate.
      rewrite !andb_true_iff, negb_true_iff, Nat.eqb_eq, String.eqb_neq.
      rewrite last4_zeros_decode, len_decode.
      intros [[Hd Hl] Hz]. exists s. split; [done|].
      rewrite Hl in Hz. split; [|by split].
      apply elem_of_decode_forallb. unfold PyStr.isdigit in Hd.
      by destruct (Unicode.decode s).
    - intros (s & -> & Hd & Hl & Hz). cbn [is_valid_kk_no].
      rewrite !andb_true_iff, negb_true_iff, Nat.eqb_eq, String.eqb_neq.
      rewrite last4_zeros_decode, len_decode, Hl.
      split; [split; [|done]|done].
      apply elem_of_decode_forallb in Hd. unfold PyStr.isdigit.
      by destruct (Unicode.decode s). }
  split.
  { intros a Ha. change (Unicode.cp a) with (Unicode.byte a).
    rewrite isdigit_byte by (by apply N.ltb_lt). apply ascii_digit_spec. }
  repeat split; try by_computation.
  - intros s c Hc Hd. cbn [is_valid_kk_no].
    assert (PyStr.isdigit s = false) as ->; [|reflexivity].
    destruct (PyStr.isdigit s) eqn:E; [|reflexivity].
    unfold PyStr.isdigit in E. destruct (Unicode.decode s) eqn:El; [done|].
    rewrite <- El in E.
    rewrite (proj1 (elem_of_decode_forallb _ _) E c) in Hd; [done|].
    by rewrite El.
  - by intros [].
Qed.

(** C2, as stated, fails: a text of sixteen characters, fifteen ASCII
    digits and superscript two, passes both predicates, and superscript
    two is not a decimal digit. *)
Lemma kk_no_accepts_superscript_two :
  Unicode.decode "123456789012345²"
  = [49; 50; 51; 52; 53; 54; 55; 56; 57; 48; 49; 50; 51; 52; 53; 178]%N /\
  Unicode.decimal 178 = None /\
  is_valid_kk_no (VStr "123456789012345²") = true /\
  is_valid_nik (VStr "123456789012345²") = true.
Proof. repeat split; by_computation. Qed.

(** C9. The name predicate passes a value iff it is a string none of whose
    characters is a digit for [str.isdigit]; below 128 these are the ten
    ASCII digits.  "Budi Santoso" and "O'Brien" pass, and so do
    punctuation and letters of other scripts; "Budi123" fails, and so
    does a name with an Arabic-Indic digit. *)
Theorem custname_predicate :
  (forall v,
     is_valid_custname v = true <->
     exists s, v = VStr s /\
       forall c, c ∈ Unicode.decode s -> Unicode.isdigit c = false) /\
  (forall a : ascii,
     (Unicode.cp a < 128)%N ->
     Unicode.isdigit (Unicode.cp a) = true <->
     a ∈ ["0"; "1"; "2"; "3"; "4"; "5"; "6"; "7"; "8"; "9"]%char) /\
  is_valid_custname (VStr "Budi Santoso") = true /\
  is_valid_custname (VStr "O'Brien") = true /\
  is_valid_custname (VStr "Budi123") = false /\
  is_valid_custname (VStr "Siti Nurhaliza-Putri, S.Kom.") = true /\
  is_valid_custname (VStr "Дмитрий 李小龙 محمد") = true /\
  Unicode.decode "٣" = [1635%N] /\ Unicode.isdigit 1635 = true /\
  is_valid_custname (VStr "Budi٣") = false /\
  (forall v, isinstance_str v = false -> is_valid_custname v = false).
Proof.
  split.
  { intros v. split.
    - destruct v as [s| | | | | | |]; cbn [is_valid_custname];
        try discriminate.
      rewrite negb_true_iff. unfold PyStr.any_isdigit. intros H.
      exists s. split; [done|]. intros c Hc.
      destruct (Unicode.isdigit c) eqn:E; [|done].
      assert (existsb Unicode.isdigit (Unicode.decode s) = true); [|congruence].
      apply existsb_exists. exists c. by rewrite <- list_elem_of_In.
    - intros (s & -> & H). cbn [is_valid_custname].
      rewrite negb_true_iff. unfold PyStr.any_isdigit.
      destruct (existsb _ _) eqn:E; [|done].
      apply existsb_exists in E as (c & Hc & Hd).
      apply list_elem_of_In in Hc. by rewrite (H c Hc) in Hd. }
  split.
  { intros a Ha. change (Unicode.cp a) with (Unicode.byte a).
    rewrite isdigit_byte by (by apply N.ltb_lt). apply ascii_digit_spec. }
  repeat split; try by_computation. by intros [].
Qed.

(** ** The birth date *)

Section Dates.

Import Unicode Strptime.
Local Open Scope Z_scope.

Lemma valid_gregorian d : Calendar.valid d = true <-> gregorian d.
Proof.
  unfold Calendar.valid, gregorian, Calendar.days_in_month, Calendar.is_leap.
  destruct d as [y m dd]. cbn [year month day].
  rewrite !andb_true_iff, !Z.leb_le.
  split.
  - intros [[[[[Hy1 Hy2] Hm1] Hm2] Hd1] Hd2].
    assert (Hm : m = 1 \/ m = 2 \/ m = 3 \/ m = 4 \/ m = 5 \/ m = 6 \/
                 m = 7 \/ m = 8 \/ m = 9 \/ m = 10 \/ m = 11 \/ m = 12) by lia.
    destruct Hm as [-> | [-> | [-> | [-> | [-> | [-> | [-> | [-> | [-> |
                    [-> | [-> | ->]]]]]]]]]]]; try (repeat split; lia).
    destruct (y mod 4 =? 0) eqn:E4; cbn [andb] in Hd2;
      [|repeat split; lia].
    apply Z.eqb_eq in E4.
    destruct (y mod 100 =? 0) eqn:E100; cbn [negb orb] in Hd2.
    + destruct (y mod 400 =? 0) eqn:E400; [|repeat split; lia].
      apply Z.eqb_eq in E400. repeat split; lia.
    + apply Z.eqb_neq in E100. repeat split; lia.
  - intros (Hy & Hm & Hd & H30 & H29 & Hleap).
    repeat split; try lia.
    assert (Hc : m = 1 \/ m = 2 \/ m = 3 \/ m = 4 \/ m = 5 \/ m = 6 \/
                 m = 7 \/ m = 8 \/ m = 9 \/ m = 10 \/ m = 11 \/ m = 12) by lia.
    destruct Hc as [-> | [-> | [-> | [-> | [-> | [-> | [-> | [-> | [-> |
                    [-> | [-> | ->]]]]]]]]]]]; try lia.
    destruct (Z.eq_dec dd 29) as [-> | Hne].
    + destruct (Hleap eq_refl eq_refl) as [H4 H100].
      rewrite (proj2 (Z.eqb_eq _ _) H4). cbn [andb].
      destruct H100 as [H100 | H400].
      * rewrite (proj2 (Z.eqb_neq _ _) H100). cbn. lia.
      * rewrite (proj2 (Z.eqb_eq _ _) H400). rewrite orb_true_r. lia.
    + specialize (H29 eq_refl).
      destruct (_ && _); lia.
Qed.

Lemma leb_spec d1 d2 :
  Calendar.leb d1 d2 = true <->
  year d1 < year d2 \/
  (year d1 = year d2 /\
   (month d1 < month d2 \/ (month d1 = month d2 /\ day d1 <= day d2))).
Proof.
  unfold Calendar.leb.
  rewrite !orb_true_iff, !andb_true_iff, !orb_true_iff, !andb_true_iff.
  rewrite !Z.ltb_lt, !Z.eqb_eq, Z.leb_le. tauto.
Qed.

Lemma any_digit_bound c v : any_digit c = Some v -> 0 <= v <= 9.
Proof.
  unfold any_digit, decimal.
  destruct (List.find _ _) as [[lo hi]|]; [|discriminate].
  cbn. intros [= <-].
  assert (((c - lo) mod 10 < 10)%N) by (by apply N.mod_upper_bound).
  set (r := ((c - lo) mod 10)%N) in *. lia.
Qed.

(** Turns the tests on characters in the context and in the goal into
    arithmetic. *)
Ltac tests :=
  unfold in_range, digit, cp in *; cbn [N_of_ascii N.add N.mul] in *;
  repeat match goal with
  | H : _ && _ = true |- _ => apply andb_true_iff in H as [? ?]
  | H : _ || _ = false |- _ => apply orb_false_iff in H as [? ?]
  | H : _ && _ = false |- _ => apply andb_false_iff in H
  | H : _ || _ = true |- _ => apply orb_true_iff in H
  | H : (_ <=? _) = true |- _ => apply Z.leb_le in H
  | H : (_ <=? _) = false |- _ => apply Z.leb_gt in H
  | H : (_ =? _)%N = true |- _ => apply N.eqb_eq in H
  | H : (_ =? _)%N = false |- _ => apply N.eqb_neq in H
  end.

Lemma in_range_true lo hi c :
  in_range lo hi c = true <-> 48 + lo <= Z.of_N c <= 48 + hi.
Proof. unfold in_range. rewrite andb_true_iff, !Z.leb_le. lia. Qed.

Lemma in_range_false lo hi c :
  in_range lo hi c = false <-> ~ (48 + lo <= Z.of_N c <= 48 + hi).
Proof.
  rewrite <- in_range_true. destruct (in_range lo hi c); split; done.
Qed.

Lemma eqb_cp_true a (c : ascii) : (a =? cp c)%N = true <-> a = cp c.
Proof. apply N.eqb_eq. Qed.

Lemma first_match_Some {A B : Type} (k : A -> option B) alts b :
  first_match k alts = Some b -> exists a, a ∈ alts /\ k a = Some b.
Proof.
  induction alts as [|a alts IH]; [discriminate|]. cbn [first_match].
  destruct (k a) as [b'|] eqn:Hk.
  - intros [= ->]. exists a. split; [apply list_elem_of_here | done].
  - intros H. destruct (IH H) as (a' & Ha' & Hk'). exists a'.
    split; [by apply list_elem_of_further | done].
Qed.

Lemma literal_Some c s r : literal c s = Some r -> s = cp c :: r.
Proof.
  destruct s as [|a s]; [discriminate|]. cbn [literal].
  destruct (N.eqb_spec a (cp c)) as [-> |]; [|discriminate]. by intros [= ->].
Qed.

Lemma literal_cons c r : literal c (cp c :: r) = Some r.
Proof. cbn [literal]. by rewrite N.eqb_refl. Qed.

(** No digit of a day or month text and no decimal digit is the
    separator. *)
Lemma any_digit_slash : any_digit (cp "/") = None.
Proof. reflexivity. Qed.

Lemma in_range_slash lo hi : 0 <= lo -> in_range lo hi (cp "/") = false.
Proof. intros H. apply in_range_false. cbn. lia. Qed.

Lemma directive_d_inv s v r :
  (v, r) ∈ directive_d s -> exists D, s = D ++ r /\ day_text D = Some v.
Proof.
  destruct s as [|a [|b s]]; cbn [directive_d].
  - intros H. by apply elem_of_nil in H.
  - destruct (in_range 1 9 a) eqn:Ha; [|intros H; by apply elem_of_nil in H].
    intros H. apply list_elem_of_singleton in H. injection H as -> ->.
    exists [a]. split; [done|]. cbn [day_text]. by rewrite Ha.
  - intros H. repeat (apply elem_of_app in H as [H | H]).
    + destruct (N.eqb_spec a (cp "3")) as [-> |]; [|by apply elem_of_nil in H].
      destruct (in_range 0 1 b) eqn:Hb; [|by apply elem_of_nil in H].
      cbn [andb] in H. apply list_elem_of_singleton in H. injection H as -> ->.
      exists [cp "3"; b]. split; [done|]. cbn [day_text]. by rewrite Hb.
    + destruct (in_range 1 2 a) eqn:Ha; [|by apply elem_of_nil in H].
      destruct (any_digit b) as [w|] eqn:Hb; [|by apply elem_of_nil in H].
      apply list_elem_of_singleton in H. injection H as -> ->.
      exists [a; b]. split; [done|]. cbn [day_text]. rewrite Ha, Hb.
      apply in_range_true in Ha.
      destruct (N.eqb_spec a (cp " ")) as [-> |]; [cbn in Ha; lia|].
      destruct (N.eqb_spec a (cp "0")) as [-> |]; [cbn in Ha; lia|].
      reflexivity.
    + destruct (N.eqb_spec a (cp "0")) as [-> |]; [|by apply elem_of_nil in H].
      destruct (in_range 1 9 b) eqn:Hb; [|by apply elem_of_nil in H].
      cbn [andb] in H. apply list_elem_of_singleton in H. injection H as -> ->.
      exists [cp "0"; b]. split; [done|]. cbn [day_text]. by rewrite Hb.
    + destruct (in_range 1 9 a) eqn:Ha; [|by apply elem_of_nil in H].
      apply list_elem_of_singleton in H. injection H as -> ->.
      exists [a]. split; [done|]. cbn [day_text]. by rewrite Ha.
    + destruct (N.eqb_spec a (cp " ")) as [-> |]; [|by apply elem_of_nil in H].
      destruct (in_range 1 9 b) eqn:Hb; [|by apply elem_of_nil in H].
      cbn [andb] in H. apply list_elem_of_singleton in H. injection H as -> ->.
      exists [cp " "; b]. split; [done|]. cbn [day_text]. by rewrite Hb.
Qed.

Lemma directive_m_inv s v r :
  (v, r) ∈ directive_m s -> exists M, s = M ++ r /\ month_text M = Some v.
Proof.
  destruct s as [|a [|b s]]; cbn [directive_m].
  - intros H. by apply elem_of_nil in H.
  - destruct (in_range 1 9 a) eqn:Ha; [|intros H; by apply elem_of_nil in H].
    intros H. apply list_elem_of_singleton in H. injection H as -> ->.
    exists [a]. split; [done|]. cbn [month_text]. by rewrite Ha.
  - intros H. repeat (apply elem_of_app in H as [H | H]).
    + destruct (N.eqb_spec a (cp "1")) as [-> |]; [|by apply elem_of_nil in H].
      destruct (in_range 0 2 b) eqn:Hb; [|by apply elem_of_nil in H].
      cbn [andb] in H. apply list_elem_of_singleton in H. injection H as -> ->.
      exists [cp "1"; b]. split; [done|]. cbn [month_text]. by rewrite Hb.
    + destruct (N.eqb_spec a (cp "0")) as [-> |]; [|by apply elem_of_nil in H].
      destruct (in_range 1 9 b) eqn:Hb; [|by apply elem_of_nil in H].
      cbn [andb] in H. apply list_elem_of_singleton in H. injection H as -> ->.
      exists [cp "0"; b]. split; [done|]. cbn [month_text]. by rewrite Hb.
    + destruct (in_range 1 9 a) eqn:Ha; [|by apply elem_of_nil in H].
      apply list_elem_of_singleton in H. injection H as -> ->.
      exists [a]. split; [done|]. cbn [month_text]. by rewrite Ha.
Qed.

Lemma directive_Y_spec s y r :
  directive_Y s = Some (y, r) <->
  exists Y, s = Y ++ r /\ year_text Y = Some y.
Proof.
  split.
  - destruct s as [|a [|b [|c [|d s]]]]; try discriminate.
    cbn [directive_Y]. intros H. exists [a; b; c; d].
    cbn [year_text].
    destruct (any_digit a); [|discriminate].
    destruct (any_digit b); [|discriminate].
    destruct (any_digit c); [|discriminate].
    destruct (any_digit d); [|discriminate].
    cbn in *. by injection H as -> ->.
  - intros (Y & -> & HY).
    destruct Y as [|a [|b [|c [|d [|e Y]]]]]; try discriminate.
    cbn [year_text] in HY. cbn [app directive_Y].
    destruct (any_digit a); [|discriminate].
    destruct (any_digit b); [|discriminate].
    destruct (any_digit c); [|discriminate].
    destruct (any_digit d); [|discriminate].
    cbn in *. by injection HY as ->.
Qed.

(** A day text followed by the separator is read by the first
    alternative that matches. *)
Lemma directive_d_read D d R :
  day_text D = Some d ->
  exists others,
    directive_d (D ++ cp "/" :: R) = (d, cp "/" :: R) :: others.
Proof.
  destruct D as [|a [|b [|c D]]]; try discriminate; cbn [day_text app].
  - destruct (in_range 1 9 a) eqn:Ha; [|discriminate]. intros [= <-].
    cbn [directive_d]. rewrite Ha, !in_range_slash, any_digit_slash by lia.
    rewrite !andb_false_r. destruct (in_range 1 2 a); cbn [app]; eauto.
  - cbn [directive_d].
    destruct ((a =? cp " ")%N || (a =? cp "0")%N) eqn:E.
    { destruct (in_range 1 9 b) eqn:Hb; [|discriminate]. intros [= <-].
      rewrite !andb_true_r.
      apply orb_true_iff in E as [E | E]; apply N.eqb_eq in E; subst a;
        cbn; eauto. }
    apply orb_false_iff in E as [E1 E2]. rewrite E1, E2. cbn [andb app].
    destruct (in_range 1 2 a) eqn:Ha.
    { destruct (any_digit b) as [v|] eqn:Hb; [|discriminate].
      cbn [mbind option_bind]. intros [= <-].
      assert ((a =? cp "3")%N = false) as ->; [|cbn; eauto].
      apply N.eqb_neq. intros ->. discriminate Ha. }
    destruct ((a =? cp "3")%N && in_range 0 1 b) eqn:E3; [|discriminate].
    intros [= <-]. cbn [app]. eauto.
Qed.

Lemma directive_m_read M m R :
  month_text M = Some m ->
  exists others,
    directive_m (M ++ cp "/" :: R) = (m, cp "/" :: R) :: others.
Proof.
  destruct M as [|a [|b [|c M]]]; try discriminate; cbn [month_text app].
  - destruct (in_range 1 9 a) eqn:Ha; [|discriminate]. intros [= <-].
    cbn [directive_m]. rewrite Ha, !in_range_slash by lia.
    rewrite !andb_false_r. cbn [app]. eauto.
  - cbn [directive_m].
    destruct (N.eqb_spec a (cp "0")) as [-> | Hne].
    { destruct (in_range 1 9 b) eqn:Hb; [|discriminate]. intros [= <-].
      cbn. eauto. }
    destruct ((a =? cp "1")%N && in_range 0 2 b) eqn:E; [|discriminate].
    intros [= <-]. cbn [app]. eauto.
Qed.

Lemma regex_match_spec s d m y rest :
  regex_match s = Some (d, m, y, rest) <->
  exists D M Y,
    s = D ++ [cp "/"] ++ M ++ [cp "/"] ++ Y ++ rest /\
    day_text D = Some d /\ month_text M = Some m /\ year_text Y = Some y.
Proof.
  unfold regex_match. split.
  - intros H.
    apply first_match_Some in H as ([d' r1] & Hd & H).
    destruct (literal "/" r1) as [r2|] eqn:H1; [|discriminate].
    cbn [mbind option_bind] in H.
    apply first_match_Some in H as ([m' r3] & Hm & H).
    destruct (literal "/" r3) as [r4|] eqn:H3; [|discriminate].
    cbn [mbind option_bind] in H.
    destruct (directive_Y r4) as [[y' r5]|] eqn:HY; [|discriminate].
    cbn [mbind option_bind] in H. injection H as -> -> -> ->.
    apply literal_Some in H1, H3. subst r1 r3.
    apply directive_d_inv in Hd as (D & -> & HD).
    apply directive_m_inv in Hm as (M & -> & HM).
    apply directive_Y_spec in HY as (Y & -> & HY).
    by exists D, M, Y.
  - intros (D & M & Y & -> & HD & HM & HY). cbn [app].
    destruct (directive_d_read D d (M ++ cp "/" :: Y ++ rest) HD)
      as [others ->].
    cbn [first_match]. rewrite literal_cons. cbn [mbind option_bind].
    destruct (directive_m_read M m (Y ++ rest) HM) as [others' ->].
    cbn [first_match]. rewrite literal_cons. cbn [mbind option_bind].
    rewrite (proj2 (directive_Y_spec (Y ++ rest) y rest)) by eauto.
    reflexivity.
Qed.

(** What [strptime] reads: the texts [D/M/Y] that write a date of the
    calendar. *)
Lemma strptime_dmY_writes (s : string) (d : date) :
  strptime_dmY s = Some d <-> gregorian d /\ writes s d.
Proof.
  rewrite <- valid_gregorian. unfold strptime_dmY, writes. split.
  - destruct (regex_match (decode s)) as [[[[dd m] y] rest]|] eqn:Hr;
      [|discriminate].
    cbn [mbind option_bind]. destruct rest; [|discriminate].
    destruct (Calendar.valid _) eqn:Hv; [|discriminate]. intros [= <-].
    split; [exact Hv|].
    apply regex_match_spec in Hr as (D & M & Y & Hs & HD & HM & HY).
    exists D, M, Y. rewrite app_nil_r in Hs. by cbn [year month day].
  - intros (Hv & D & M & Y & Hs & HD & HM & HY).
    rewrite (proj2 (regex_match_spec (decode s) (day d) (month d) (year d) [])).
    + cbn [mbind option_bind]. destruct d as [y m dd].
      cbn [year month day] in *. by rewrite Hv.
    + exists D, M, Y. by rewrite app_nil_r.
Qed.

Lemma leb_refl d : Calendar.leb d d = true.
Proof.
  unfold Calendar.leb. rewrite !Z.eqb_refl, Z.leb_refl.
  cbn. by rewrite !orb_true_r.
Qed.

(** A digit character made from a number: an ASCII digit that writes
    the last decimal digit of the number. *)
Lemma digit_char_reads n :
  Unicode.is_ascii (Calendar.digit_char n) = true /\
  any_digit (byte (Calendar.digit_char n)) = Some (n mod 10).
Proof.
  unfold Calendar.digit_char.
  assert (H : 0 <= n mod 10 < 10) by (apply Z.mod_pos_bound; lia).
  destruct (n mod 10) as [|p|p]; try lia.
  - split; reflexivity.
  - repeat (destruct p as [p|p|]; try lia); split; reflexivity.
Qed.

Lemma day_text_two_digits d :
  1 <= d <= 31 ->
  day_text [byte (Calendar.digit_char (d / 10)); byte (Calendar.digit_char d)]
  = Some d.
Proof.
  intros Hd. destruct d as [|p|p]; try lia.
  repeat (destruct p as [p|p|]; try lia); vm_compute; reflexivity.
Qed.

Lemma month_text_two_digits m :
  1 <= m <= 12 ->
  month_text [byte (Calendar.digit_char (m / 10));
              byte (Calendar.digit_char m)]
  = Some m.
Proof.
  intros Hm. destruct m as [|p|p]; try lia.
  repeat (destruct p as [p|p|]; try lia); vm_compute; reflexivity.
Qed.

Lemma year_text_four_digits y :
  0 <= y <= 9999 ->
  year_text [byte (Calendar.digit_char (y / 1000));
             byte (Calendar.digit_char (y / 100));
             byte (Calendar.digit_char (y / 10));
             byte (Calendar.digit_char y)]
  = Some y.
Proof.
  intros Hy. cbn [year_text].
  rewrite (proj2 (digit_char_reads (y / 1000))).
  rewrite (proj2 (digit_char_reads (y / 100))).
  rewrite (proj2 (digit_char_reads (y / 10))).
  rewrite (proj2 (digit_char_reads y)).
  cbn [mbind option_bind]. f_equal.
  replace (y / 100) with (y / 10 / 10)
    by (rewrite Z.div_div by lia; reflexivity).
  replace (y / 1000) with (y / 10 / 10 / 10)
    by (rewrite !Z.div_div by lia; reflexivity).
  Z.div_mod_to_equations. lia.
Qed.

(** The text [DD/MM/YYYY] of a date of the calendar writes it. *)
Lemma format_dmY_writes d : gregorian d -> writes (Calendar.format_dmY d) d.
Proof.
  intros (Hy & Hm & Hd & _).
  exists [byte (Calendar.digit_char (day d / 10));
          byte (Calendar.digit_char (day d))],
         [byte (Calendar.digit_char (month d / 10));
          byte (Calendar.digit_char (month d))],
         [byte (Calendar.digit_char (year d / 1000));
          byte (Calendar.digit_char (year d / 100));
          byte (Calendar.digit_char (year d / 10));
          byte (Calendar.digit_char (year d))].
  split; [|split; [by apply day_text_two_digits|
           split; [by apply month_text_two_digits|
                   apply year_text_four_digits; lia]]].
  unfold Calendar.format_dmY, Calendar.two_digits, Calendar.four_digits.
  repeat (rewrite append_cons || rewrite append_empty_l).
  rewrite !decode_ascii by (reflexivity || apply digit_char_reads).
  reflexivity.
Qed.

Lemma is_valid_date_text today s :
  is_valid_date today (VStr s) = true <->
  exists d, writes s d /\ gregorian d /\ Calendar.leb d today = true.
Proof.
  cbn [is_valid_date]. split.
  - destruct (strptime_dmY s) as [d|] eqn:E; [|discriminate].
    intros Hle. apply strptime_dmY_writes in E as [Hv Hs]. by exists d.
  - intros (d & Hs & Hv & Hle).
    by rewrite (proj2 (strptime_dmY_writes s d) (conj Hv Hs)).
Qed.

End Dates.

(** C6, as amended.  With [today] the current date, a value passes the
    birth-date predicate iff it is a string of the form [D/M/Y] that
    writes a date of the calendar, or a [Timestamp], and the date is not
    later than [today].  [D] is a day on one digit, alone or after a
    space or a 0, or on two digits; [M] a month on one digit, alone or
    after a 0, or on two; [Y] a year on four digits; the digits after
    the first of a day from 10 to 29 and those of the year may be decimal
    digits of any script.  The date is one of the calendar when the year
    is from 1 to 9999 and the month has the day, February having 29 days
    in the years divisible by 4 and not by 100, or by 400.  The text
    [DD/MM/YYYY] of such a date writes it, and the text of [today]
    passes; a text that writes a later date and a later [Timestamp] fail;
    a text that writes no date of the calendar fails, as "2000-01-01"
    does; a value of any other type fails, a [datetime] and a [date]
    among them. *)
Theorem birth_date_predicate (today : date) :
  (forall v,
     is_valid_date today v = true <->
     (exists s d, v = VStr s /\ writes s d /\ gregorian d /\
                  Calendar.leb d today = true) \/
     (exists t, v = VTimestamp t /\ Calendar.leb (ts_date t) today = true)) /\
  (forall d1 d2,
     Calendar.leb d1 d2 = true <->
     (year d1 < year d2 \/
      (year d1 = year d2 /\
       (month d1 < month d2 \/
        (month d1 = month d2 /\ day d1 <= day d2))))%Z) /\
  (forall d, gregorian d -> writes (Calendar.format_dmY d) d) /\
  (gregorian today ->
     is_valid_date today (VStr (Calendar.format_dmY today)) = true) /\
  (forall s d, writes s d -> gregorian d -> Calendar.leb d today = false ->
     is_valid_date today (VStr s) = false) /\
  (forall t, Calendar.leb (ts_date t) today = false ->
     is_valid_date today (VTimestamp t) = false) /\
  (forall s, (forall d, writes s d -> ~ gregorian d) ->
     is_valid_date today (VStr s) = false) /\
  (forall v, match v with VStr _ | VTimestamp _ => False | _ => True end ->
     is_valid_date today v = false) /\
  (forall t d, is_valid_date today (VDatetime t) = false /\
               is_valid_date today (VDate d) = false) /\
  (Calendar.leb (mkDate 2000 1 1) today = true ->
     is_valid_date today (VStr "01/01/2000") = true /\
     is_valid_date today (VStr "1/1/2000") = true /\
     is_valid_date today (VStr " 1/1/2000") = true /\
     is_valid_date today (VStr "01/1/2000") = true) /\
  (Calendar.leb (mkDate 2000 1 15) today = true ->
     is_valid_date today (VStr "15/01/2000") = true /\
     is_valid_date today (VStr "1٥/01/٢٠٠٠") = true) /\
  (Calendar.leb (mkDate 2000 2 29) today = true ->
     is_valid_date today (VStr "29/02/2000") = true) /\
  is_valid_date today (VStr "2000-01-01") = false /\
  is_valid_date today (VStr "01-01-2000") = false /\
  is_valid_date today (VStr "29/02/1900") = false /\
  is_valid_date today (VStr "29/02/2001") = false /\
  is_valid_date today (VStr "31/04/2000") = false /\
  is_valid_date today (VStr "00/01/2000") = false /\
  is_valid_date today (VStr "01/13/2000") = false /\
  is_valid_date today (VStr "01/01/0000") = false /\
  is_valid_date today (VStr "01/01/00") = false /\
  is_valid_date today (VStr "01/01/2000 ") = false /\
  is_valid_date today (VStr "01/ 1/2000") = false /\
  is_valid_date today (VStr "01/01/2000 00:00:00") = false /\
  is_valid_date today (VStr "") = false.
Proof.
  split.
  { intros v. split.
    - destruct v as [s|t| | | | | | ]; cbn [is_valid_date]; try discriminate.
      + intros H. left.
        apply (is_valid_date_text today s) in H as (d & Hs & Hv & Hle).
        by exists s, d.
      + intros H. right. by exists t.
    - intros [(s & d & -> & Hs & Hv & Hle) | (t & -> & Hle)].
      + apply is_valid_date_text. by exists d.
      + done. }
  split; [apply leb_spec|].
  split; [apply format_dmY_writes|].
  split.
  { intros Hv. apply is_valid_date_text. exists today.
    split; [by apply format_dmY_writes|]. split; [done | apply leb_refl]. }
  split.
  { intros s d Hs Hv Hlt. cbn [is_valid_date].
    by rewrite (proj2 (strptime_dmY_writes s d) (conj Hv Hs)). }
  split; [done|].
  split.
  { intros s Hno. destruct (is_valid_date today (VStr s)) eqn:E; [|done].
    apply is_valid_date_text in E as (d & Hs & Hv & _). by destruct (Hno d). }
  split; [by intros []|].
  split; [done|].
  split.
  { intros H. cbn [is_valid_date].
    assert (Strptime.strptime_dmY "01/01/2000" = Some (mkDate 2000 1 1)) as ->
      by (vm_compute; reflexivity).
    assert (Strptime.strptime_dmY "1/1/2000" = Some (mkDate 2000 1 1)) as ->
      by (vm_compute; reflexivity).
    assert (Strptime.strptime_dmY " 1/1/2000" = Some (mkDate 2000 1 1)) as ->
      by (vm_compute; reflexivity).
    assert (Strptime.strptime_dmY "01/1/2000" = Some (mkDate 2000 1 1)) as ->
      by (vm_compute; reflexivity).
    done. }
  split.
  { intros H. cbn [is_valid_date].
    assert (Strptime.strptime_dmY "15/01/2000" = Some (mkDate 2000 1 15)) as ->
      by (vm_compute; reflexivity).
    assert (Strptime.strptime_dmY "1٥/01/٢٠٠٠" = Some (mkDate 2000 1 15)) as ->
      by (vm_compute; reflexivity).
    done. }
  split.
  { intros H. cbn [is_valid_date].
    assert (Strptime.strptime_dmY "29/02/2000" = Some (mkDate 2000 2 29)) as ->
      by (vm_compute; reflexivity).
    done. }
  repeat split; vm_compute; reflexivity.
Qed.

(** C6, as stated, fails: a text with a day and a month on one digit,
    which is not [DD/MM/YYYY], passes, and a [date] or a [datetime] that
    is not a [Timestamp] fails although it is earlier than today. *)
Lemma birth_date_other_forms :
  is_valid_date Sample.today (VStr "1/1/2000") = true /\
  is_valid_date Sample.today (VStr " 1/1/2000") = true /\
  is_valid_date Sample.today (VDate (mkDate 2000 1 1)) = false /\
  is_valid_date Sample.today
    (VDatetime (mkTimestamp (mkDate 2000 1 1) 0 0 0)) = false.
Proof. repeat split; vm_compute; reflexivity. Qed.

(** ** The city reference list *)


Lemma list_find_no_city_desc (city_df : list (string * list string)) :
  Forall (fun col => fst col <> "CITY_DESC") city_df ->
  list_find (fun col => fst col = "CITY_DESC") city_df = None.
Proof. intros H. by apply list_find_None. Qed.








(** * Further properties *)

(** ** Columns, reruns and batches *)

Lemma getitem_cases df c :
  (c ∈ columns df /\ exists col, Frame.getitem df c = Ok col) \/
  ((c ∉ columns df) /\ Frame.getitem df c = Raise KeyError).
Proof.
  unfold Frame.getitem. case_bool_decide; [left | right]; eauto.
Qed.

Lemma elem_of_columns_after df c :
  c <> "Check_Desc" -> (c ∈ columns_after df <-> c ∈ columns df).
Proof.
  intros Hc. unfold columns_after, Frame.setitem. cbn [columns].
  case_bool_decide; [done|].
  rewrite elem_of_app, list_elem_of_singleton. tauto.
Qed.

(** X1. On a table with at least one row, [clean_data] raises
    [KeyError] exactly when one of the six columns is absent: the reads of
    lines 66-71 are the only source of that exception. *)
Theorem clean_data_missing_column (kota : list string) (today : date)
    (df : DataFrame) :
  rows df <> [] ->
  (clean_data kota today df = Raise KeyError <->
   exists c, c ∈ required_columns /\ c ∉ columns df).
Proof.
  intros _. split.
  - intros Hraise.
    destruct (decide (required_columns ⊆ columns df)) as [Hreq | Hreq].
    + rewrite (clean_data_rowwise kota today df Hreq) in Hraise.
      by destruct (forallb ids_are_str (rows df)).
    + unfold required_columns in Hreq.
      repeat match type of Hreq with
      | ¬ ((?c :: ?l) ⊆ _) =>
          let Hc := fresh "Hc" in
          let Hl := fresh "Hl" in
          destruct (decide (c ∈ columns df)) as [Hc | Hc];
          [ assert (¬ (l ⊆ columns df)) as Hl by
              (intros Hl; apply Hreq; intros x Hx;
               apply elem_of_cons in Hx as [-> | Hx]; [exact Hc | by apply Hl]);
            clear Hreq; rename Hl into Hreq
          | exists c; split; [apply list_elem_of_In; cbn; tauto | exact Hc] ]
      end.
      exfalso. apply Hreq. intros x Hx. by apply elem_of_nil in Hx.
  - intros (c & Hc & Habs). unfold clean_data.
    set (raw := Frame.setitem df "Check_Desc" (VStr "")).
    repeat match goal with
    | |- context [Frame.getitem raw ?l] =>
        let Hin := fresh "Hin" in
        let col := fresh "col" in
        destruct (getitem_cases raw l) as [[Hin [col ->]] | [_ ->]];
        [ cbn [mbind result_bind];
          apply (elem_of_columns_after df) in Hin; [|done]
        | reflexivity ]
    end.
    exfalso. unfold required_columns in Hc.
    repeat (apply elem_of_cons in Hc as [-> | Hc]; [done|]).
    by apply elem_of_nil in Hc.
Qed.

Section Rerun.

Variable kota : list string.
Variable today : date.

Lemma piece_annotate f r :
  piece kota today f (annotate kota today r) = piece kota today f r.
Proof.
  unfold piece. by rewrite passes_annotate, cell_annotate.
Qed.

Lemma all_pass_annotate r :
  all_pass kota today (annotate kota today r) = all_pass kota today r.
Proof. unfold all_pass. by rewrite !passes_annotate. Qed.

Lemma check_desc_annotate r :
  check_desc kota today (annotate kota today r) = check_desc kota today r.
Proof. unfold check_desc. cbn [foldl fields]. by rewrite !piece_annotate. Qed.

Lemma annotate_annotate r :
  annotate kota today (annotate kota today r) = annotate kota today r.
Proof.
  unfold annotate at 1. rewrite check_desc_annotate.
  unfold annotate. apply insert_insert_eq.
Qed.

Lemma ids_are_str_annotate r :
  ids_are_str (annotate kota today r) = ids_are_str r.
Proof.
  unfold ids_are_str.
  by rewrite (cell_annotate kota today KK_NO), (cell_annotate kota today NIK).
Qed.

Lemma columns_after_idem df :
  columns_after (mkFrame (columns_after df) (annotate kota today <$> rows df))
  = columns_after df.
Proof.
  unfold columns_after at 1, Frame.setitem. cbn [columns].
  rewrite bool_decide_eq_true_2; [done|]. apply check_desc_in_columns_after.
Qed.

(** X2. Running [clean_data] again on the table it has annotated gives
    the same three tables: line 63 resets [Check_Desc], so the text of an
    earlier run is not appended twice. *)
Theorem clean_data_rerun (df raw_df messy_df clean_df : DataFrame) :
  clean_data kota today df = Ok (raw_df, messy_df, clean_df) ->
  clean_data kota today raw_df = Ok (raw_df, messy_df, clean_df).
Proof.
  intros Hok.
  pose proof (clean_data_Ok_columns _ _ _ _ Hok) as Hreq.
  pose proof (clean_data_Ok_ids _ _ _ _ Hok) as Hids.
  apply clean_data_Ok_inv in Hok as (-> & -> & ->).
  rewrite clean_data_rowwise_ok.
  - cbn [rows]. rewrite columns_after_idem.
    rewrite !filter_fmap, <- !list_fmap_compose.
    f_equal. f_equal; [f_equal|]; f_equal.
    + apply list_fmap_ext. intros i r _. apply annotate_annotate.
    + erewrite List.filter_ext; [apply list_fmap_ext; intros i r _; apply annotate_annotate|].
      intros r. by rewrite all_pass_annotate.
    + erewrite List.filter_ext; [apply list_fmap_ext; intros i r _|].
      * cbn. unfold annotate. apply delete_insert_eq.
      * intros r. by rewrite all_pass_annotate.
  - cbn [columns]. intros c Hc.
    apply (elem_of_columns_after df); [|by apply Hreq].
    unfold required_columns in Hc.
    repeat (apply elem_of_cons in Hc as [-> | Hc]; [done|]).
    by apply elem_of_nil in Hc.
  - cbn [rows]. rewrite forallb_forall in Hids |- *.
    intros r Hr. apply list_elem_of_In, list_elem_of_fmap in Hr as [r0 [-> Hr0]].
    rewrite ids_are_str_annotate. by apply Hids, list_elem_of_In.
Qed.

End Rerun.

(** X3. Rows are judged one by one: when [clean_data] returns on a
    table made of two batches of rows, it returns on each batch, and the
    rows of each of its three tables are those of the first batch followed
    by those of the second. *)
Theorem clean_data_app (kota : list string) (today : date)
    (cols : list string) (R1 R2 : list (gmap string value))
    (raw_df messy_df clean_df : DataFrame) :
  R1 <> [] -> R2 <> [] ->
  clean_data kota today (mkFrame cols (R1 ++ R2))
  = Ok (raw_df, messy_df, clean_df) ->
  exists raw1 messy1 clean1 raw2 messy2 clean2,
    clean_data kota today (mkFrame cols R1) = Ok (raw1, messy1, clean1) /\
    clean_data kota today (mkFrame cols R2) = Ok (raw2, messy2, clean2) /\
    rows raw_df = rows raw1 ++ rows raw2 /\
    rows messy_df = rows messy1 ++ rows messy2 /\
    rows clean_df = rows clean1 ++ rows clean2.
Proof.
  intros _ _ Hok.
  pose proof (clean_data_Ok_columns _ _ _ _ Hok) as Hreq.
  pose proof (clean_data_Ok_ids _ _ _ _ Hok) as Hids.
  apply clean_data_Ok_inv in Hok as (-> & -> & ->).
  cbn [columns rows] in Hreq, Hids.
  rewrite forallb_app in Hids. apply andb_true_iff in Hids as [Hids1 Hids2].
  eexists _, _, _, _, _, _.
  split; [by apply clean_data_rowwise_ok|].
  split; [by apply clean_data_rowwise_ok|].
  cbn [rows]. by rewrite !List.filter_app, !fmap_app.
Qed.

Lemma leb_trans d1 d2 d3 :
  Calendar.leb d1 d2 = true -> Calendar.leb d2 d3 = true ->
  Calendar.leb d1 d3 = true.
Proof.
  unfold Calendar.leb.
  rewrite !orb_true_iff, !andb_true_iff, !orb_true_iff, !andb_true_iff.
  rewrite !Z.ltb_lt, !Z.eqb_eq, !Z.leb_le. lia.
Qed.

Section Monotone.

Variable kota kota' : list string.
Variable today today' : date.
Hypothesis Hkota : kota ⊆ kota'.
Hypothesis Htoday : Calendar.leb today today' = true.

Lemma predicate_mono f x :
  predicate kota today f x = true -> predicate kota' today' f x = true.
Proof.
  destruct f; cbn [predicate]; try done.
  - destruct x; cbn [is_valid_tempat_lahir]; try done.
    rewrite !bool_decide_eq_true. apply Hkota.
  - destruct x as [s|t| | | | | | ]; cbn [is_valid_date]; try done.
    + destruct (Strptime.strptime_dmY s); [|done].
      intros H. by eapply leb_trans.
    + intros H. by eapply leb_trans.
Qed.

Lemma all_pass_mono r :
  all_pass kota today r = true -> all_pass kota' today' r = true.
Proof.
  unfold all_pass, passes. rewrite !andb_true_iff.
  intros (((((H1 & H2) & H3) & H4) & H5) & H6).
  repeat split; by apply predicate_mono.
Qed.

End Monotone.

(** X4. A longer city list and a later current date can only make
    rows clean: the clean rows of the first run are clean rows of the
    second, which has at least as many clean and at most as many messy
    rows. *)
Theorem clean_data_monotone (kota kota' : list string) (today today' : date)
    (df raw_df messy_df clean_df raw_df' messy_df' clean_df' : DataFrame) :
  kota ⊆ kota' -> Calendar.leb today today' = true ->
  clean_data kota today df = Ok (raw_df, messy_df, clean_df) ->
  clean_data kota' today' df = Ok (raw_df', messy_df', clean_df') ->
  rows clean_df ⊆ rows clean_df' /\
  (Frame.len clean_df <= Frame.len clean_df')%Z /\
  (Frame.len messy_df' <= Frame.len messy_df)%Z.
Proof.
  intros Hk Ht Hok Hok'.
  apply clean_data_Ok_inv in Hok as (-> & -> & ->).
  apply clean_data_Ok_inv in Hok' as (-> & -> & ->).
  cbn [rows]. unfold Frame.len. cbn [rows]. rewrite !length_fmap.
  assert (Hmono : forall r, all_pass kota today r = true ->
                            all_pass kota' today' r = true)
    by (intros r; by apply all_pass_mono).
  split; [|split].
  - intros r Hr. apply list_elem_of_fmap in Hr as (r0 & -> & Hr0).
    apply list_elem_of_fmap. exists r0. split; [done|].
    apply list_elem_of_In, filter_In in Hr0 as [Hin Hp].
    apply list_elem_of_In, filter_In. split; [done | by apply Hmono].
  - apply inj_le, filter_length_le. intros r _. apply Hmono.
  - apply inj_le, filter_length_le. intros r _.
    rewrite !negb_true_iff. intros Hf.
    destruct (all_pass kota today r) eqn:E; [|done].
    apply Hmono in E. congruence.
Qed.

(** ** Bounds on the summary *)

Lemma filter_length_bound {A : Type} (p : A -> bool) (l : list A) :
  (List.length (List.filter p l) <= List.length l)%nat.
Proof.
  induction l as [|x l IH]; [done|]. cbn [List.filter].
  destruct (p x); cbn [List.length]; lia.
Qed.

Lemma filter_length_cover {A : Type} (p1 p2 p3 p4 p5 p6 : A -> bool)
    (l : list A) :
  (forall x, x ∈ l ->
     p1 x || p2 x || p3 x || p4 x || p5 x || p6 x = true) ->
  (List.length l <=
   List.length (List.filter p1 l) + List.length (List.filter p2 l) +
   List.length (List.filter p3 l) + List.length (List.filter p4 l) +
   List.length (List.filter p5 l) + List.length (List.filter p6 l))%nat.
Proof.
  induction l as [|x l IH]; intros H; [done|].
  assert (Hx := H x (list_elem_of_here x l)).
  assert (IH' := IH (fun y Hy => H y (list_elem_of_further y x l Hy))).
  cbn [List.filter].
  destruct (p1 x), (p2 x), (p3 x), (p4 x), (p5 x), (p6 x);
    try discriminate Hx; cbn [List.length]; lia.
Qed.

Lemma required_columns_length (cols : list string) :
  required_columns ⊆ cols -> (6 <= List.length cols)%nat.
Proof.
  intros Hreq.
  change 6%nat with (List.length required_columns).
  apply submseteq_length, NoDup_submseteq; [|exact Hreq].
  apply (bool_decide_unpack _). vm_compute. exact I.
Qed.

Lemma columns_after_length df :
  required_columns ⊆ columns df -> (7 <= List.length (columns_after df))%nat.
Proof.
  intros Hreq. unfold columns_after, Frame.setitem. cbn [columns].
  case_bool_decide as Hcd.
  - change 7%nat with (List.length ("Check_Desc" :: required_columns)).
    apply submseteq_length, NoDup_submseteq.
    + apply (bool_decide_unpack _). vm_compute. exact I.
    + intros c Hc. apply elem_of_cons in Hc as [-> | Hc]; [done | by apply Hreq].
  - rewrite length_app. cbn [List.length].
    apply required_columns_length in Hreq. lia.
Qed.

Section Bounds.

Variable kota : list string.
Variable today : date.

Lemma all_pass_false r :
  all_pass kota today r = false ->
  negb (passes kota today KK_NO r) || negb (passes kota today NIK r) ||
  negb (passes kota today CUSTNAME r) ||
  negb (passes kota today JENIS_KELAMIN r) ||
  negb (passes kota today TEMPAT_LAHIR r) ||
  negb (passes kota today TANGGAL_LAHIR r) = true.
Proof.
  unfold all_pass.
  destruct (passes kota today KK_NO r), (passes kota today NIK r),
    (passes kota today CUSTNAME r), (passes kota today JENIS_KELAMIN r),
    (passes kota today TEMPAT_LAHIR r), (passes kota today TANGGAL_LAHIR r);
    done.
Qed.

(** X5. For a table with exactly the six columns, the figures of
    lines 108-123 on the output of [clean_data] satisfy: messy and clean
    rows add up to the rows of the table; each of the six counts lies
    between 0 and the number of messy rows; [messy_invalid] lies between
    the number of messy rows and six times that number; and
    [clean_invalid] between 0 and five times that number. *)
Theorem summary_bounds (df raw_df messy_df clean_df : DataFrame) :
  columns df = required_columns ->
  clean_data kota today df = Ok (raw_df, messy_df, clean_df) ->
  exists st,
    summary_statistics messy_df clean_df = Ok st /\
    (messy_data st + clean_data_len st = Frame.len df)%Z /\
    (forall f, 0 <= counted f st <= messy_data st)%Z /\
    (messy_data st <= messy_invalid st <= 6 * messy_data st)%Z /\
    (0 <= clean_invalid st <= 5 * messy_data st)%Z.
Proof.
  intros Hcols Hok.
  pose proof (clean_data_Ok_ids _ _ _ _ Hok) as Hids.
  apply clean_data_Ok_inv in Hok as (-> & -> & ->).
  set (L := List.filter (fun r => negb (all_pass kota today r)) (rows df)).
  assert (HL : forall r, r ∈ L ->
            ids_are_str r = true /\ all_pass kota today r = false).
  { intros r Hr. apply list_elem_of_In, filter_In in Hr as [Hr Hp].
    rewrite forallb_forall in Hids. split; [by apply Hids|].
    by apply negb_true_iff. }
  destruct (summary_statistics_annotated kota today (columns_after df) L
    (mkFrame (filter (fun x => x <> "Check_Desc") (columns_after df))
       ((fun r => delete "Check_Desc" r) <$>
          List.filter (all_pass kota today) (rows df)))
    (check_desc_in_columns_after df))
    as (st & Hst & Hm & Hc & Hlen & Hcnt & Htot & Hmi & Hci).
  exists st. split; [exact Hst|].
  assert (Hsix : len_param st = 6%Z).
  { rewrite Hlen. unfold columns_after, Frame.setitem. cbn [columns].
    rewrite Hcols. reflexivity. }
  assert (Hle : forall f, (0 <= counted f st <= messy_data st)%Z).
  { intros f. rewrite Hcnt, Hm. unfold flagged.
    pose proof (filter_length_bound
      (fun r => PyStr.contains (marker f) (check_desc kota today r)) L). lia. }
  assert (Hcover : (messy_data st <= messy_invalid st)%Z).
  { rewrite Hmi, Hm.
    change (invalid_kk st) with (counted KK_NO st).
    change (invalid_nik st) with (counted NIK st).
    change (invalid_name st) with (counted CUSTNAME st).
    change (invalid_gender st) with (counted JENIS_KELAMIN st).
    change (invalid_places st) with (counted TEMPAT_LAHIR st).
    change (invalid_date st) with (counted TANGGAL_LAHIR st).
    rewrite !Hcnt. unfold flagged.
    pose proof (filter_length_cover
      (fun r => PyStr.contains (marker KK_NO) (check_desc kota today r))
      (fun r => PyStr.contains (marker NIK) (check_desc kota today r))
      (fun r => PyStr.contains (marker CUSTNAME) (check_desc kota today r))
      (fun r => PyStr.contains (marker JENIS_KELAMIN) (check_desc kota today r))
      (fun r => PyStr.contains (marker TEMPAT_LAHIR) (check_desc kota today r))
      (fun r => PyStr.contains (marker TANGGAL_LAHIR) (check_desc kota today r))
      L) as Hcov.
    cbv beta in Hcov. 
    enough (forall x, x ∈ L ->
      PyStr.contains (marker KK_NO) (check_desc kota today x) ||
      PyStr.contains (marker NIK) (check_desc kota today x) ||
      PyStr.contains (marker CUSTNAME) (check_desc kota today x) ||
      PyStr.contains (marker JENIS_KELAMIN) (check_desc kota today x) ||
      PyStr.contains (marker TEMPAT_LAHIR) (check_desc kota today x) ||
      PyStr.contains (marker TANGGAL_LAHIR) (check_desc kota today x) = true)
      as Hall by (specialize (Hcov Hall); lia).
    intros r Hr. destruct (HL r Hr) as [Hstr Hfail].
    apply all_pass_false in Hfail.
    repeat (apply orb_true_iff in Hfail as [Hfail | Hfail]);
      apply negb_true_iff in Hfail;
      apply (check_desc_flags_failure kota today _ r Hstr) in Hfail;
      rewrite Hfail, ?orb_true_r; reflexivity. }
  pose proof (Hle KK_NO) as H1. pose proof (Hle NIK) as H2.
  pose proof (Hle CUSTNAME) as H3. pose proof (Hle JENIS_KELAMIN) as H4.
  pose proof (Hle TEMPAT_LAHIR) as H5. pose proof (Hle TANGGAL_LAHIR) as H6.
  cbn [counted] in H1, H2, H3, H4, H5, H6.
  repeat split; try apply Hle; try lia.
  rewrite Hm, Hc. unfold Frame.len. cbn [rows]. rewrite length_fmap.
  pose proof (filter_length_split (all_pass kota today) (rows df)).
  fold L in H. lia.
Qed.

(** X6. On the output of [clean_data] with at least one messy row, and
    a total that is not 0, [generate_summary_excel] computes its summary
    without raising: no division of line 128 fails, [total_invalid] is
    positive and the row of percentages has its twelve figures.  The
    workbook is then written from that summary and the two tables: the
    function returns what the writer returns. *)
Theorem generate_summary_excel_returns
    (to_excel : Stats * list Q -> DataFrame -> DataFrame -> result bytes)
    (df raw_df messy_df clean_df : DataFrame) (total_data : Z) :
  clean_data kota today df = Ok (raw_df, messy_df, clean_df) ->
  rows messy_df <> [] -> total_data <> 0%Z ->
  exists st percentages,
    generate_summary_excel to_excel messy_df clean_df total_data
    = to_excel (st, percentages) messy_df clean_df /\
    summary_statistics messy_df clean_df = Ok st /\
    summary_percentages total_data st = Ok percentages /\
    List.length percentages = 12%nat /\
    (0 < total_invalid st)%Z.
Proof.
  intros Hok Hrows Htotal.
  pose proof (clean_data_Ok_columns _ _ _ _ Hok) as Hreq.
  apply clean_data_Ok_inv in Hok as (-> & -> & ->).
  set (L := List.filter (fun r => negb (all_pass kota today r)) (rows df)) in *.
  destruct (summary_statistics_annotated kota today (columns_after df) L
    (mkFrame (filter (fun x => x <> "Check_Desc") (columns_after df))
       ((fun r => delete "Check_Desc" r) <$>
          List.filter (all_pass kota today) (rows df)))
    (check_desc_in_columns_after df))
    as (st & Hst & Hm & Hc & Hlen & Hcnt & Htot & Hmi & Hci).
  assert (Hpos : (0 < total_invalid st)%Z).
  { rewrite Htot, Hlen. apply columns_after_length in Hreq.
    cbn [rows] in Hrows. destruct L; [done|]. cbn [List.length]. nia. }
  assert (Hpc : exists pc, summary_percentages total_data st = Ok pc /\
                           List.length pc = 12%nat).
  { unfold summary_percentages.
    rewrite !(percent_nonzero _ total_data) by done.
    rewrite !(percent_nonzero _ (total_invalid st)) by lia.
    cbn [mbind result_bind]. eexists. split; reflexivity. }
  destruct Hpc as (pc & Hpc & Hlen12).
  unfold generate_summary_excel. rewrite Hst. cbn [mbind result_bind].
  rewrite Hpc. cbn [mbind result_bind]. by exists st, pc.
Qed.

End Bounds.

(** ** The dashboard *)

Lemma percent_cases (a b : Z) :
  (b = 0%Z /\ percent a b = Raise ZeroDivisionError) \/
  (b <> 0%Z /\ exists q, percent a b = Ok q).
Proof.
  unfold percent. destruct (Z.eqb_spec b 0); [left | right]; eauto.
Qed.

Lemma iloc_cases {A : Type} (l : list A) (i : nat) :
  (exists x, iloc l i = Ok x /\ l !! i = Some x) \/ iloc l i = Raise IndexError.
Proof. unfold iloc. destruct (l !! i); eauto. Qed.

Global Instance by_count_desc_trans : Transitive by_count_desc.
Proof. unfold by_count_desc. intros a b c. lia. Qed.

Global Instance by_count_desc_total : Total by_count_desc.
Proof. unfold by_count_desc. intros a b. lia. Qed.

Section DashboardFacts.

Variable sort_values : list Breakdown -> list Breakdown.

Lemma create_executive_dashboard_raises
    (total_data clean_data messy_data invalid_kk invalid_nik invalid_name
     invalid_gender invalid_places invalid_date total_invalid : Z) :
  total_data = 0%Z \/ total_invalid = 0%Z ->
  create_executive_dashboard sort_values total_data clean_data messy_data
    invalid_kk invalid_nik invalid_name invalid_gender invalid_places
    invalid_date total_invalid = Raise ZeroDivisionError.
Proof.
  unfold create_executive_dashboard.
  intros [-> | ->]; [reflexivity|].
  destruct (percent_cases clean_data total_data) as [[_ ->] | [_ [q ->]]];
    [reflexivity|].
  destruct (percent_cases messy_data total_data) as [[_ ->] | [_ [q' ->]]];
    reflexivity.
Qed.

(** X7. [create_executive_dashboard] raises [ZeroDivisionError] exactly
    when [total_data] or [total_invalid] is 0, whatever the sort does:
    lines 151-154 divide by the first and lines 192-197 by the second. *)
Theorem create_executive_dashboard_zero_division
    (total_data clean_data messy_data invalid_kk invalid_nik invalid_name
     invalid_gender invalid_places invalid_date total_invalid : Z) :
  create_executive_dashboard sort_values total_data clean_data messy_data
    invalid_kk invalid_nik invalid_name invalid_gender invalid_places
    invalid_date total_invalid = Raise ZeroDivisionError
  <-> total_data = 0%Z \/ total_invalid = 0%Z.
Proof.
  split.
  - unfold create_executive_dashboard. intros Hraise.
    destruct (Z.eq_dec total_data 0) as [|Hd]; [by left|].
    destruct (Z.eq_dec total_invalid 0) as [|Hi]; [by right|].
    exfalso. revert Hraise.
    rewrite !(percent_nonzero _ total_data) by done.
    rewrite !(percent_nonzero _ total_invalid) by done.
    cbn [mbind result_bind].
    match goal with |- context [iloc ?l 0] =>
      destruct (iloc_cases l 0) as [(top & -> & _) | ->] end;
      cbn [mbind result_bind]; discriminate.
  - apply create_executive_dashboard_raises.
Qed.

Lemma create_executive_dashboard_Ok
    (total_data clean_data messy_data invalid_kk invalid_nik invalid_name
     invalid_gender invalid_places invalid_date total_invalid : Z) :
  (forall l, sort_values l ≡ₚ l) ->
  total_data <> 0%Z -> total_invalid <> 0%Z ->
  exists d top,
    create_executive_dashboard sort_values total_data clean_data messy_data
      invalid_kk invalid_nik invalid_name invalid_gender invalid_places
      invalid_date total_invalid = Ok d /\
    invalid_data d !! 0 = Some top /\
    most_problematic d = Category top /\
    most_problematic_count d = Count top /\
    invalid_data d ≡ₚ
      [mkBreakdown "KK Number" invalid_kk
         (inject_Z invalid_kk / inject_Z total_invalid * inject_Z 100)%Q;
       mkBreakdown "NIK" invalid_nik
         (inject_Z invalid_nik / inject_Z total_invalid * inject_Z 100)%Q;
       mkBreakdown "Name" invalid_name
         (inject_Z invalid_name / inject_Z total_invalid * inject_Z 100)%Q;
       mkBreakdown "Gender" invalid_gender
         (inject_Z invalid_gender / inject_Z total_invalid * inject_Z 100)%Q;
       mkBreakdown "Birth Place" invalid_places
         (inject_Z invalid_places / inject_Z total_invalid * inject_Z 100)%Q;
       mkBreakdown "Birth Date" invalid_date
         (inject_Z invalid_date / inject_Z total_invalid * inject_Z 100)%Q].
Proof.
  intros Hperm Hd Hi. unfold create_executive_dashboard.
  rewrite !(percent_nonzero _ total_data) by done.
  rewrite !(percent_nonzero _ total_invalid) by done.
  cbn [mbind result_bind].
  match goal with |- context [iloc (sort_values ?l) 0] =>
    pose proof (Hperm l) as Hl;
    destruct (sort_values l) as [|top rest] eqn:Hs end.
  { apply Permutation_length in Hl. discriminate Hl. }
  cbn [iloc lookup list_lookup mbind result_bind].
  eexists _, top. split; [reflexivity|]. cbn. repeat split. exact Hl.
Qed.

(** X8. When the sort of line 202 returns its rows reordered by
    decreasing count, the field shown as the most common issue is one of
    the six, shown with its own count, and no field has a larger
    count. *)
Theorem most_problematic_is_maximal
    (total_data clean_data messy_data invalid_kk invalid_nik invalid_name
     invalid_gender invalid_places invalid_date total_invalid : Z)
    (d : Dashboard) :
  (forall l, sort_values l ≡ₚ l) ->
  (forall l, Sorted by_count_desc (sort_values l)) ->
  create_executive_dashboard sort_values total_data clean_data messy_data
    invalid_kk invalid_nik invalid_name invalid_gender invalid_places
    invalid_date total_invalid = Ok d ->
  (most_problematic d, most_problematic_count d) ∈
    [("KK Number", invalid_kk); ("NIK", invalid_nik); ("Name", invalid_name);
     ("Gender", invalid_gender); ("Birth Place", invalid_places);
     ("Birth Date", invalid_date)] /\
  (invalid_kk <= most_problematic_count d)%Z /\
  (invalid_nik <= most_problematic_count d)%Z /\
  (invalid_name <= most_problematic_count d)%Z /\
  (invalid_gender <= most_problematic_count d)%Z /\
  (invalid_places <= most_problematic_count d)%Z /\
  (invalid_date <= most_problematic_count d)%Z.
Proof.
  intros Hperm Hsorted Hok.
  assert (Hne : total_data <> 0%Z /\ total_invalid <> 0%Z).
  { split; intros ->.
    - discriminate Hok.
    - assert (create_executive_dashboard sort_values total_data clean_data
        messy_data invalid_kk invalid_nik invalid_name invalid_gender
        invalid_places invalid_date 0 = Raise ZeroDivisionError) as Hz
        by (apply create_executive_dashboard_raises; by right).
      rewrite Hz in Hok. discriminate Hok. }
  destruct Hne as [Hd Hi].
  destruct (create_executive_dashboard_Ok total_data clean_data messy_data
    invalid_kk invalid_nik invalid_name invalid_gender invalid_places
    invalid_date total_invalid Hperm Hd Hi)
    as (d' & top & Hok' & Htop & Hcat & Hcnt & Hrows).
  rewrite Hok in Hok'. injection Hok' as <-.
  assert (Hsd : Sorted by_count_desc (invalid_data d)).
  { revert Hok. unfold create_executive_dashboard.
    rewrite !(percent_nonzero _ total_data) by done.
    rewrite !(percent_nonzero _ total_invalid) by done.
    cbn [mbind result_bind].
    match goal with |- context [iloc (sort_values ?l) 0] =>
      pose proof (Hsorted l) as Hs;
      destruct (iloc_cases (sort_values l) 0) as [(t & -> & _) | ->] end;
      cbn [mbind result_bind]; [|discriminate].
    by intros [= <-]. }
  apply Sorted_StronglySorted in Hsd; [|apply _].
  assert (Hmax : forall b, b ∈ invalid_data d ->
            (Count b <= most_problematic_count d)%Z).
  { intros b Hb. rewrite Hcnt.
    destruct (invalid_data d) as [|t rest]; [done|].
    injection Htop as ->.
    apply elem_of_cons in Hb as [-> | Hb]; [lia|].
    apply StronglySorted_inv in Hsd as [_ Hall].
    rewrite Forall_forall in Hall. by apply Hall. }
  assert (Hin : top ∈ invalid_data d) by (by eapply list_elem_of_lookup_2).
  split.
  - rewrite Hcat, Hcnt. rewrite Hrows in Hin.
    repeat (apply elem_of_cons in Hin as [-> | Hin];
            [cbn [Category Count]; set_solver|]).
    by apply elem_of_nil in Hin.
  - repeat split;
      match goal with |- (?c <= _)%Z =>
        match type of Hrows with
        | context [mkBreakdown ?s c ?p] =>
            apply (Hmax (mkBreakdown s c p)); rewrite Hrows; set_solver
        end
      end.
Qed.

End DashboardFacts.

(** ** The upload pipeline *)

Lemma cell_filter (r : gmap string value) (cols : list string) c :
  c ∈ cols -> Frame.cell (filter (fun kv => kv.1 ∈ cols) r) c = Frame.cell r c.
Proof.
  intros Hc. unfold Frame.cell. rewrite map_lookup_filter.
  destruct (r !! c) as [v|]; [|reflexivity]. cbn.
  by rewrite option_guard_True.
Qed.

Lemma loc_columns_Ok df cols :
  cols ⊆ columns df ->
  Upload.loc_columns df cols
  = Ok (mkFrame cols
          ((fun r => filter (fun kv => kv.1 ∈ cols) r) <$> rows df)).
Proof.
  intros Hsub. unfold Upload.loc_columns.
  by rewrite bool_decide_eq_true_2.
Qed.

Lemma getitem_fmap cols (g : gmap string value -> gmap string value)
    (R : list (gmap string value)) c :
  c ∈ cols ->
  Frame.getitem (mkFrame cols (g <$> R)) c
  = Ok ((fun r => Frame.cell (g r) c) <$> R).
Proof.
  intros Hc. unfold Frame.getitem. cbn [columns rows].
  rewrite bool_decide_eq_true_2 by done. by rewrite <- list_fmap_compose.
Qed.

Lemma setitem_series_fmap {A : Type} cols (R : list A) c
    (g : A -> gmap string value) (h : A -> value) :
  c ∈ cols ->
  Upload.setitem_series (mkFrame cols (g <$> R)) c (h <$> R)
  = mkFrame cols ((fun r => <[c := h r]> (g r)) <$> R).
Proof.
  intros Hc. unfold Upload.setitem_series. cbn [columns rows].
  rewrite bool_decide_eq_true_2 by done. f_equal.
  apply list_eq. intros i.
  rewrite list_lookup_imap, !list_lookup_fmap.
  by destruct (R !! i).
Qed.

Lemma same_but_refl c R : same_but c R R.
Proof. unfold same_but. induction R; by constructor. Qed.

Lemma setitem_series_same_but df c series :
  c ∈ columns df ->
  columns (Upload.setitem_series df c series) = columns df /\
  same_but c (rows df) (rows (Upload.setitem_series df c series)).
Proof.
  intros Hc. unfold Upload.setitem_series. cbn [columns rows].
  rewrite bool_decide_eq_true_2 by done. split; [done|].
  unfold same_but. apply Forall2_lookup. intros i.
  rewrite list_lookup_imap. destruct (rows df !! i) as [r|]; constructor.
  intros c' Hne. by apply cell_insert_ne.
Qed.

Section PipelineFacts.

Variable kota : list string.
Variable today : date.
Variable to_datetime_dmY : list value -> result (list value).
Variable to_datetime : list value -> result (list value).
Variable sort_values : list Breakdown -> list Breakdown.

Lemma try_to_datetime_same_but convert df df' :
  try_to_datetime convert df = Ok df' ->
  columns df' = columns df /\
  same_but "TANGGAL_LAHIR" (rows df) (rows df').
Proof.
  unfold try_to_datetime.
  destruct (Frame.getitem df "TANGGAL_LAHIR") as [series|] eqn:Hget;
    [|discriminate].
  apply getitem_Ok_elem in Hget. cbn [mbind result_bind].
  destruct (convert series) as [out|]; [|discriminate].
  cbn [mbind result_bind]. intros [= <-].
  by apply setitem_series_same_but.
Qed.

Lemma convert_dates_same_but df :
  columns (convert_dates to_datetime_dmY to_datetime df) = columns df /\
  same_but "TANGGAL_LAHIR" (rows df)
    (rows (convert_dates to_datetime_dmY to_datetime df)).
Proof.
  unfold convert_dates.
  destruct (try_to_datetime to_datetime_dmY df) as [df1|] eqn:H1.
  { by apply try_to_datetime_same_but in H1. }
  destruct (try_to_datetime to_datetime df) as [df2|] eqn:H2.
  { by apply try_to_datetime_same_but in H2. }
  split; [done | apply same_but_refl].
Qed.

Lemma prepare_Ok df_full :
  required_columns ⊆ columns df_full ->
  prepare to_datetime_dmY to_datetime df_full
  = Ok (convert_dates to_datetime_dmY to_datetime
          (mkFrame required_columns (as_text <$> rows df_full))).
Proof.
  intros Hreq. unfold prepare.
  rewrite loc_columns_Ok by done. cbn [mbind result_bind].
  rewrite getitem_fmap by (by apply (bool_decide_unpack _)).
  cbn [mbind result_bind]. unfold Upload.map_str.
  rewrite <- list_fmap_compose.
  rewrite setitem_series_fmap by (by apply (bool_decide_unpack _)).
  rewrite getitem_fmap by (by apply (bool_decide_unpack _)).
  cbn [mbind result_bind].
  rewrite <- list_fmap_compose.
  rewrite setitem_series_fmap by (by apply (bool_decide_unpack _)).
  do 3 f_equal. apply list_fmap_ext. intros i r _. cbn. unfold as_text.
  rewrite cell_insert_ne by done.
  by rewrite !cell_filter by (by apply (bool_decide_unpack _)).
Qed.

Lemma prepare_columns df_full :
  columns (convert_dates to_datetime_dmY to_datetime
             (mkFrame required_columns (as_text <$> rows df_full)))
  = required_columns.
Proof.
  by destruct (convert_dates_same_but
    (mkFrame required_columns (as_text <$> rows df_full))) as [-> _].
Qed.

Lemma prepare_rows df_full :
  Forall2 (fun r r' =>
      Frame.cell r' "KK_NO" = VStr (py_str (Frame.cell r "KK_NO")) /\
      Frame.cell r' "NIK" = VStr (py_str (Frame.cell r "NIK")) /\
      Frame.cell r' "CUSTNAME" = Frame.cell r "CUSTNAME" /\
      Frame.cell r' "JENIS_KELAMIN" = Frame.cell r "JENIS_KELAMIN" /\
      Frame.cell r' "TEMPAT_LAHIR" = Frame.cell r "TEMPAT_LAHIR")
    (rows df_full)
    (rows (convert_dates to_datetime_dmY to_datetime
             (mkFrame required_columns (as_text <$> rows df_full)))).
Proof.
  destruct (convert_dates_same_but
    (mkFrame required_columns (as_text <$> rows df_full))) as [_ Hsame].
  cbn [rows] in Hsame. unfold same_but in Hsame.
  apply Forall2_fmap_l in Hsame.
  eapply Forall2_impl; [exact Hsame|].
  intros r r' Hr. cbv beta in Hr.
  rewrite !Hr by done. unfold as_text.
  rewrite cell_insert_ne, !cell_insert_eq by done.
  rewrite !cell_insert_ne by done.
  by rewrite !cell_filter by (by apply (bool_decide_unpack _)).
Qed.

Lemma prepare_ids df_full :
  forallb ids_are_str
    (rows (convert_dates to_datetime_dmY to_datetime
             (mkFrame required_columns (as_text <$> rows df_full)))) = true.
Proof.
  apply forallb_forall. intros r' Hr'. apply list_elem_of_In in Hr'.
  pose proof (prepare_rows df_full) as Hrows.
  apply list_elem_of_lookup_1 in Hr' as [i Hi].
  destruct (Forall2_lookup_r _ _ _ _ _ Hrows Hi) as (r & _ & Hkk & Hnik & _).
  unfold ids_are_str. by rewrite Hkk, Hnik.
Qed.

Lemma prepare_length df_full :
  List.length (rows (convert_dates to_datetime_dmY to_datetime
             (mkFrame required_columns (as_text <$> rows df_full))))
  = List.length (rows df_full).
Proof. symmetry. eapply Forall2_length, prepare_rows. Qed.

End PipelineFacts.


Section PipelineRuns.

Variable kota : list string.
Variable today : date.
Variable to_datetime_dmY : list value -> result (list value).
Variable to_datetime : list value -> result (list value).
Variable sort_values : list Breakdown -> list Breakdown.
Variable to_excel : Stats * list Q -> DataFrame -> DataFrame -> result bytes.

Lemma empty_false df :
  Upload.empty df = false -> rows df <> [] /\ columns df <> [].
Proof.
  unfold Upload.empty. intros H. apply orb_false_iff in H as [H1 H2].
  by apply bool_decide_eq_false in H1, H2.
Qed.

Lemma missing_columns_nil (cols : list string) :
  List.filter (fun col => negb (bool_decide (col ∈ cols))) required_columns = []
  <-> required_columns ⊆ cols.
Proof.
  split.
  - intros Hnil c Hc.
    destruct (decide (c ∈ cols)) as [|Hout]; [done|]. exfalso.
    assert (In c (List.filter (fun col => negb (bool_decide (col ∈ cols)))
                    required_columns)) as Hin.
    { apply filter_In. split; [by apply list_elem_of_In|].
      by rewrite bool_decide_eq_false_2. }
    by rewrite Hnil in Hin.
  - intros Hreq.
    destruct (List.filter _ required_columns) as [|c l] eqn:Hf; [done|].
    exfalso.
    assert (In c (c :: l)) as Hin by (by left). rewrite <- Hf in Hin.
    apply filter_In in Hin as [Hin Hout]. apply list_elem_of_In, Hreq in Hin.
    by rewrite bool_decide_eq_true_2 in Hout.
Qed.

(** The run of [analyse] up to the statistics. *)
Lemma analyse_validated df_full :
  required_columns ⊆ columns df_full ->
  exists df_req st,
    let L := List.filter (fun r => negb (all_pass kota today r)) (rows df_req) in
    let messy_df := mkFrame (columns_after df_req) (annotate kota today <$> L) in
    let clean_df :=
      mkFrame (filter (fun x => x <> "Check_Desc") (columns_after df_req))
        ((fun r => delete "Check_Desc" r) <$>
           List.filter (all_pass kota today) (rows df_req)) in
    let total_data := Frame.len df_full in
    prepare to_datetime_dmY to_datetime df_full = Ok df_req /\
    columns df_req = required_columns /\
    List.length (rows df_req) = List.length (rows df_full) /\
    summary_statistics messy_df clean_df = Ok st /\
    messy_data st = Z.of_nat (List.length L) /\
    (messy_data st + clean_data_len st = total_data)%Z /\
    total_invalid st = (6 * messy_data st)%Z /\
    analyse kota today to_datetime_dmY to_datetime sort_values to_excel
           df_full =
      (dashboard ← create_executive_dashboard sort_values
         total_data (clean_data_len st) (messy_data st)
         (invalid_kk st) (invalid_nik st) (invalid_name st)
         (invalid_gender st) (invalid_places st) (invalid_date st)
         (total_invalid st);
       output_text ← summary_percentages total_data st;
       excel_data ← generate_summary_excel to_excel messy_df clean_df
                      total_data;
       Ok (mkReport total_data messy_df clean_df st dashboard output_text
             excel_data)).
Proof.
  intros Hreq.
  set (df_req := convert_dates to_datetime_dmY to_datetime
                   (mkFrame required_columns (as_text <$> rows df_full))).
  pose proof (prepare_columns to_datetime_dmY to_datetime df_full) as Hcols.
  pose proof (prepare_ids to_datetime_dmY to_datetime df_full) as Hids.
  pose proof (prepare_length to_datetime_dmY to_datetime df_full) as Hlen.
  fold df_req in Hcols, Hids, Hlen.
  assert (Hreq' : required_columns ⊆ columns df_req) by (by rewrite Hcols).
  destruct (summary_statistics_annotated kota today (columns_after df_req)
    (List.filter (fun r => negb (all_pass kota today r)) (rows df_req))
    (mkFrame (filter (fun x => x <> "Check_Desc") (columns_after df_req))
       ((fun r => delete "Check_Desc" r) <$>
          List.filter (all_pass kota today) (rows df_req)))
    (check_desc_in_columns_after df_req))
    as (st & Hst & Hm & Hc & Hlp & Hcnt & Htot & Hmi & Hci).
  exists df_req, st. cbv zeta.
  split; [by apply prepare_Ok|]. split; [exact Hcols|]. split; [exact Hlen|].
  split; [exact Hst|]. split; [exact Hm|].
  assert (Hsix : len_param st = 6%Z).
  { rewrite Hlp. unfold columns_after, Frame.setitem. cbn [columns].
    rewrite Hcols. reflexivity. }
  split; [|split].
  - rewrite Hm, Hc. unfold Frame.len. cbn [rows]. rewrite length_fmap, <- Hlen.
    pose proof (filter_length_split (all_pass kota today) (rows df_req)). lia.
  - rewrite Htot, Hsix, Hm. lia.
  - unfold analyse. rewrite prepare_Ok by done. fold df_req.
    cbn [mbind result_bind].
    rewrite (clean_data_rowwise_ok kota today df_req Hreq' Hids).
    cbn [mbind result_bind]. rewrite Hst. cbn [mbind result_bind].
    unfold Frame.len. cbn [rows]. by rewrite length_fmap, Hlen.
Qed.


Lemma filter_negb_nil {A : Type} (p : A -> bool) (l : list A) :
  List.filter (fun x => negb (p x)) l = [] <-> forallb p l = true.
Proof.
  induction l as [|x l IH]; [done|]. cbn [List.filter forallb].
  destruct (p x); cbn [negb andb]; [exact IH | done].
Qed.

Lemma summary_percentages_Ok (total_data : Z) (st : Stats) :
  total_data <> 0%Z -> total_invalid st <> 0%Z ->
  exists text, summary_percentages total_data st = Ok text.
Proof.
  intros Hd Hi. unfold summary_percentages.
  rewrite !(percent_nonzero _ total_data) by done.
  rewrite !(percent_nonzero _ (total_invalid st)) by done.
  cbn [mbind result_bind]. eauto.
Qed.

Lemma analyse_cases df_full :
  Upload.empty df_full = false ->
  required_columns ⊆ columns df_full ->
  exists df_req,
    prepare to_datetime_dmY to_datetime df_full = Ok df_req /\
    columns df_req = required_columns /\
    if forallb (all_pass kota today) (rows df_req)
    then analyse kota today to_datetime_dmY to_datetime sort_values to_excel
           df_full
         = Raise ZeroDivisionError
    else (forall l, sort_values l ≡ₚ l) ->
         exists st text dashboard,
           let messy_df :=
             mkFrame (columns_after df_req)
               (annotate kota today <$>
                  List.filter (fun r => negb (all_pass kota today r))
                    (rows df_req)) in
           let clean_df :=
             mkFrame (filter (fun x => x <> "Check_Desc")
                        (columns_after df_req))
               ((fun r => delete "Check_Desc" r) <$>
                  List.filter (all_pass kota today) (rows df_req)) in
           summary_statistics messy_df clean_df = Ok st /\
           summary_percentages (Frame.len df_full) st = Ok text /\
           (0 < messy_data st)%Z /\
           (messy_data st + clean_data_len st = Frame.len df_full)%Z /\
           total_invalid st = (6 * messy_data st)%Z /\
           analyse kota today to_datetime_dmY to_datetime sort_values
             to_excel df_full
           = (excel_data ← to_excel (st, text) messy_df clean_df;
              Ok (mkReport (Frame.len df_full) messy_df clean_df st
                    dashboard text excel_data)).
Proof.
  intros Hne Hreq. apply empty_false in Hne as [Hrows _].
  destruct (analyse_validated df_full Hreq)
    as (df_req & st & Hprep & Hcols & Hlen & Hst & Hm & Hsum & Htot & Hrun).
  cbv zeta in *.
  exists df_req. split; [exact Hprep|]. split; [exact Hcols|].
  assert (Hd : Frame.len df_full <> 0%Z).
  { unfold Frame.len. destruct (rows df_full); [done|]. cbn [List.length]. lia. }
  destruct (forallb (all_pass kota today) (rows df_req)) eqn:Hall.
  - rewrite Hrun. apply filter_negb_nil in Hall. rewrite Hall in Hm.
    cbn in Hm. rewrite Hm in Htot.
    rewrite create_executive_dashboard_raises by (right; lia). reflexivity.
  - intros Hperm.
    assert (Hpos : (0 < messy_data st)%Z).
    { rewrite Hm.
      destruct (List.filter (fun r => negb (all_pass kota today r))
                  (rows df_req)) eqn:HL; [|cbn [List.length]; lia].
      apply filter_negb_nil in HL. congruence. }
    assert (Hi : total_invalid st <> 0%Z) by lia.
    destruct (create_executive_dashboard_Ok sort_values
      (Frame.len df_full) (clean_data_len st) (messy_data st)
      (invalid_kk st) (invalid_nik st) (invalid_name st)
      (invalid_gender st) (invalid_places st) (invalid_date st)
      (total_invalid st) Hperm Hd Hi) as (d & top & Hdash & _).
    destruct (summary_percentages_Ok _ _ Hd Hi) as [text Htext].
    exists st, text, d.
    split; [exact Hst|]. split; [exact Htext|]. split; [exact Hpos|].
    split; [exact Hsum|]. split; [exact Htot|].
    rewrite Hrun, Hdash. cbn [mbind result_bind].
    unfold generate_summary_excel. rewrite Htext, Hst.
    cbn [mbind result_bind]. rewrite Htext. reflexivity.
Qed.

(** X9. For an upload that has the six columns, whatever the two date
    conversions do: lines 339-350 return a table with exactly the six
    columns and as many rows, whose KK_NO and NIK cells are the text
    [str(x)] of the uploaded cells and whose name, gender and birth-place
    cells are the uploaded ones; and [clean_data] returns on that table.
    The [TypeError] of lines 76-81 cannot occur in a run of the
    pipeline. *)
Theorem prepare_then_clean_data (df_full : DataFrame) :
  required_columns ⊆ columns df_full ->
  exists df_req raw_df messy_df clean_df,
    prepare to_datetime_dmY to_datetime df_full = Ok df_req /\
    columns df_req = required_columns /\
    Forall2 (fun r r' =>
        Frame.cell r' "KK_NO" = VStr (py_str (Frame.cell r "KK_NO")) /\
        Frame.cell r' "NIK" = VStr (py_str (Frame.cell r "NIK")) /\
        Frame.cell r' "CUSTNAME" = Frame.cell r "CUSTNAME" /\
        Frame.cell r' "JENIS_KELAMIN" = Frame.cell r "JENIS_KELAMIN" /\
        Frame.cell r' "TEMPAT_LAHIR" = Frame.cell r "TEMPAT_LAHIR")
      (rows df_full) (rows df_req) /\
    clean_data kota today df_req = Ok (raw_df, messy_df, clean_df).
Proof.
  intros Hreq.
  pose proof (prepare_columns to_datetime_dmY to_datetime df_full) as Hcols.
  pose proof (prepare_ids to_datetime_dmY to_datetime df_full) as Hids.
  eexists _, _, _, _. split; [by apply prepare_Ok|].
  split; [exact Hcols|]. split; [apply prepare_rows|].
  apply clean_data_rowwise_ok; [by rewrite Hcols | exact Hids].
Qed.


(** X10. An upload with rows and the six columns whose prepared rows
    all pass the six checks ends in [ZeroDivisionError]: the table of
    messy rows is empty, [total_invalid] is 0 and the dashboard, called
    before the report is made, divides by it. *)
Theorem process_all_clean (df_full df_req : DataFrame) :
  Upload.empty df_full = false ->
  required_columns ⊆ columns df_full ->
  prepare to_datetime_dmY to_datetime df_full = Ok df_req ->
  forallb (all_pass kota today) (rows df_req) = true ->
  process kota today to_datetime_dmY to_datetime sort_values to_excel
      df_full
  = Failed ZeroDivisionError.
Proof.
  intros Hne Hreq Hprep Hall. unfold process. rewrite Hne.
  rewrite (proj2 (missing_columns_nil _) Hreq).
  destruct (analyse_cases df_full Hne Hreq) as (df_req' & Hprep' & _ & Hrun).
  rewrite Hprep in Hprep'. injection Hprep' as <-.
  rewrite Hall in Hrun. by rewrite Hrun.
Qed.

(** X11. An upload with rows and the six columns of which at least one
    prepared row fails a check gets as far as the workbook, provided the
    sort returns its rows reordered: the messy and clean tables split the
    prepared rows, their sizes add up to the number of uploaded rows,
    [total_invalid] is six times the number of messy rows, and the
    workbook is written from the statistics and the figures shown on the
    page.  The run is done, with that workbook, when the writer returns
    one, and fails with the exception of the writer when it raises. *)
Theorem process_reports (df_full df_req : DataFrame) :
  (forall l, sort_values l ≡ₚ l) ->
  Upload.empty df_full = false ->
  required_columns ⊆ columns df_full ->
  prepare to_datetime_dmY to_datetime df_full = Ok df_req ->
  forallb (all_pass kota today) (rows df_req) = false ->
  exists messy_df clean_df st text,
    rows messy_df =
      annotate kota today <$>
        List.filter (fun r => negb (all_pass kota today r)) (rows df_req) /\
    rows clean_df =
      (fun r => delete "Check_Desc" r) <$>
        List.filter (all_pass kota today) (rows df_req) /\
    summary_statistics messy_df clean_df = Ok st /\
    summary_percentages (Frame.len df_full) st = Ok text /\
    (0 < messy_data st)%Z /\
    (messy_data st + clean_data_len st = Frame.len df_full)%Z /\
    total_invalid st = (6 * messy_data st)%Z /\
    match to_excel (st, text) messy_df clean_df with
    | Ok excel_data =>
        exists report,
          process kota today to_datetime_dmY to_datetime sort_values
            to_excel df_full = Done report /\
          report_total_data report = Frame.len df_full /\
          report_messy_df report = messy_df /\
          report_clean_df report = clean_df /\
          report_stats report = st /\
          report_text report = text /\
          report_excel report = excel_data
    | Raise e =>
        process kota today to_datetime_dmY to_datetime sort_values
          to_excel df_full = Failed e
    end.
Proof.
  intros Hperm Hne Hreq Hprep Hall. unfold process. rewrite Hne.
  rewrite (proj2 (missing_columns_nil _) Hreq).
  destruct (analyse_cases df_full Hne Hreq) as (df_req' & Hprep' & _ & Hrun).
  rewrite Hprep in Hprep'. injection Hprep' as <-.
  rewrite Hall in Hrun.
  destruct (Hrun Hperm) as (st & text & d & Hst & Htext & Hpos & Hsum &
                            Htot & ->).
  exists (mkFrame (columns_after df_req)
            (annotate kota today <$>
               List.filter (fun r => negb (all_pass kota today r))
                 (rows df_req))),
         (mkFrame (filter (fun x => x <> "Check_Desc") (columns_after df_req))
            ((fun r => delete "Check_Desc" r) <$>
               List.filter (all_pass kota today) (rows df_req))),
         st, text.
  split; [reflexivity|]. split; [reflexivity|]. split; [exact Hst|].
  split; [exact Htext|]. split; [exact Hpos|]. split; [exact Hsum|].
  split; [exact Htot|].
  destruct (to_excel _ _ _) as [excel_data | e]; cbn [mbind result_bind].
  - eexists. split; [reflexivity|]. by repeat split.
  - reflexivity.
Qed.

(** X12. Provided the sort returns its rows reordered, a run ends in
    one of five ways: stopped for want of data when the table read has no
    row or no column; stopped with the list of the required columns that
    are absent, in the order of line 331, when there is one; failed with
    [ZeroDivisionError]; failed with an exception the workbook writer
    raised; or done with a report whose workbook the writer returned.
    Lines 339-438 raise no other exception. *)
Theorem process_outcome (df_full : DataFrame) :
  (forall l, sort_values l ≡ₚ l) ->
  (Upload.empty df_full = true /\
   process kota today to_datetime_dmY to_datetime sort_values to_excel
     df_full = Stopped NoData) \/
  (exists missing_columns,
     missing_columns <> [] /\
     (forall c, c ∈ missing_columns <->
                c ∈ required_columns /\ c ∉ columns df_full) /\
     process kota today to_datetime_dmY to_datetime sort_values to_excel
       df_full = Stopped (MissingColumns missing_columns)) \/
  (required_columns ⊆ columns df_full /\
   process kota today to_datetime_dmY to_datetime sort_values to_excel
     df_full = Failed ZeroDivisionError) \/
  (required_columns ⊆ columns df_full /\
   exists summary messy_df clean_df e,
     to_excel summary messy_df clean_df = Raise e /\
     process kota today to_datetime_dmY to_datetime sort_values to_excel
       df_full = Failed e) \/
  (required_columns ⊆ columns df_full /\
   exists report,
     to_excel (report_stats report, report_text report)
       (report_messy_df report) (report_clean_df report)
     = Ok (report_excel report) /\
     process kota today to_datetime_dmY to_datetime sort_values to_excel
       df_full = Done report).
Proof.
  intros Hperm. unfold process.
  destruct (Upload.empty df_full) eqn:Hne; [by left|]. right.
  destruct (List.filter (fun col => negb (bool_decide (col ∈ columns df_full)))
              required_columns) as [|c l] eqn:Hmiss.
  - right. apply missing_columns_nil in Hmiss.
    destruct (analyse_cases df_full Hne Hmiss) as (df_req & _ & _ & Hrun).
    destruct (forallb (all_pass kota today) (rows df_req)).
    + left. by rewrite Hrun.
    + right. destruct (Hrun Hperm) as (st & text & d & _ & _ & _ & _ & _ & ->).
      match goal with
      | |- context [to_excel ?a ?b ?c] =>
          destruct (to_excel a b c) as [excel_data | e] eqn:Hw
      end; cbn [mbind result_bind].
      * right. split; [done|]. eexists. split; [|reflexivity]. exact Hw.
      * left. split; [done|]. by eexists _, _, _, e.
  - left. exists (c :: l). split; [done|]. split; [|done].
    intros x. rewrite <- Hmiss, list_elem_of_In, filter_In, <- list_elem_of_In.
    rewrite negb_true_iff, bool_decide_eq_false. tauto.
Qed.

End PipelineRuns.

(** ** The texts of a birth date *)

(** X13. The texts the birth-date predicate accepts are exactly the
    texts [D/M/Y] that write a date of the calendar not later than
    [today], where [D] is the day on two digits or, below ten, on one
    digit with or without a space before it, [M] the month on two digits
    or, below ten, on one, and [Y] the year on four digits; the second
    digit of a day from 10 to 29 and the digits of the year may be
    decimal digits of any script. *)
Theorem is_valid_date_texts (today : date) (s : string) :
  is_valid_date today (VStr s) = true <->
  exists d, writes s d /\ gregorian d /\ Calendar.leb d today = true.
Proof. apply is_valid_date_text. Qed.

(** ** Identity numbers kept as numbers *)

Section Decimals.

Import Decimal DecimalFacts.
Local Open Scope Z_scope.

Lemma digit_bound c :
  PyStr.ascii_digit c = true -> 0 <= PyStr.digit_value c <= 9.
Proof.
  unfold PyStr.ascii_digit, PyStr.digit_value. intros H.
  apply andb_true_iff in H as [H1 H2].
  apply Nat.leb_le in H1, H2. lia.
Qed.

Lemma digit_zero c :
  PyStr.ascii_digit c = true -> PyStr.digit_value c = 0 -> c = "0"%char.
Proof.
  intros Hc H0. apply ascii_digit_spec in Hc.
  repeat (apply elem_of_cons in Hc as [-> | Hc]); try done.
  by apply elem_of_nil in Hc.
Qed.

Lemma pow10_pos n : 0 < 10 ^ Z.of_nat n.
Proof. apply Z.pow_pos_nonneg; lia. Qed.

Lemma pow10_succ n : 10 ^ Z.of_nat (S n) = 10 * 10 ^ Z.of_nat n.
Proof. rewrite Nat2Z.inj_succ, Z.pow_succ_r by lia. reflexivity. Qed.

Lemma decimal_value_bound s :
  PyStr.all_chars PyStr.ascii_digit s = true ->
  0 <= decimal_value s < 10 ^ Z.of_nat (String.length s).
Proof.
  induction s as [|c s IH]; [done|]. cbn [PyStr.all_chars]. intros H.
  apply andb_true_iff in H as [Hc Hs]. specialize (IH Hs).
  apply digit_bound in Hc. cbn [decimal_value].
  change (String.length (String c s)) with (S (String.length s)).
  rewrite pow10_succ. pose proof (pow10_pos (String.length s)). nia.
Qed.

Lemma decimal_value_lower c s :
  PyStr.all_chars PyStr.ascii_digit (String c s) = true ->
  c <> "0"%char ->
  10 ^ Z.of_nat (String.length s) <= decimal_value (String c s).
Proof.
  cbn [PyStr.all_chars]. intros H Hne.
  apply andb_true_iff in H as [Hc Hs].
  pose proof (decimal_value_bound s Hs). pose proof (digit_bound c Hc).
  assert (PyStr.digit_value c <> 0) by (intros E; by apply Hne, digit_zero).
  cbn [decimal_value]. pose proof (pow10_pos (String.length s)). nia.
Qed.

Lemma decimal_value_of_uint_acc d acc :
  Z.pos (Pos.of_uint_acc d acc)
  = Z.pos acc * 10 ^ Z.of_nat (String.length (NilEmpty.string_of_uint d)) +
    decimal_value (NilEmpty.string_of_uint d).
Proof.
  revert acc. induction d as [|d IH|d IH|d IH|d IH|d IH|d IH|d IH|d IH|d IH|d IH];
    intros acc; cbn [Pos.of_uint_acc NilEmpty.string_of_uint];
    [cbn; lia | ..];
    rewrite IH; cbn [decimal_value];
    change (String.length (String ?c ?s)) with (S (String.length s));
    rewrite pow10_succ;
    match goal with |- context [PyStr.digit_value ?c] =>
      let v := eval vm_compute in (PyStr.digit_value c) in
      change (PyStr.digit_value c) with v end;
    lia.
Qed.

Lemma decimal_value_of_uint d :
  Z.of_N (Pos.of_uint d) = decimal_value (NilEmpty.string_of_uint d).
Proof.
  induction d as [|d IH|d IH|d IH|d IH|d IH|d IH|d IH|d IH|d IH|d IH];
    cbn [Pos.of_uint NilEmpty.string_of_uint]; [done | ..];
    [ rewrite IH; cbn [decimal_value];
      change (PyStr.digit_value "0") with 0; lia
    | cbn [Z.of_N]; rewrite decimal_value_of_uint_acc; cbn [decimal_value];
      match goal with |- context [PyStr.digit_value ?c] =>
        let v := eval vm_compute in (PyStr.digit_value c) in
        change (PyStr.digit_value c) with v end;
      lia .. ].
Qed.

Lemma to_uint_normal p : unorm (Pos.to_uint p) = Pos.to_uint p.
Proof.
  rewrite <- (DecimalPos.Unsigned.to_of (Pos.to_uint p)).
  by rewrite DecimalPos.Unsigned.of_to.
Qed.

Lemma to_uint_first p d : Pos.to_uint p <> D0 d.
Proof.
  intros E. pose proof (to_uint_normal p) as Hn. rewrite E in Hn.
  rewrite unorm_D0 in Hn.
  destruct (nzhead d) eqn:Hz.
  - apply unorm_0 in Hz. rewrite Hz in Hn. injection Hn as <-.
    by apply (DecimalPos.Unsigned.to_uint_nonzero p).
  - rewrite unorm_nzhead in Hn by (by rewrite Hz).
    by apply nzhead_nonzero in Hn.
  - rewrite unorm_nzhead in Hn by (by rewrite Hz). by apply nzhead_nonzero in Hn.
  - rewrite unorm_nzhead in Hn by (by rewrite Hz). by apply nzhead_nonzero in Hn.
  - rewrite unorm_nzhead in Hn by (by rewrite Hz). by apply nzhead_nonzero in Hn.
  - rewrite unorm_nzhead in Hn by (by rewrite Hz). by apply nzhead_nonzero in Hn.
  - rewrite unorm_nzhead in Hn by (by rewrite Hz). by apply nzhead_nonzero in Hn.
  - rewrite unorm_nzhead in Hn by (by rewrite Hz). by apply nzhead_nonzero in Hn.
  - rewrite unorm_nzhead in Hn by (by rewrite Hz). by apply nzhead_nonzero in Hn.
  - rewrite unorm_nzhead in Hn by (by rewrite Hz). by apply nzhead_nonzero in Hn.
  - rewrite unorm_nzhead in Hn by (by rewrite Hz). by apply nzhead_nonzero in Hn.
Qed.

(** The text of a positive integer: digits only, the first one not 0,
    and writing that integer. *)
Lemma of_Z_pos p :
  exists c s,
    PyStr.of_Z (Z.pos p) = String c s /\
    PyStr.all_chars PyStr.ascii_digit (String c s) = true /\
    c <> "0"%char /\
    decimal_value (String c s) = Z.pos p.
Proof.
  unfold PyStr.of_Z. cbn [Z.to_int NilZero.string_of_int].
  pose proof (to_uint_first p) as Hfirst.
  pose proof (DecimalPos.Unsigned.of_to p) as Hval.
  apply (f_equal Z.of_N) in Hval. rewrite decimal_value_of_uint in Hval.
  pose proof (string_of_uint_digits (Pos.to_uint p)) as Hdig.
  unfold NilZero.string_of_uint.
  destruct (Pos.to_uint p) as [|d|d|d|d|d|d|d|d|d|d] eqn:E;
    [by apply DecimalPos.Unsigned.to_uint_nonnil in E
    | by destruct (Hfirst d) | ..];
    cbn [NilEmpty.string_of_uint] in *; eexists _, _;
    (split; [reflexivity|]); (split; [exact Hdig|]);
    (split; [discriminate | exact Hval]).
Qed.


Lemma all_chars_drop p n s :
  PyStr.all_chars p s = true -> PyStr.all_chars p (PyStr.drop n s) = true.
Proof.
  revert s. induction n as [|n IH]; intros s; [done|].
  destruct s as [|c s]; [done|]. cbn [PyStr.all_chars PyStr.drop].
  intros H. apply andb_true_iff in H as [_ H]. by apply IH.
Qed.

Lemma len_drop n s : String.length (PyStr.drop n s) = (String.length s - n)%nat.
Proof.
  revert s. induction n as [|n IH]; intros s;
    [cbn [PyStr.drop]; lia|].
  destruct s as [|c s]; [done|]. cbn [PyStr.drop].
  rewrite IH. cbn [String.length]. lia.
Qed.

(** The last four digits write the number modulo 10000. *)
Lemma decimal_value_last4 s :
  PyStr.all_chars PyStr.ascii_digit s = true ->
  (4 <= String.length s)%nat ->
  decimal_value (PyStr.drop (String.length s - 4) s)
  = decimal_value s mod 10000.
Proof.
  induction s as [|c s IH]; [cbn; lia|].
  cbn [PyStr.all_chars]. intros H Hlen.
  apply andb_true_iff in H as [Hc Hs].
  change (String.length (String c s)) with (S (String.length s)) in *.
  destruct (decide (String.length s = 3%nat)) as [E | Hne].
  - rewrite E. cbn [Nat.sub PyStr.drop].
    pose proof (decimal_value_bound (String c s)) as Hb.
    cbn [PyStr.all_chars] in Hb. rewrite Hc, Hs in Hb. specialize (Hb eq_refl).
    change (String.length (String c s)) with (S (String.length s)) in Hb.
    rewrite E in Hb. change (10 ^ Z.of_nat 4) with 10000 in Hb.
    by rewrite Z.mod_small.
  - replace (S (String.length s) - 4)%nat with (S (String.length s - 4)) by lia.
    cbn [PyStr.drop]. rewrite IH by (done || lia).
    cbn [decimal_value].
    replace (String.length s) with (4 + (String.length s - 4))%nat at 1 by lia.
    rewrite Nat2Z.inj_add, Z.pow_add_r by lia.
    change (10 ^ Z.of_nat 4) with 10000.
    replace (PyStr.digit_value c * (10000 * 10 ^ Z.of_nat (String.length s - 4)) +
             decimal_value s)
      with (decimal_value s +
            PyStr.digit_value c * 10 ^ Z.of_nat (String.length s - 4) * 10000) by lia.
    by rewrite Z.mod_add by lia.
Qed.

Lemma decimal_value_zeros a b c d :
  PyStr.all_chars PyStr.ascii_digit (String a (String b (String c (String d ""))))
    = true ->
  decimal_value (String a (String b (String c (String d "")))) = 0 ->
  String a (String b (String c (String d ""))) = "0000".
Proof.
  cbn [PyStr.all_chars decimal_value String.length String.length]. intros H.
  repeat (apply andb_true_iff in H as [? H]).
  pose proof (digit_bound a ltac:(done)). pose proof (digit_bound b ltac:(done)).
  pose proof (digit_bound c ltac:(done)). pose proof (digit_bound d ltac:(done)).
  change (10 ^ Z.of_nat 3) with 1000. change (10 ^ Z.of_nat 2) with 100.
  change (10 ^ Z.of_nat 1) with 10. change (10 ^ Z.of_nat 0) with 1.
  intros E.
  rewrite (digit_zero a), (digit_zero b), (digit_zero c), (digit_zero d);
    (done || lia).
Qed.

Lemma last4_zeros s :
  PyStr.all_chars PyStr.ascii_digit s = true ->
  (4 <= String.length s)%nat ->
  PyStr.last4 s = "0000" <-> decimal_value s mod 10000 = 0.
Proof.
  intros Hs Hlen. rewrite <- decimal_value_last4 by done.
  pose proof (all_chars_drop _ (String.length s - 4) s Hs) as Hd.
  pose proof (len_drop (String.length s - 4) s) as Hl.
  destruct (digits_text s Hs) as (_ & _ & ->).
  split; [by intros -> |].
  destruct (PyStr.drop (String.length s - 4) s) as [|a [|b [|c [|d [|e t]]]]];
    cbn [String.length] in Hl; try lia.
  by apply decimal_value_zeros.
Qed.

Lemma pow10_len_16 s c :
  PyStr.all_chars PyStr.ascii_digit (String c s) = true ->
  c <> "0"%char ->
  String.length (String c s) = 16%nat <->
  10 ^ 15 <= decimal_value (String c s) < 10 ^ 16.
Proof.
  intros Hd Hc.
  pose proof (decimal_value_bound _ Hd) as [_ Hup].
  pose proof (decimal_value_lower _ _ Hd Hc) as Hlow.
  change (String.length (String c s)) with (S (String.length s)) in *.
  split.
  - intros [= E]. rewrite E in Hup, Hlow. by split.
  - intros [H1 H2]. f_equal.
    destruct (Nat.lt_trichotomy (String.length s) 15) as [Hlt | [-> | Hgt]];
      [exfalso | reflexivity | exfalso].
    + assert (10 ^ Z.of_nat (S (String.length s)) <= 10 ^ 15)
        by (apply Z.pow_le_mono_r; lia). lia.
    + assert (10 ^ 16 <= 10 ^ Z.of_nat (String.length s))
        by (apply Z.pow_le_mono_r; lia). lia.
Qed.

Lemma is_valid_kk_no_of_Z (n : Z) :
  is_valid_kk_no (VStr (PyStr.of_Z n)) = true <->
  10 ^ 15 <= n < 10 ^ 16 /\ n mod 10000 <> 0.
Proof.
  destruct n as [|p|p].
  - split; [vm_compute; discriminate | lia].
  - destruct (of_Z_pos p) as (c & s & -> & Hd & Hc & Hv).
    destruct (digits_text _ Hd) as (Hlen & Hdig & _).
    cbn [is_valid_kk_no]. rewrite Hlen, !andb_true_iff, negb_true_iff.
    rewrite Nat.eqb_eq, (pow10_len_16 s c Hd Hc), Hv.
    change (negb (String c s =? "")%string) with true in Hdig.
    rewrite Hdig. split.
    + intros [[_ Hb] Hz]. split; [done|]. intros Hm.
      rewrite <- Hv in Hm, Hb. apply pow10_len_16 in Hb; [|done..].
      apply last4_zeros in Hm; [|done | lia].
      rewrite Hm in Hz. discriminate Hz.
    + intros [Hb Hm]. split; [done|].
      apply String.eqb_neq. intros Hz. apply Hm.
      rewrite <- Hv. apply last4_zeros; [done | | done].
      rewrite <- Hv in Hb. apply pow10_len_16 in Hb; [lia | done..].
  - split.
    + unfold PyStr.of_Z. cbn [Z.to_int NilZero.string_of_int is_valid_kk_no].
      match goal with
      | |- context [PyStr.isdigit (String ?c ?b)] =>
          pose proof (isdigit_app_ascii "" c b eq_refl eq_refl eq_refl) as H
      end.
      rewrite append_empty_l in H. rewrite H. discriminate.
    + lia.
Qed.

End Decimals.

Lemma all_chars_app p (a b : string) :
  PyStr.all_chars p (a +:+ b) = PyStr.all_chars p a && PyStr.all_chars p b.
Proof.
  induction a as [|c a IH]; [done|].
  rewrite append_cons. cbn [PyStr.all_chars]. by rewrite IH, andb_assoc.
Qed.

Lemma four_digits_ascii n :
  PyStr.all_chars Unicode.is_ascii (Calendar.four_digits n) = true.
Proof.
  unfold Calendar.four_digits. cbn [PyStr.all_chars].
  by rewrite !(proj1 (digit_char_reads _)).
Qed.

(** The text of a date starts with four digits and a hyphen: it does not
    hold digits only. *)
Lemma isoformat_not_digits d rest :
  PyStr.isdigit (Calendar.isoformat d +:+ rest) = false.
Proof.
  unfold Calendar.isoformat. rewrite !append_assoc.
  apply (isdigit_app_ascii (Calendar.four_digits (year d)) "-");
    [apply four_digits_ascii | done..].
Qed.

Lemma timestamp_text_not_digits t :
  PyStr.isdigit (py_str (VTimestamp t)) = false.
Proof. apply isoformat_not_digits. Qed.

(** X14. Once lines 340-341 have turned a KK_NO or NIK cell [x] into
    the text [str(x)], the cell passes its check iff [x] was a text that
    passes, or an integer of sixteen digits that is not a multiple of
    10000; an empty cell, a missing date and a timestamp fail.  The two
    predicates agree. *)
Theorem identity_cell_as_text (x : value) :
  is_valid_nik (VStr (py_str x)) = is_valid_kk_no (VStr (py_str x)) /\
  (is_valid_kk_no (VStr (py_str x)) = true <->
   match x with
   | VStr s => is_valid_kk_no (VStr s) = true
   | VInt n => (10 ^ 15 <= n < 10 ^ 16 /\ n mod 10000 <> 0)%Z
   | _ => False
   end).
Proof.
  split; [reflexivity|].
  destruct x as [s|t|n| | | |t|d]; cbn [py_str].
  - reflexivity.
  - cbn [is_valid_kk_no]. by rewrite isoformat_not_digits.
  - apply is_valid_kk_no_of_Z.
  - split; [vm_compute; discriminate | done].
  - split; [vm_compute; discriminate | done].
  - split; [vm_compute; discriminate | done].
  - cbn [is_valid_kk_no]. by rewrite isoformat_not_digits.
  - cbn [is_valid_kk_no]. rewrite <- (append_empty_r (Calendar.isoformat d)).
    by rewrite isoformat_not_digits.
Qed.

(** ** White space around a birth place *)

Section Strip.

Import PyStr.

Lemma isspace_upper_char c : isspace_char (upper_char c) = isspace_char c.
Proof. destruct c as [[] [] [] [] [] [] [] []]; reflexivity. Qed.

Lemma len_upper s : String.length (upper s) = String.length s.
Proof. induction s as [|c s IH]; [done|]. cbn. by rewrite IH. Qed.

Lemma upper_lstrip s : lstrip (upper s) = upper (lstrip s).
Proof.
  induction s as [|c s IH]; [done|]. cbn [upper lstrip].
  rewrite isspace_upper_char. by destruct (isspace_char c).
Qed.

Lemma upper_rstrip s : rstrip (upper s) = upper (rstrip s).
Proof.
  induction s as [|c s IH]; [done|]. cbn [upper rstrip]. rewrite IH.
  destruct (rstrip s) as [|a r]; cbn [upper].
  - rewrite isspace_upper_char. by destruct (isspace_char c).
  - reflexivity.
Qed.

Lemma upper_strip s : strip (upper s) = upper (strip s).
Proof. unfold strip. by rewrite upper_lstrip, upper_rstrip. Qed.

Lemma len_lstrip s : (String.length (lstrip s) <= String.length s)%nat.
Proof.
  induction s as [|c s IH]; [done|]. cbn [lstrip].
  destruct (isspace_char c); cbn [String.length]; lia.
Qed.

Lemma lstrip_fixed s : String.length (lstrip s) = String.length s -> lstrip s = s.
Proof.
  destruct s as [|c s]; [done|]. cbn [lstrip].
  destruct (isspace_char c); [|done].
  pose proof (len_lstrip s). cbn [String.length]. lia.
Qed.

Lemma len_rstrip s : (String.length (rstrip s) <= String.length s)%nat.
Proof.
  induction s as [|c s IH]; [done|]. cbn [rstrip].
  destruct (rstrip s) as [|a r]; [destruct (isspace_char c)|];
    cbn [String.length] in *; lia.
Qed.

Lemma rstrip_fixed s : String.length (rstrip s) = String.length s -> rstrip s = s.
Proof.
  induction s as [|c s IH]; [done|]. cbn [rstrip].
  pose proof (len_rstrip s) as Hle. 
  destruct (rstrip s) as [|a r].
  - destruct (isspace_char c); cbn [String.length] in *; [lia|].
    intros H. destruct s; [done | cbn [String.length] in H; lia].
  - cbn [String.length] in *. intros H. rewrite IH by lia. reflexivity.
Qed.

Lemma strip_fixed s : String.length (strip s) = String.length s -> strip s = s.
Proof.
  unfold strip. intros H.
  pose proof (len_rstrip (lstrip s)). pose proof (len_lstrip s).
  rewrite rstrip_fixed by lia. apply lstrip_fixed. lia.
Qed.

Lemma rstrip_idem s : rstrip (rstrip s) = rstrip s.
Proof.
  induction s as [|c s IH]; [done|]. cbn [rstrip].
  destruct (rstrip s) as [|a r] eqn:E.
  - destruct (isspace_char c) eqn:Hc; [done|]. cbn [rstrip]. by rewrite Hc.
  - cbn [rstrip]. cbn [rstrip] in IH. by rewrite IH.
Qed.

Lemma lstrip_head s c t : lstrip s = String c t -> isspace_char c = false.
Proof.
  induction s as [|a s IH]; [done|]. cbn [lstrip].
  destruct (isspace_char a) eqn:Ha; [exact IH|]. by intros [= <- _].
Qed.

Lemma rstrip_head c s :
  rstrip (String c s) = "" \/ exists r, rstrip (String c s) = String c r.
Proof.
  cbn [rstrip]. destruct (rstrip s); [destruct (isspace_char c)|]; eauto.
Qed.

Lemma strip_idem s : strip (strip s) = strip s.
Proof.
  unfold strip. destruct (lstrip s) as [|c t] eqn:E; [done|].
  apply lstrip_head in E.
  destruct (rstrip_head c t) as [-> | [r Hr]]; [done|]. rewrite Hr.
  cbn [lstrip]. rewrite E, <- Hr. apply rstrip_idem.
Qed.

(** A text that is the upper-case form of a trimmed text is trimmed. *)
Lemma upper_of_trimmed s e :
  strip e = e -> upper s = upper e -> strip s = s.
Proof.
  intros He Hs. apply strip_fixed.
  rewrite <- (len_upper (strip s)), <- upper_strip, Hs, upper_strip, He.
  by rewrite <- Hs, len_upper.
Qed.

End Strip.

(** X15. With a city list read from the first column of a table
    without [CITY_DESC], with or without the supplementary list, a
    birth place with white space before or after it fails the check:
    line 284 trims the entries and line 41 does not trim the value. *)
Theorem plain_city_list_rejects_padding (label : string)
    (cells : list string) (rest : list (string * list string))
    (new_kota_option : bool) (kota : list string) (s : string) :
  Forall (fun col => fst col <> "CITY_DESC") ((label, cells) :: rest) ->
  load_kota_indonesia ((label, cells) :: rest) new_kota_option = Ok kota ->
  PyStr.strip s <> s ->
  is_valid_tempat_lahir kota (VStr s) = false.
Proof.
  intros Hcols Hload Hpad. unfold load_kota_indonesia in Hload.
  rewrite list_find_no_city_desc in Hload by done.
  cbn [mbind result_bind] in Hload. injection Hload as <-.
  cbn [is_valid_tempat_lahir]. apply bool_decide_eq_false_2. intros Hin.
  apply Hpad.
  assert (Hcell : PyStr.upper s ∈
            (fun city => PyStr.upper (PyStr.strip city)) <$> cells ->
          PyStr.strip s = s).
  { intros H. apply list_elem_of_fmap in H as (e & He & _).
    apply (upper_of_trimmed s (PyStr.strip e)); [apply strip_idem | done]. }
  destruct new_kota_option; [|by apply Hcell].
  apply elem_of_app in Hin as [Hin | Hin]; [by apply Hcell|].
  unfold new_kota in Hin.
  repeat (apply elem_of_cons in Hin as [Hin | Hin];
          [match type of Hin with
           | _ = ?k => apply (upper_of_trimmed s k); [reflexivity | exact Hin]
           end|]).
  by apply elem_of_nil in Hin.
Qed.

(** ** Runs on sample tables *)


(** [clean_data] on the sample tables. *)
Lemma clean_data_batch :
  clean_data Sample.cities Sample.today Witness.batch
  = Ok (Witness.batch_raw, Witness.batch_messy, Witness.batch_clean).
Proof. by_computation. Qed.

Lemma clean_data_all_clean :
  clean_data Sample.cities Sample.today Witness.all_clean
  = Ok (Witness.all_clean_raw, Witness.all_clean_messy, Witness.all_clean).
Proof. by_computation. Qed.

Lemma clean_data_hundred :
  clean_data Sample.cities Sample.today Witness.hundred
  = Ok (Witness.hundred_raw, Witness.hundred_messy, Witness.hundred_clean).
Proof. by_computation. Qed.

(** The partition on the two-row table. *)
Lemma clean_data_partition_witness :
  required_columns ⊆ columns Witness.batch /\
  forallb ids_are_str (rows Witness.batch) = true /\
  exists raw_df messy_df clean_df,
    clean_data Sample.cities Sample.today Witness.batch
    = Ok (raw_df, messy_df, clean_df) /\
    (Frame.len clean_df + Frame.len messy_df = 2)%Z.
Proof.
  split; [done|]. split; [vm_compute; reflexivity|].
  destruct (clean_data_partition Sample.cities Sample.today Witness.batch)
    as (raw_df & messy_df & clean_df & Hok & _ & _ & _ & _ & _ & _ & Hlen);
    [done | vm_compute; reflexivity |].
  exists raw_df, messy_df, clean_df. split; [exact Hok | exact Hlen].
Defined.

(** A row whose KK_NO cell is an integer, given to [clean_data] as it
    is. *)
Lemma clean_data_raises_on_integer_kk_no :
  required_columns ⊆ columns (Sample.frame [Witness.kk_int]) /\
  isinstance_str (Frame.cell Witness.kk_int "KK_NO") = false /\
  clean_data Sample.cities Sample.today (Sample.frame [Witness.kk_int])
  = Raise TypeError.
Proof.
  split; [done|]. split; [vm_compute; reflexivity|].
  apply clean_data_raises_on_non_string_id; [done|].
  exists Witness.kk_int. split; [by apply list_elem_of_singleton|].
  left. vm_compute. reflexivity.
Defined.

(** The outputs for the two-row table keep its cells and columns. *)
Lemma clean_data_frame_witness :
  rows Witness.batch_clean = [Sample.good] /\
  columns Witness.batch_clean = required_columns /\
  columns Witness.batch_messy = required_columns ++ ["Check_Desc"].
Proof.
  destruct (clean_data_frame Sample.cities Sample.today Witness.batch
              Witness.batch_raw Witness.batch_messy Witness.batch_clean)
    as (Hcols & _ & Hrows & Hmessy & _).
  - by_computation.
  - intros r Hr.
    repeat (apply elem_of_cons in Hr as [-> | Hr]; [vm_compute; reflexivity|]).
    by apply elem_of_nil in Hr.
  - exact clean_data_batch.
  - split; [reflexivity|]. split; [exact Hcols | exact Hmessy].
Defined.

(** A table with clean rows only has no summary. *)
Lemma generate_summary_excel_zero_division_witness :
  clean_data Sample.cities Sample.today Witness.all_clean
  = Ok (Witness.all_clean_raw, Witness.all_clean_messy, Witness.all_clean) /\
  rows Witness.all_clean_messy = [] /\
  generate_summary_excel Trial.to_excel Witness.all_clean_messy
    Witness.all_clean 1
  = Raise ZeroDivisionError.
Proof.
  split; [exact clean_data_all_clean|]. split; [reflexivity|].
  apply (generate_summary_excel_zero_division Sample.cities Sample.today
           Trial.to_excel Witness.all_clean Witness.all_clean_raw).
  - exact clean_data_all_clean.
  - left. reflexivity.
Defined.

(** The totals for a hundred rows, ten of them messy, with fifteen
    flagged fields. *)
Lemma summary_totals_witness :
  exists st,
    summary_statistics Witness.hundred_messy Witness.hundred_clean = Ok st /\
    Frame.len Witness.hundred = 100%Z /\
    Frame.len Witness.hundred_messy = 10%Z /\
    total_invalid st = 60%Z /\
    messy_invalid st = 15%Z /\
    clean_invalid st = 45%Z.
Proof.
  destruct (summary_totals Sample.cities Sample.today Witness.hundred
              Witness.hundred_raw Witness.hundred_messy Witness.hundred_clean)
    as (st & Hst & _ & _ & _ & H60 & H45);
    [reflexivity | exact clean_data_hundred |].
  exists st. split; [exact Hst|].
  assert (Hlen : Frame.len Witness.hundred_messy = 10%Z)
    by (vm_compute; reflexivity).
  assert (Hsum : messy_invalid st = 15%Z).
  { revert Hst. vm_compute. intros [= <-]. reflexivity. }
  split; [vm_compute; reflexivity|]. split; [exact Hlen|].
  split; [exact (H60 Hlen)|]. split; [exact Hsum | exact (H45 Hlen Hsum)].
Defined.

(** C8, as stated, fails: a row whose gender cell is the text
    "Invalid NIK" has a valid NIK, yet its diagnostic contains the NIK
    marker and the summary counts it as an invalid NIK. *)
Lemma marker_counts_injection :
  clean_data Sample.cities Sample.today Witness.injected_batch
  = Ok (Witness.injected_raw, Witness.injected_raw, Witness.injected_clean) /\
  invalid_nik <$> summary_statistics Witness.injected_raw Witness.injected_clean
  = Ok 1%Z /\
  failing Sample.cities Sample.today NIK (rows Witness.injected_raw) = 0%Z.
Proof.
  split; [by_computation|]. split; vm_compute; reflexivity.
Qed.

(** The KK_NO count of the two-row table, where no cell contains a
    marker. *)
Lemma marker_counts_witness :
  exists st,
    summary_statistics Witness.batch_messy Witness.batch_clean = Ok st /\
    counted KK_NO st = 1%Z /\
    failing Sample.cities Sample.today KK_NO (rows Witness.batch_messy) = 1%Z.
Proof.
  destruct (marker_counts Sample.cities Sample.today Witness.batch
              Witness.batch_raw Witness.batch_messy Witness.batch_clean)
    as (st & Hst & Hcnt); [exact clean_data_batch|].
  exists st. split; [exact Hst|].
  destruct (Hcnt KK_NO) as (_ & _ & Heq).
  assert (Hfail : failing Sample.cities Sample.today KK_NO
                    (rows Witness.batch_messy) = 1%Z)
    by (vm_compute; reflexivity).
  split; [|exact Hfail]. rewrite <- Hfail. apply Heq.
  intros r g Hr. apply list_elem_of_singleton in Hr as ->.
  destruct g; vm_compute; reflexivity.
Defined.

(** ** Runs of the further properties *)

(** [clean_data] with one more city, a day later. *)
Lemma clean_data_later :
  clean_data ("SURABAYA" :: Sample.cities) (mkDate 2024 6 16) Witness.batch
  = Ok (Witness.batch_raw, Witness.batch_messy, Witness.batch_clean).
Proof. by_computation. Qed.

(** The preparation of the sample uploads. *)
Lemma prepare_upload_clean :
  prepare Trial.to_datetime Trial.to_datetime Trial.upload_clean
  = Ok Trial.prepared_clean.
Proof. by_computation. Qed.

Lemma prepare_upload_mixed :
  prepare Trial.to_datetime Trial.to_datetime Trial.upload_mixed
  = Ok Trial.prepared_mixed.
Proof. by_computation. Qed.

(** The sample sort reorders its rows by decreasing count. *)
Lemma sort_values_Permutation l : Trial.sort_values l ≡ₚ l.
Proof. apply merge_sort_Permutation. Qed.

Lemma sort_values_Sorted l : Sorted by_count_desc (Trial.sort_values l).
Proof. apply (Sorted_merge_sort by_count_desc). Qed.

(** A table without the two identity columns. *)
Lemma clean_data_missing_column_witness :
  clean_data Sample.cities Sample.today Trial.upload_short = Raise KeyError.
Proof.
  apply (clean_data_missing_column Sample.cities Sample.today
           Trial.upload_short); [discriminate|].
  exists "KK_NO". split; [apply list_elem_of_here | by_computation].
Defined.

(** A second run on the annotated two-row table. *)
Lemma clean_data_rerun_witness :
  clean_data Sample.cities Sample.today Witness.batch_raw
  = Ok (Witness.batch_raw, Witness.batch_messy, Witness.batch_clean).
Proof.
  apply (clean_data_rerun Sample.cities Sample.today Witness.batch).
  exact clean_data_batch.
Defined.

(** The two-row table with one more city, a day later. *)
Lemma clean_data_monotone_witness :
  Sample.cities ⊆ "SURABAYA" :: Sample.cities /\
  Calendar.leb Sample.today (mkDate 2024 6 16) = true /\
  rows Witness.batch_clean ⊆ rows Witness.batch_clean /\
  (Frame.len Witness.batch_clean <= Frame.len Witness.batch_clean)%Z /\
  (Frame.len Witness.batch_messy <= Frame.len Witness.batch_messy)%Z.
Proof.
  assert (Hk : Sample.cities ⊆ "SURABAYA" :: Sample.cities)
    by (intros c Hc; by apply list_elem_of_further).
  split; [exact Hk|]. split; [reflexivity|].
  exact (clean_data_monotone Sample.cities ("SURABAYA" :: Sample.cities)
           Sample.today (mkDate 2024 6 16) Witness.batch
           Witness.batch_raw Witness.batch_messy Witness.batch_clean
           Witness.batch_raw Witness.batch_messy Witness.batch_clean
           Hk eq_refl clean_data_batch clean_data_later).
Defined.

(** The two-row table, row by row. *)
Lemma clean_data_app_witness :
  exists raw1 messy1 clean1 raw2 messy2 clean2,
    clean_data Sample.cities Sample.today (Sample.frame [Sample.good])
    = Ok (raw1, messy1, clean1) /\
    clean_data Sample.cities Sample.today (Sample.frame [Witness.kk_short])
    = Ok (raw2, messy2, clean2) /\
    rows Witness.batch_raw = rows raw1 ++ rows raw2 /\
    rows Witness.batch_messy = rows messy1 ++ rows messy2 /\
    rows Witness.batch_clean = rows clean1 ++ rows clean2.
Proof.
  apply (clean_data_app Sample.cities Sample.today required_columns
           [Sample.good] [Witness.kk_short]); [discriminate .. |].
  exact clean_data_batch.
Defined.

(** The bounds for the hundred rows. *)
Lemma summary_bounds_witness :
  exists st,
    summary_statistics Witness.hundred_messy Witness.hundred_clean = Ok st /\
    (messy_data st + clean_data_len st = Frame.len Witness.hundred)%Z /\
    (forall f, 0 <= counted f st <= messy_data st)%Z /\
    (messy_data st <= messy_invalid st <= 6 * messy_data st)%Z /\
    (0 <= clean_invalid st <= 5 * messy_data st)%Z.
Proof.
  apply (summary_bounds Sample.cities Sample.today Witness.hundred
           Witness.hundred_raw).
  - reflexivity.
  - exact clean_data_hundred.
Defined.

(** The summary of the two-row table. *)
Lemma generate_summary_excel_returns_witness :
  exists st percentages,
    generate_summary_excel Trial.to_excel Witness.batch_messy
      Witness.batch_clean 2
    = Trial.to_excel (st, percentages) Witness.batch_messy
        Witness.batch_clean /\
    summary_statistics Witness.batch_messy Witness.batch_clean = Ok st /\
    summary_percentages 2 st = Ok percentages /\
    List.length percentages = 12%nat /\
    (0 < total_invalid st)%Z.
Proof.
  apply (generate_summary_excel_returns Sample.cities Sample.today
           Trial.to_excel Witness.batch Witness.batch_raw).
  - exact clean_data_batch.
  - discriminate.
  - discriminate.
Defined.

(** A dashboard with three fields at the largest count. *)
Lemma most_problematic_is_maximal_witness :
  exists d,
    create_executive_dashboard Trial.sort_values 100 90 10 5 0 0 5 5 0 60
    = Ok d /\
    (most_problematic d, most_problematic_count d) ∈
      [("KK Number", 5%Z); ("NIK", 0%Z); ("Name", 0%Z); ("Gender", 5%Z);
       ("Birth Place", 5%Z); ("Birth Date", 0%Z)] /\
    (5 <= most_problematic_count d)%Z.
Proof.
  destruct (create_executive_dashboard Trial.sort_values
              100 90 10 5 0 0 5 5 0 60) as [d|e] eqn:Hd;
    [|vm_compute in Hd; discriminate Hd].
  exists d. split; [reflexivity|].
  destruct (most_problematic_is_maximal Trial.sort_values
              100 90 10 5 0 0 5 5 0 60 d
              sort_values_Permutation sort_values_Sorted Hd)
    as (Hin & Hkk & _).
  split; [exact Hin | exact Hkk].
Defined.

(** An upload with a seventh column, a KK_NO kept as a number and a
    missing NIK. *)
Lemma prepare_then_clean_data_witness :
  exists df_req raw_df messy_df clean_df,
    prepare Trial.to_datetime Trial.to_datetime Trial.upload_mixed
    = Ok df_req /\
    columns df_req = required_columns /\
    clean_data Sample.cities Sample.today df_req
    = Ok (raw_df, messy_df, clean_df).
Proof.
  destruct (prepare_then_clean_data Sample.cities Sample.today
              Trial.to_datetime Trial.to_datetime Trial.upload_mixed)
    as (df_req & raw_df & messy_df & clean_df & Hprep & Hcols & _ & Hok).
  - by_computation.
  - by exists df_req, raw_df, messy_df, clean_df.
Defined.


(** An upload with clean rows only. *)
Lemma process_all_clean_witness :
  process Sample.cities Sample.today Trial.to_datetime Trial.to_datetime
    Trial.sort_values Trial.to_excel Trial.upload_clean
  = Failed ZeroDivisionError.
Proof.
  apply (process_all_clean Sample.cities Sample.today Trial.to_datetime
           Trial.to_datetime Trial.sort_values Trial.to_excel
           Trial.upload_clean Trial.prepared_clean).
  - reflexivity.
  - by_computation.
  - exact prepare_upload_clean.
  - vm_compute. reflexivity.
Defined.

(** An upload with one messy row out of two, with a writer that returns
    and with one that raises. *)
Lemma process_reports_witness :
  (exists report,
     process Sample.cities Sample.today Trial.to_datetime Trial.to_datetime
       Trial.sort_values Trial.to_excel Trial.upload_mixed
     = Done report /\
     report_total_data report = 2%Z /\
     (0 < messy_data (report_stats report))%Z /\
     total_invalid (report_stats report)
     = (6 * messy_data (report_stats report))%Z /\
     report_excel report = []) /\
  process Sample.cities Sample.today Trial.to_datetime Trial.to_datetime
    Trial.sort_values Trial.to_excel_fails Trial.upload_mixed
  = Failed IllegalCharacterError.
Proof.
  split.
  - destruct (process_reports Sample.cities Sample.today Trial.to_datetime
                Trial.to_datetime Trial.sort_values Trial.to_excel
                Trial.upload_mixed Trial.prepared_mixed)
      as (messy_df & clean_df & st & text & Hm & Hc & _ & _ & Hpos & _ &
          Hinv & Hrun).
    + exact sort_values_Permutation.
    + reflexivity.
    + by_computation.
    + exact prepare_upload_mixed.
    + vm_compute. reflexivity.
    + assert (Hw : Trial.to_excel (st, text) messy_df clean_df = Ok []).
      { unfold Trial.to_excel, Frame.len. rewrite Hm, Hc. reflexivity. }
      rewrite Hw in Hrun.
      destruct Hrun as (report & Hrun & Htotal & _ & _ & Hst & _ & Hx).
      exists report. rewrite Hst.
      split; [exact Hrun|]. split; [exact Htotal|].
      split; [exact Hpos|]. split; [exact Hinv | exact Hx].
  - destruct (process_reports Sample.cities Sample.today Trial.to_datetime
                Trial.to_datetime Trial.sort_values Trial.to_excel_fails
                Trial.upload_mixed Trial.prepared_mixed)
      as (messy_df & clean_df & st & text & _ & _ & _ & _ & _ & _ & _ & Hrun).
    + exact sort_values_Permutation.
    + reflexivity.
    + by_computation.
    + exact prepare_upload_mixed.
    + vm_compute. reflexivity.
    + exact Hrun.
Defined.

(** An upload without the two identity columns is stopped. *)
Lemma process_outcome_witness :
  exists missing_columns,
    process Sample.cities Sample.today Trial.to_datetime Trial.to_datetime
      Trial.sort_values Trial.to_excel Trial.upload_short
    = Stopped (MissingColumns missing_columns) /\
    "KK_NO" ∈ missing_columns.
Proof.
  destruct (process_outcome Sample.cities Sample.today Trial.to_datetime
              Trial.to_datetime Trial.sort_values Trial.to_excel
              Trial.upload_short sort_values_Permutation)
    as [[He _] | [(l & _ & Hl & Hrun) | [[Hreq _] | [[Hreq _] | [Hreq _]]]]].
  - discriminate He.
  - exists l. split; [exact Hrun|]. apply Hl. split; [|by_computation].
    apply list_elem_of_here.
  - exfalso. revert Hreq. by_computation.
  - exfalso. revert Hreq. by_computation.
  - exfalso. revert Hreq. by_computation.
Defined.

(** A birth place with a space before it. *)
Lemma plain_city_list_rejects_padding_witness :
  load_kota_indonesia [("CITY", ["Jakarta"; "Bandung"])] true
  = Ok (["JAKARTA"; "BANDUNG"] ++ new_kota) /\
  is_valid_tempat_lahir (["JAKARTA"; "BANDUNG"] ++ new_kota)
    (VStr " Jakarta") = false.
Proof.
  split; [reflexivity|].
  apply (plain_city_list_rejects_padding "CITY" ["Jakarta"; "Bandung"] []
           true).
  - repeat constructor. discriminate.
  - reflexivity.
  - discriminate.
Defined.
